(** * PredictMe agent SDK: sequence store, grid selection, commentary, bet submission

    A shallow embedding of [lib/nonce.js], [lib/strategy.js], [lib/commentary.js]
    and [lib/config.js], of the constructor, [placeBet] and [pickAndBet] of
    [lib/api.js], and of the commands [bet] and [run] of [cli.js], with the
    properties of the trading core proved over it.

    Conventions of the embedding.
    - A JavaScript string is a sequence of code units; the code units of the
      8-bit range are modelled, as [ascii], so [String.length] is the
      [.length] of the source.
    - A JavaScript number that is an integer is the [Z] it denotes, and it is a
      double: a result that is no double is rounded to the nearest one, ties
      to the even significand ([JS.toNumber]), so counting by one stops at
      [2 ^ 53]. A [NaN] result of [parseInt] is [None]. The infinities, which
      only a digit string of more than 308 digits brings in, and numbers that
      are no integers are outside the model.
    - The doubles of the strategies are kept behind an interface of their
      operations and the order laws of [<]; exact decimals are one model of it.
    - [null] and [undefined] fields are [None].
    - The file system is a finite map from paths to contents; the clock, the
      write permission and the remote server belong to the environment, and the
      methods of the agent run in a state-and-exception monad over it. The
      configured [apiUrl] is taken to be a well-formed URL.
    - The odds request of [pickAndBet] is answered by a feed; a strategy
      function of the caller is a function from the grids and the price to a
      grid. Of the command line, printing and the pauses between rounds are
      left out. *)

From Stdlib Require Import ZArith QArith Qabs String Ascii List Lia Permutation.
From Stdlib Require Import DecimalString DecimalPos.
From stdpp Require Import base gmap strings list.

(** ** JavaScript primitives used by the sources *)

Module JS.

Local Open Scope string_scope.

(** Code units matched by [\s] and removed by [String.prototype.trim], within
    the modelled range: TAB, LF, VT, FF, CR, SPACE and NBSP. *)
Definition is_ws (c : ascii) : bool :=
  let n := nat_of_ascii c in
  (Nat.leb 9 n && Nat.leb n 13) || Nat.eqb n 32 || Nat.eqb n 160.

Fixpoint trimStart (s : string) : string :=
  match s with
  | EmptyString => EmptyString
  | String c s' => if is_ws c then trimStart s' else s
  end.

Fixpoint trimEnd (s : string) : string :=
  match s with
  | EmptyString => EmptyString
  | String c s' =>
      match trimEnd s' with
      | EmptyString => if is_ws c then EmptyString else String c EmptyString
      | t => String c t
      end
  end.

(** [s.trim()] *)
Definition trim (s : string) : string := trimEnd (trimStart s).

(** The double nearest to the integer [z], ties to the even significand: the
    Number value of [z]. Up to [2 ^ 53] in magnitude every integer is a double;
    beyond, [e] is the exponent of the last place and [q] the 53 leading bits.
    (Past the largest double, about 1.8e308, the source has [Infinity], which
    is no integer and which the model does not have.) *)
Definition toNumber (z : Z) : Z :=
  let a := Z.abs z in
  if Z.ltb a (2 ^ 53) then z
  else
    let e := (Z.log2 a - 52)%Z in
    let q := Z.shiftr a e in
    let r := (a - Z.shiftl q e)%Z in
    let half := (2 ^ (e - 1))%Z in
    let q' := if Z.ltb r half then q
              else if Z.ltb half r then (q + 1)%Z
              else if Z.even q then q else (q + 1)%Z in
    (Z.sgn z * Z.shiftl q' e)%Z.

(** [a + b] on numbers: the sum, rounded. *)
Definition plus (a b : Z) : Z := toNumber (a + b).

Definition digit_of (c : ascii) : option Z :=
  let n := nat_of_ascii c in
  if Nat.leb 48 n && Nat.leb n 57 then Some (Z.of_nat (n - 48)) else None.

Fixpoint parseDigits (acc : Z) (s : string) : Z :=
  match s with
  | EmptyString => acc
  | String c s' =>
      match digit_of c with
      | Some d => parseDigits (10 * acc + d) s'
      | None => acc
      end
  end.

(** [parseInt(s, 10)]: leading white space is skipped, an optional sign is
    read, then the longest prefix of decimal digits; the result is the number
    nearest to the integer they denote; [None] is [NaN]. *)
Definition parseInt (s : string) : option Z :=
  let s1 := trimStart s in
  let '(neg, body) :=
    match s1 with
    | String "-"%char r => (true, r)
    | String "+"%char r => (false, r)
    | _ => (false, s1)
    end in
  match body with
  | EmptyString => None
  | String c _ =>
      match digit_of c with
      | Some _ =>
          Some (toNumber (if neg then (- parseDigits 0 body)%Z else parseDigits 0 body))
      | None => None
      end
  end.

(** A string of decimal digits only. *)
Fixpoint all_digits (s : string) : bool :=
  match s with
  | EmptyString => true
  | String c s' => match digit_of c with Some _ => all_digits s' | None => false end
  end.

(** The decimal digits of an integer, with a minus sign when it is negative. *)
Definition decimalText (n : Z) : string := NilZero.string_of_int (Z.to_int n).

(** The digits [String] prints are the fewest that read back as the number.
    [shortest_at x scale] is the candidate that keeps the digits of [x] above
    [scale]: the multiple of [scale] below [x] or the one above, when it reads
    back as [x]; of two, the nearer, and on a tie the one whose last digit is
    even. *)
Definition shortest_at (x scale : Z) : option Z :=
  let lo := (x / scale * scale)%Z in
  let hi := (lo + scale)%Z in
  match Z.eqb (toNumber lo) x, Z.eqb (toNumber hi) x with
  | true, true =>
      Some (if Z.ltb (x - lo) (hi - x) then lo
            else if Z.ltb (hi - x) (x - lo) then hi
            else if Z.even (x / scale) then lo else hi)
  | true, false => Some lo
  | false, true => Some hi
  | false, false => None
  end.

Fixpoint shortest_from (digits : nat) (x : Z) : Z :=
  match digits with
  | O => x
  | S k =>
      match shortest_at x (10 ^ Z.of_nat digits) with
      | Some y => y
      | None => shortest_from k x
      end
  end.

(** The integer of fewest significant digits that reads back as the number
    [x > 0]. *)
Definition shortest (x : Z) : Z :=
  shortest_from (String.length (decimalText x) - 1) x.

Fixpoint dropZeros (s : string) : string :=
  match s with
  | EmptyString => EmptyString
  | String c s' =>
      match dropZeros s' with
      | EmptyString => if Ascii.eqb c "0" then EmptyString else String c EmptyString
      | t => String c t
      end
  end.

(** [String(x)] for a number [x > 0]: the shortest digits, followed by zeros
    up to 21 digits in all, and in exponent notation from there on. *)
Definition positiveToString (x : Z) : string :=
  let text := decimalText (shortest x) in
  let n := String.length text in
  if Nat.leb n 21 then text
  else
    match dropZeros text with
    | EmptyString => text
    | String d EmptyString => String d ("e+" ++ decimalText (Z.of_nat (n - 1)))
    | String d rest => String d ("." ++ rest ++ "e+" ++ decimalText (Z.of_nat (n - 1)))
    end.

(** [String(n)] of an integral number. Up to [2 ^ 53] in magnitude the
    shortest digits that read back are the number's own. *)
Definition numToString (n : Z) : string :=
  if Z.leb (Z.abs n) (2 ^ 53) then decimalText n
  else if Z.ltb n 0 then "-" ++ positiveToString (- n)
  else positiveToString n.

(** [a || b] on numbers where [a] may be [NaN]: [0] and [NaN] are falsy. *)
Definition num_or (a : option Z) (b : Z) : Z :=
  match a with
  | Some n => if Z.eqb n 0 then b else n
  | None => b
  end.

(** [s.toLowerCase()] on the modelled range: A-Z, and the Latin-1 capitals
    0xC0-0xDE other than the multiplication sign 0xD7. On this range the
    result has as many code units as the text; beyond it a capital may
    lower-case to two of them, so no property below relies on the lengths
    being equal. *)
Definition lower_unit (c : ascii) : ascii :=
  let n := nat_of_ascii c in
  if (Nat.leb 65 n && Nat.leb n 90)
     || (Nat.leb 192 n && Nat.leb n 222 && negb (Nat.eqb n 215))
  then ascii_of_nat (n + 32) else c.

Fixpoint toLowerCase (s : string) : string :=
  match s with
  | EmptyString => EmptyString
  | String c s' => String (lower_unit c) (toLowerCase s')
  end.

(** [s.includes(t)] *)
Fixpoint includes (s t : string) : bool :=
  String.prefix t s ||
  match s with
  | EmptyString => false
  | String _ s' => includes s' t
  end.

(** [s.split(/\s+/)]: the pieces between maximal runs of white space; a
    leading or trailing run leaves an empty piece at that end. *)
Fixpoint split_go (in_sep : bool) (cur : string) (s : string) : list string :=
  match s with
  | EmptyString => [cur]
  | String c s' =>
      if is_ws c
      then (if in_sep then split_go true cur s' else cur :: split_go true EmptyString s')
      else split_go false (cur ++ String c EmptyString) s'
  end.

Definition split_ws (s : string) : list string := split_go false EmptyString s.

Fixpoint string_drop (n : nat) (s : string) : string :=
  match n, s with
  | O, _ => s
  | S _, EmptyString => EmptyString
  | S k, String _ s' => string_drop k s'
  end.

(** The replacement text of [String.prototype.replace] for a pattern without
    capture groups: [$$] is a dollar, [$&] the match, [$`] the text before the
    match, [$'] the text after it; any other dollar stands for itself. *)
Fixpoint getSubstitution (matched before after replacement : string) : string :=
  match replacement with
  | EmptyString => EmptyString
  | String a rest =>
      if Ascii.eqb a "$" then
        match rest with
        | String c r =>
            if Ascii.eqb c "$" then String "$" (getSubstitution matched before after r)
            else if Ascii.eqb c "&" then matched ++ getSubstitution matched before after r
            else if Ascii.eqb c "`" then before ++ getSubstitution matched before after r
            else if Ascii.eqb c "'" then after ++ getSubstitution matched before after r
            else String a (getSubstitution matched before after rest)
        | EmptyString => String a EmptyString
        end
      else String a (getSubstitution matched before after rest)
  end.

(** [s.replace(/pat/g, rep)] for a non-empty literal pattern: the matches are
    found from left to right in [s] and do not overlap; [before] is the text
    already passed and [skip] the part of a match still to step over. *)
Fixpoint replace_go (pat rep before : string) (skip : nat) (s : string) : string :=
  match s with
  | EmptyString => EmptyString
  | String c s' =>
      match skip with
      | S k => replace_go pat rep (before ++ String c EmptyString) k s'
      | O =>
          if String.prefix pat s
          then getSubstitution pat before (string_drop (String.length pat) s) rep
               ++ replace_go pat rep (before ++ String c EmptyString) (String.length pat - 1) s'
          else String c (replace_go pat rep (before ++ String c EmptyString) 0 s')
      end
  end.

Definition replaceAll (pat rep s : string) : string :=
  replace_go pat rep EmptyString 0 s.

(** The values a template context holds: [undefined], [null], booleans,
    integral numbers, [NaN] and strings. Functions and objects, which [replace]
    would call or print through their own [toString], are outside the model. *)
Inductive value :=
| Undefined
| Null
| Bool (b : bool)
| Num (n : Z)
| NaN
| Str (s : string).

Definition truthy (v : value) : bool :=
  match v with
  | Undefined | Null => false
  | Bool b => b
  | Num n => negb (Z.eqb n 0)
  | NaN => false
  | Str s => negb (String.eqb s "")
  end.

Definition toString (v : value) : string :=
  match v with
  | Undefined => "undefined"
  | Null => "null"
  | Bool true => "true"
  | Bool false => "false"
  | Num n => numToString n
  | NaN => "NaN"
  | Str s => s
  end.

(** [obj.key]: a key that is absent reads as [undefined]. *)
Definition prop (obj : gmap string value) (key : string) : value :=
  default Undefined (obj !! key).

(** [v || d] handed to [replace], which converts it to a string. *)
Definition or_else (v : value) (d : string) : string :=
  if truthy v then toString v else d.

End JS.

(** ** [lib/nonce.js]: the file-backed sequence store *)

Module Nonce.

Import JS.

(** What a store can observe of its environment: the files, whether
    [writeFileSync] succeeds, [Date.now()], and (as a trace) every write that
    was attempted, as [(path, data)], oldest first. *)
Record World := mkWorld {
  files : gmap string string;
  writable : bool;
  now : Z;
  attempts : list (string * string)
}.

Record NonceManager := mkNonceManager {
  filePath : string;
  _value : option Z
}.

(** [new NonceManager(filePath)] *)
Definition create (path : string) : NonceManager :=
  {| filePath := path; _value := None |}.

(** [fs.readFileSync(path, 'utf8')]; [None] when it throws. *)
Definition readFileSync (w : World) (path : string) : option string :=
  files w !! path.

(** [fs.writeFileSync(path, data)] inside [try { } catch { }] *)
Definition writeFileSync_caught (w : World) (path data : string) : World :=
  {| files := if writable w then <[path := data]> (files w) else files w;
     writable := writable w;
     now := now w;
     attempts := (attempts w ++ [(path, data)])%list |}.

Definition load (m : NonceManager) (w : World) : Z * NonceManager :=
  match _value m with
  | Some v => (v, m)
  | None =>
      let v :=
        match readFileSync w (filePath m) with
        | Some content =>
            let raw := trim content in
            num_or (parseInt raw) (now w)
        | None => now w
        end in
      (v, {| filePath := filePath m; _value := Some v |})
  end.

Definition _save (m : NonceManager) (w : World) : World :=
  match _value m with
  | Some v => writeFileSync_caught w (filePath m) (numToString v)
  | None => writeFileSync_caught w (filePath m) "null"
  end.

Definition next (m : NonceManager) (w : World) : Z * NonceManager * World :=
  let '(current, m1) := load m w in
  let m2 := {| filePath := filePath m1; _value := Some (JS.plus current 1) |} in
  let w' := _save m2 w in
  (JS.plus current 1, m2, w').

Definition set (value : Z) (m : NonceManager) (w : World) : NonceManager * World :=
  let m1 := {| filePath := filePath m; _value := Some value |} in
  (m1, _save m1 w).

(** Consecutive [next] calls on one store, the [i]-th in the [i]-th
    environment of the list: the tokens returned and the store left. *)
Fixpoint next_run (m : NonceManager) (ws : list World) : list Z * NonceManager :=
  match ws with
  | [] => ([], m)
  | w :: rest =>
      let '(n, m', _) := next m w in
      let '(ns, m'') := next_run m' rest in
      (n :: ns, m'')
  end.

End Nonce.

(** ** [lib/commentary.js]: validation, templates and the quality score *)

Module Commentary.

Import JS.
Local Open Scope string_scope.

Definition MIN_LENGTH : nat := 20.
Definition MAX_LENGTH : nat := 500.

Definition TECHNICAL_TERMS : list string :=
  [ "rsi"; "macd"; "ema"; "sma"; "bollinger"; "fibonacci"; "fib";
    "support"; "resistance"; "breakout"; "breakdown"; "divergence";
    "oversold"; "overbought"; "volume"; "momentum"; "trend";
    "bullish"; "bearish"; "consolidation"; "reversal"; "wedge";
    "channel"; "moving average"; "funding rate"; "open interest";
    "liquidation"; "whale"; "accumulation"; "distribution" ].

Definition nl : string := String (ascii_of_nat 10) EmptyString.
Definition dq : string := String (ascii_of_nat 34) EmptyString.
Definition lenText (n : nat) : string := numToString (Z.of_nat n).

Record Validation := mkValidation {
  valid : bool;
  error : option string
}.

(** The two dashes of the source text are outside the modelled range of code
    units and stand here in their UTF-8 bytes. *)
Definition required_message : string :=
  "Commentary is required (min " ++ lenText MIN_LENGTH ++ " chars)." ++ nl ++ nl
  ++ "Good examples:" ++ nl
  ++ "  " ++ dq ++ "BTC testing $95k support with RSI at 28, expecting bounce to $97k" ++ dq ++ nl
  ++ "  " ++ dq ++ "ETH breaking out of consolidation, volume spike confirms momentum" ++ dq ++ nl ++ nl
  ++ "Bad examples (rejected):" ++ nl
  ++ "  " ++ dq ++ "bullish" ++ dq ++ " — too short/vague" ++ nl
  ++ "  " ++ dq ++ "going up" ++ dq ++ " — no reasoning".

Definition too_short_message (len : nat) : string :=
  "Commentary too short (" ++ lenText len ++ " chars, min " ++ lenText MIN_LENGTH
  ++ "). Add more detail about WHY.".

Definition validate (commentary : string) : Validation :=
  if String.eqb commentary "" || String.eqb (trim commentary) ""
  then {| valid := false; error := Some required_message |}
  else
    let trimmed := trim commentary in
    if Nat.ltb (String.length trimmed) MIN_LENGTH
    then {| valid := false; error := Some (too_short_message (String.length trimmed)) |}
    else {| valid := true; error := None |}.

Definition renderTemplate (template : string) (context : gmap string value) : string :=
  if String.eqb template "" then ""
  else
    let t1 := replaceAll "{round}" (or_else (prop context "round") "?") template in
    let t2 := replaceAll "{price}" (or_else (prop context "price") "?") t1 in
    let t3 := replaceAll "{asset}" (or_else (prop context "asset") "?") t2 in
    let t4 := replaceAll "{odds}" (or_else (prop context "odds") "?") t3 in
    let t5 := replaceAll "{gridLevel}" (or_else (prop context "gridLevel") "?") t4 in
    let t6 := replaceAll "{strategy}" (or_else (prop context "strategy") "?") t5 in
    String.substring 0 MAX_LENGTH t6.

(** The three additive parts of [qualityScore], on the trimmed text. *)
Definition lengthPoints (len : nat) : Z :=
  if Nat.leb 200 len then 50
  else if Nat.leb 100 len then 40
  else if Nat.leb 60 len then 30
  else if Nat.leb 40 len then 20
  else 10.

Definition uniqueWords (text : string) : nat :=
  size (list_to_set (C := gset string) (split_ws (toLowerCase text))).

Definition uniquePoints (unique : nat) : Z :=
  if Nat.leb 25 unique then 25
  else if Nat.leb 15 unique then 20
  else if Nat.leb 10 unique then 10
  else 0.

Definition termCount (text : string) : nat :=
  let lower := toLowerCase text in
  List.length (List.filter (fun term => includes lower term) TECHNICAL_TERMS).

Definition termPoints (count : nat) : Z :=
  if Nat.leb 4 count then 25
  else if Nat.leb 2 count then 15
  else if Nat.leb 1 count then 5
  else 0.

Definition qualityScore (commentary : string) : Z :=
  if String.eqb commentary "" then 0%Z
  else
    let text := trim commentary in
    let score := 0%Z in
    let score := (score + lengthPoints (String.length text))%Z in
    let score := (score + uniquePoints (uniqueWords text))%Z in
    let score := (score + termPoints (termCount text))%Z in
    Z.min 100 score.

Definition badgeTier (score : Z) : option string :=
  if Z.leb 90 score then Some "Diamond"
  else if Z.leb 75 score then Some "Gold"
  else if Z.leb 60 score then Some "Silver"
  else if Z.leb 40 score then Some "Bronze"
  else None.

(** The numbers a message shows: its maximal runs of decimal digits, read as
    numbers, in order. *)
Fixpoint numbers_go (cur : option nat) (s : string) : list nat :=
  match s with
  | EmptyString => match cur with Some n => [n] | None => [] end
  | String c s' =>
      match digit_of c with
      | Some d => numbers_go (Some (10 * default 0%nat cur + Z.to_nat d)%nat) s'
      | None =>
          match cur with
          | Some n => n :: numbers_go None s'
          | None => numbers_go None s'
          end
      end
  end.

Definition numbers_in (s : string) : list nat := numbers_go None s.

(** A message reports a number when the number is one of those it shows. *)
Definition reports (msg : string) (n : nat) : bool :=
  existsb (Nat.eqb n) (numbers_in msg).

(** The length brackets of the score: below 40, 40 to 59, 60 to 99, 100 to
    199, and 200 or more. *)
Definition bracket (len : nat) : nat :=
  if Nat.leb 200 len then 4
  else if Nat.leb 100 len then 3
  else if Nat.leb 60 len then 2
  else if Nat.leb 40 len then 1
  else 0.

End Commentary.

(** ** Templates as pieces

    A template whose every opening brace starts a group closed before the next
    opening brace reads as a sequence of pieces: plain text, one of the six
    markers, or some other group in braces. *)

Module Template.

Import JS.
Local Open Scope string_scope.

Inductive marker := Round | Price | Asset | Odds | GridLevel | StrategyName.

Definition marker_name (m : marker) : string :=
  match m with
  | Round => "round"
  | Price => "price"
  | Asset => "asset"
  | Odds => "odds"
  | GridLevel => "gridLevel"
  | StrategyName => "strategy"
  end.

Definition braced (s : string) : string := String "{" (s ++ "}").

(** The literal text the regular expression of a marker matches. *)
Definition pattern (m : marker) : string := braced (marker_name m).

Definition marker_eqb (a b : marker) : bool :=
  match a, b with
  | Round, Round | Price, Price | Asset, Asset | Odds, Odds
  | GridLevel, GridLevel | StrategyName, StrategyName => true
  | _, _ => false
  end.

Definition is_marker_name (s : string) : bool :=
  existsb (fun m => String.eqb s (marker_name m))
    [Round; Price; Asset; Odds; GridLevel; StrategyName].

Fixpoint has_unit (ch : ascii) (s : string) : bool :=
  match s with
  | EmptyString => false
  | String c s' => Ascii.eqb c ch || has_unit ch s'
  end.

Inductive piece :=
| Text (s : string)
| Known (m : marker)
| Other (s : string).

Definition piece_text (p : piece) : string :=
  match p with
  | Text s => s
  | Known m => pattern m
  | Other s => braced s
  end.

(** The template a sequence of pieces spells. *)
Fixpoint flatten (ps : list piece) : string :=
  match ps with
  | [] => EmptyString
  | p :: rest => piece_text p ++ flatten rest
  end.

(** Text holds no opening brace; another group holds no brace and is not one
    of the six names. *)
Definition well_formed (p : piece) : bool :=
  match p with
  | Text s => negb (has_unit "{" s)
  | Known _ => true
  | Other s => negb (has_unit "{" s) && negb (has_unit "}" s) && negb (is_marker_name s)
  end.

(** The piece a group in braces is: a marker if its content is one of the six
    names. *)
Definition classify (s : string) : piece :=
  match List.find (fun m => String.eqb s (marker_name m))
          [Round; Price; Asset; Odds; GridLevel; StrategyName] with
  | Some m => Known m
  | None => Other s
  end.

(** Reading a template as pieces, from left to right; [acc] is the text or the
    group content read so far. There is no reading when a group is left open
    or holds an opening brace. *)
Fixpoint parse_go (in_group : bool) (acc : string) (s : string) : option (list piece) :=
  match s with
  | EmptyString => if in_group then None else Some [Text acc]
  | String c s' =>
      if in_group then
        if Ascii.eqb c "{" then None
        else if Ascii.eqb c "}" then
          option_map (cons (classify acc)) (parse_go false EmptyString s')
        else parse_go true (acc ++ String c EmptyString) s'
      else
        if Ascii.eqb c "{" then
          option_map (cons (Text acc)) (parse_go true EmptyString s')
        else parse_go false (acc ++ String c EmptyString) s'
  end.

Definition parse (template : string) : option (list piece) :=
  parse_go false EmptyString template.

(** A sequence of pieces with each marker filled by [val]. *)
Fixpoint fill (val : marker -> string) (ps : list piece) : string :=
  match ps with
  | [] => EmptyString
  | Text s :: rest => s ++ fill val rest
  | Known m :: rest => val m ++ fill val rest
  | Other s :: rest => braced s ++ fill val rest
  end.

(** What [renderTemplate] puts for a marker: the value as text, or a question
    mark when the value is falsy. *)
Definition code_value (context : gmap string value) (m : marker) : string :=
  or_else (prop context (marker_name m)) "?".

(** What the specification puts for a marker: the value as text, or a
    question mark when the value is missing. *)
Definition spec_value (context : gmap string value) (m : marker) : string :=
  match prop context (marker_name m) with
  | Undefined => "?"
  | v => toString v
  end.

(** Rendering as the specification words it: every marker is replaced by its
    value in one pass and the result is cut to 500 code units. *)
Definition render_spec (ps : list piece) (context : gmap string value) : string :=
  String.substring 0 500 (fill (spec_value context) ps).

(** A replacement text is plain when it holds no opening brace and no dollar. *)
Definition plain (s : string) : bool :=
  negb (has_unit "{" s) && negb (has_unit "$" s).

Definition plain_context (context : gmap string value) : bool :=
  forallb (fun m => plain (code_value context m))
    [Round; Price; Asset; Odds; GridLevel; StrategyName].

(** One replacement step on pieces. *)
Definition subst_piece (m : marker) (v : string) (p : piece) : piece :=
  match p with
  | Known m' => if marker_eqb m m' then Text v else p
  | _ => p
  end.

End Template.

(** ** [lib/strategy.js]: choosing a grid *)

Module Strategy.

(** The numbers of the strategies are IEEE doubles. The selection functions
    only parse, subtract, multiply, halve, take absolute values and compare, so
    they are written over an interface of these operations; the laws are those
    of [<] on doubles: it is irreflexive and transitive, false as soon as one
    side is [NaN], and [>=] is transitive through a number that is not [NaN]. *)
Class Number := {
  num : Type;
  parseFloat : string -> num;
  isNaN : num -> bool;
  lt : num -> num -> bool;
  add : num -> num -> num;
  sub : num -> num -> num;
  mul : num -> num -> num;
  div : num -> num -> num;
  abs : num -> num;
  half : num;
  two : num;
  lt_irrefl : forall a, lt a a = false;
  lt_trans : forall a b c, lt a b = true -> lt b c = true -> lt a c = true;
  lt_nan_l : forall a b, isNaN a = true -> lt a b = false;
  lt_nan_r : forall a b, isNaN b = true -> lt a b = false;
  lt_negtrans : forall a b c,
    isNaN b = false -> lt a b = false -> lt b c = false -> lt a c = false
}.

(** [a > b] is evaluated as [b < a]. *)
Definition gt `{Number} (a b : num) : bool := lt b a.

(** [a <= b], on numbers: [b < a] is false. *)
Definition le `{Number} (a b : num) : bool := negb (lt b a).

Record Grid := mkGrid {
  gridId : string;
  gridIdStr : string;
  strikePriceMin : string;
  strikePriceMax : string;
  odds : string;
  impliedProbability : string;
  expiryAt : Z
}.

(** [grids.reduce(f, grids[0])]; the result is [undefined] (here [None]) on an
    empty array, whose first element is [undefined]. *)
Definition reduce_from_first (f : Grid -> Grid -> Grid) (grids : list Grid) : option Grid :=
  match grids with
  | [] => None
  | g0 :: _ => Some (fold_left f grids g0)
  end.

Section Strategies.
Context `{Number}.

Definition balanced (grids : list Grid) (currentPrice : string) : option Grid :=
  reduce_from_first (fun best g =>
    let diff := abs (sub (parseFloat (impliedProbability g)) half) in
    let bestDiff := abs (sub (parseFloat (impliedProbability best)) half) in
    if lt diff bestDiff then g else best) grids.

Definition underdog (grids : list Grid) (currentPrice : string) : option Grid :=
  reduce_from_first (fun best g =>
    if gt (parseFloat (odds g)) (parseFloat (odds best)) then g else best) grids.

Definition favorite (grids : list Grid) (currentPrice : string) : option Grid :=
  let price := parseFloat currentPrice in
  reduce_from_first (fun best g =>
    let min := parseFloat (strikePriceMin g) in
    let max := parseFloat (strikePriceMax g) in
    let mid := div (add min max) two in
    let bestMin := parseFloat (strikePriceMin best) in
    let bestMax := parseFloat (strikePriceMax best) in
    let bestMid := div (add bestMin bestMax) two in
    if lt (abs (sub mid price)) (abs (sub bestMid price)) then g else best) grids.

Definition value (grids : list Grid) (currentPrice : string) : option Grid :=
  reduce_from_first (fun best g =>
    let ev := mul (parseFloat (odds g)) (parseFloat (impliedProbability g)) in
    let bestEv := mul (parseFloat (odds best)) (parseFloat (impliedProbability best)) in
    if gt ev bestEv then g else best) grids.

(** The keys the three strategies of interest compare on. *)
Definition balancedKey (g : Grid) : num := abs (sub (parseFloat (impliedProbability g)) half).
Definition underdogKey (g : Grid) : num := parseFloat (odds g).
Definition valueKey (g : Grid) : num :=
  mul (parseFloat (odds g)) (parseFloat (impliedProbability g)).

(** A reduction step that keeps the running best unless the next grid beats
    it; each strategy above is a reduction of this shape. *)
Definition keep_unless (beats : Grid -> Grid -> bool) (best g : Grid) : Grid :=
  if beats g best then g else best.

(** What holds of the running best after a prefix [seen] has been reduced. *)
Definition first_best (beats : Grid -> Grid -> bool) (seen : list Grid) (best : Grid) : Prop :=
  (forall g, In g seen -> beats g best = false)
  /\ exists earlier later,
       seen = (earlier ++ best :: later)%list
       /\ forall g, In g earlier -> beats best g = true.

(** Keys that are numbers make "smaller key" and "larger key" reductions of
    the kind above. *)
Definition numeric (key : Grid -> num) (g : Grid) : Prop := isNaN (key g) = false.

Definition smaller (key : Grid -> num) (g best : Grid) : bool := lt (key g) (key best).
Definition larger (key : Grid -> num) (g best : Grid) : bool := gt (key g) (key best).

(** The keys of a list are distinct when any two of its positions hold keys
    one of which is less than the other. *)
Definition distinct_keys (key : Grid -> num) (grids : list Grid) : Prop :=
  ForallOrdPairs (fun a b => lt (key a) (key b) = true \/ lt (key b) (key a) = true) grids.

(** The first grid of largest key: nothing in the list has a larger key, and
    everything before it has a smaller one. *)
Definition first_largest (key : Grid -> num) (grids : list Grid) (b : Grid) : Prop :=
  (forall g, In g grids -> le (key g) (key b) = true)
  /\ exists earlier later,
       grids = (earlier ++ b :: later)%list
       /\ forall g, In g earlier -> lt (key g) (key b) = true.

End Strategies.

End Strategy.

(** ** A model of the numbers: exact decimals

    [None] is [NaN]; a decimal literal is read exactly, and the arithmetic is
    that of the rationals. The model serves to run the strategies on concrete
    grids; the literal [Infinity] is outside it. *)

Module Decimal.

Import JS.

Fixpoint readDigits (acc : Z) (count : nat) (s : string) : Z * nat * string :=
  match s with
  | EmptyString => (acc, count, s)
  | String c s' =>
      match digit_of c with
      | Some d => readDigits (10 * acc + d) (S count) s'
      | None => (acc, count, s)
      end
  end.

Definition readSign (s : string) : bool * string :=
  match s with
  | String "-"%char r => (true, r)
  | String "+"%char r => (false, r)
  | _ => (false, s)
  end.

(** The exponent part [e], [e+] or [e-] followed by digits, if there is one. *)
Definition readExponent (s : string) : Z :=
  match s with
  | String c r =>
      if Ascii.eqb c "e" || Ascii.eqb c "E" then
        let '(neg, r') := readSign r in
        let '(e, n, _) := readDigits 0 0 r' in
        match n with
        | O => 0%Z
        | S _ => if neg then (- e)%Z else e
        end
      else 0%Z
  | EmptyString => 0%Z
  end.

(** [parseFloat(s)]: the longest prefix that is a decimal literal. *)
Definition parseFloat (s : string) : option Q :=
  let '(neg, s1) := readSign (trimStart s) in
  let '(ip, ni, s2) := readDigits 0 0 s1 in
  let '(fp, nf, s3) :=
    match s2 with
    | String "."%char r => readDigits 0 0 r
    | _ => (0%Z, O, s2)
    end in
  match (ni + nf)%nat with
  | O => None
  | S _ =>
      let scale := Pos.pow 10 (Pos.of_nat nf) in
      let mantissa :=
        match nf with
        | O => inject_Z ip
        | S _ => Qmake (ip * Zpos scale + fp) scale
        end in
      let magnitude := Qmult mantissa (Qpower (inject_Z 10) (readExponent s3)) in
      Some (if neg then Qopp magnitude else magnitude)
  end.

Definition disNaN (a : option Q) : bool :=
  match a with
  | Some _ => false
  | None => true
  end.

Definition dlt (a b : option Q) : bool :=
  match a, b with
  | Some x, Some y => negb (Qle_bool y x)
  | _, _ => false
  end.

Definition lift2 (f : Q -> Q -> Q) (a b : option Q) : option Q :=
  match a, b with
  | Some x, Some y => Some (f x y)
  | _, _ => None
  end.

(** Division, for a divisor that is not zero. *)
Definition ddiv (a b : option Q) : option Q :=
  match a, b with
  | Some x, Some y => if Qeq_bool y 0 then None else Some (Qdiv x y)
  | _, _ => None
  end.

End Decimal.

(** ** [lib/api.js]: submitting a bet *)

Module Api.

Import JS.
Local Open Scope string_scope.

(** What [lib/http.js] rejects with: an [Error] with a message and, for a
    response of status 400 or more, the status and the parsed body. Of the body
    only [expectedNonce] is ever read; it is [None] when absent or [null]. *)
Record ErrorBody := mkErrorBody {
  expectedNonce : option Z;
  errorText : option string
}.

Record Error := mkError {
  message : string;
  statusCode : option Z;
  body : option ErrorBody
}.

(** [new Error(msg)] *)
Definition newError (msg : string) : Error :=
  {| message := msg; statusCode := None; body := None |}.

Record BetBody := mkBetBody {
  gridId : string;
  amount : string;
  balanceType : string;
  nonce : Z;
  commentary : string;
  strategy : option string
}.

Record Request := mkRequest {
  method : string;
  url : string;
  payload : BetBody;
  authorization : option string
}.

Record Reply := mkReply {
  orderId : string;
  odds : string;
  newBalance : string;
  qualityScore : option Z
}.

Inductive Response :=
| Resolved (json : Reply)
| Rejected (err : Error).

(** The environment of an agent: the local machine of its sequence store, the
    requests posted so far (oldest first), and the remote side, which answers
    the latest request of a history. *)
Record Env := mkEnv {
  machine : Nonce.World;
  sent : list Request;
  server : list Request -> Response
}.

Record Agent := mkAgent {
  apiKey : string;
  apiUrl : string;
  store : Nonce.NonceManager
}.

Record State := mkState {
  agent : Agent;
  env : Env
}.

(** Methods run in a state-and-exception monad over the agent and its
    environment. *)
Inductive Outcome (A : Type) :=
| Returned (a : A)
| Thrown (e : Error).
Arguments Returned {A} a.
Arguments Thrown {A} e.

Definition M (A : Type) : Type := State -> Outcome A * State.

Definition ret {A} (a : A) : M A := fun st => (Returned a, st).

Definition throw {A} (e : Error) : M A := fun st => (Thrown e, st).

Definition bind {A B} (c : M A) (k : A -> M B) : M B :=
  fun st =>
    match c st with
    | (Returned a, st') => k a st'
    | (Thrown e, st') => (Thrown e, st')
    end.

Definition try_catch {A} (c : M A) (handler : Error -> M A) : M A :=
  fun st =>
    match c st with
    | (Returned a, st') => (Returned a, st')
    | (Thrown e, st') => handler e st'
    end.

Notation "'do' x <- c ;; k" := (bind c (fun x => k))
  (at level 10, x name, c at level 99, k at level 200).

(** [this.nonce.next()] *)
Definition nonce_next : M Z :=
  fun st =>
    let '(n, m, w) := Nonce.next (store (agent st)) (machine (env st)) in
    (Returned n,
     {| agent := {| apiKey := apiKey (agent st); apiUrl := apiUrl (agent st); store := m |};
        env := {| machine := w; sent := sent (env st); server := server (env st) |} |}).

(** [this.nonce.set(value)] *)
Definition nonce_set (value : Z) : M unit :=
  fun st =>
    let '(m, w) := Nonce.set value (store (agent st)) (machine (env st)) in
    (Returned tt,
     {| agent := {| apiKey := apiKey (agent st); apiUrl := apiUrl (agent st); store := m |};
        env := {| machine := w; sent := sent (env st); server := server (env st) |} |}).

Definition _auth : M string :=
  fun st =>
    if String.eqb (apiKey (agent st)) ""
    then (Thrown (newError "API key required. Set PREDICTME_API_KEY in .env"), st)
    else (Returned ("Bearer " ++ apiKey (agent st)), st).

(** [request(method, url, body, headers)] of [lib/http.js]: the request goes
    out, and the promise resolves with the reply or rejects with the error. *)
Definition request (meth target : string) (data : BetBody) (auth : option string) : M Reply :=
  fun st =>
    let req := {| method := meth; url := target; payload := data; authorization := auth |} in
    let history := (sent (env st) ++ [req])%list in
    let st' := {| agent := agent st;
                  env := {| machine := machine (env st); sent := history;
                            server := server (env st) |} |} in
    match server (env st) history with
    | Resolved json => (Returned json, st')
    | Rejected err => (Thrown err, st')
    end.

Definition _post (path : string) (data : BetBody) (auth : bool) : M Reply :=
  do headers <- (if auth then (do a <- _auth ;; ret (Some a)) else ret None) ;;
  fun st => request "POST" (apiUrl (agent st) ++ path) data headers st.

Record PlaceBetParams := mkPlaceBetParams {
  p_gridId : string;
  p_amount : string;
  p_balanceType : option string;
  p_commentary : string;
  p_strategy : option string
}.

Definition with_nonce (b : BetBody) (n : Z) : BetBody :=
  {| gridId := gridId b; amount := amount b; balanceType := balanceType b;
     nonce := n; commentary := commentary b; strategy := strategy b |}.

Definition placeBet (p : PlaceBetParams) : M Reply :=
  let balanceType := default "TEST" (p_balanceType p) in
  let v := Commentary.validate (p_commentary p) in
  if negb (Commentary.valid v) then throw (newError (default "" (Commentary.error v)))
  else if String.eqb balanceType "REAL"
  then throw (newError "Agents cannot use REAL balance. Use TEST or BONUS.")
  else
    do nonce <- nonce_next ;;
    let body :=
      {| gridId := p_gridId p;
         amount := p_amount p;
         balanceType := balanceType;
         nonce := nonce;
         commentary := String.substring 0 500 (p_commentary p);
         strategy := match p_strategy p with
                     | Some s => if String.eqb s "" then None else Some s
                     | None => None
                     end |} in
    try_catch (_post "/bet" body true)
      (fun err =>
         match Api.body err with
         | Some b =>
             match expectedNonce b with
             | Some expected =>
                 do _u <- nonce_set expected ;;
                 do retry <- nonce_next ;;
                 _post "/bet" (with_nonce body retry) true
             | None => throw err
             end
         | None => throw err
         end).

(** The expected token an error carries: [err.body && err.body.expectedNonce != null]. *)
Definition expected_of (err : Error) : option Z :=
  match body err with
  | Some b => expectedNonce b
  | None => None
  end.

(** The body [placeBet] builds for its first attempt. *)
Definition first_body (p : PlaceBetParams) (st : State) : BetBody :=
  {| gridId := p_gridId p;
     amount := p_amount p;
     balanceType := default "TEST"%string (p_balanceType p);
     nonce := JS.plus (fst (Nonce.load (store (agent st)) (machine (env st)))) 1;
     commentary := String.substring 0 500 (p_commentary p);
     strategy := match p_strategy p with
                 | Some s => if String.eqb s "" then None else Some s
                 | None => None
                 end |}.

(** The authenticated POST to [/bet] that carries a body. *)
Definition bet_request (st : State) (b : BetBody) : Request :=
  {| method := "POST";
     url := apiUrl (agent st) ++ "/bet";
     payload := b;
     authorization := Some ("Bearer " ++ apiKey (agent st)) |}.

Definition settle (r : Response) : Outcome Reply :=
  match r with
  | Resolved json => Returned json
  | Rejected err => Thrown err
  end.

End Api.

(** ** Further definitions for the strategies *)

Module Picker.

Import Strategy.

Section Pick.
Context `{Number}.

(** The key [favorite] compares on: the distance from the midpoint of the
    strike interval to the price. *)
Definition favoriteKey (currentPrice : string) (g : Grid) : num :=
  abs (sub (div (add (parseFloat (strikePriceMin g)) (parseFloat (strikePriceMax g))) two)
           (parseFloat currentPrice)).

(** The strategy registry, in the order of its keys. *)
Definition strategies : list (string * (list Grid -> string -> option Grid)) :=
  [ ("balanced"%string, balanced); ("underdog"%string, underdog);
    ("favorite"%string, favorite); ("value"%string, value) ].

(** The names a lookup in the registry finds on [Object.prototype] instead:
    what comes of calling such a member is outside the model. *)
Definition inherited : list string :=
  [ "constructor"; "toString"; "toLocaleString"; "valueOf"; "hasOwnProperty";
    "isPrototypeOf"; "propertyIsEnumerable"; "__proto__"; "__defineGetter__";
    "__defineSetter__"; "__lookupGetter__"; "__lookupSetter__" ]%string.

(** The strategy argument: a name, or a function of the caller's own. *)
Inductive StrategyArg :=
| Named (name : string)
| Custom (fn : list Grid -> string -> Grid).

Inductive Pick :=
| Picked (g : option Grid)
| PickThrows (msg : string)
| PickInherited.

(** [pickGrid(grids, currentPrice, strategy = 'balanced')] *)
Definition pickGrid (grids : list Grid) (currentPrice : string)
    (strategy : option StrategyArg) : Pick :=
  match grids with
  | [] => PickThrows "No grids available"
  | _ :: _ =>
      match default (Named "balanced") strategy with
      | Custom fn => Picked (Some (fn grids currentPrice))
      | Named name =>
          match List.find (fun kv => String.eqb (fst kv) name) strategies with
          | Some (_, fn) => Picked (fn grids currentPrice)
          | None =>
              if existsb (String.eqb name) inherited then PickInherited
              else PickThrows
                     (String.append "Unknown strategy: "
                        (String.append name
                           (String.append ". Available: "
                              (String.concat ", " (List.map fst strategies)))))
          end
      end
  end.

End Pick.

End Picker.

(** ** [pickAndBet] of [lib/api.js]: fetch the odds, pick a grid, render, submit *)

Module Trading.

Import JS Strategy Picker Api.
Local Open Scope string_scope.

(** [s.split(sep)] for a separator of one code unit. *)
Fixpoint splitOn_go (sep : ascii) (cur : string) (s : string) : list string :=
  match s with
  | EmptyString => [cur]
  | String c s' =>
      if Ascii.eqb c sep then cur :: splitOn_go sep EmptyString s'
      else splitOn_go sep (cur ++ String c EmptyString) s'
  end.

Definition splitOn (sep : ascii) (s : string) : list string :=
  splitOn_go sep EmptyString s.

(** What the odds endpoint answers. The request for the odds is answered by
    a feed given to [pickAndBet]; the record of requests of the state holds the
    bet submissions only. *)
Record OddsData := mkOddsData {
  currentPrice : string;
  grids : list Grid
}.

Record OddsReply := mkOddsReply {
  data : option OddsData
}.

Inductive OddsResponse :=
| OddsResolved (r : OddsReply)
| OddsRejected (err : Error).

Record PickAndBetParams := mkPickAndBetParams {
  a_asset : option string;
  a_amount : option string;
  a_balanceType : option string;
  a_strategy : option StrategyArg;
  a_commentary : string;
  a_templateContext : option (gmap string JS.value)
}.

(** [getOdds(asset)]: an authenticated GET of [/odds], answered by [feed]. The
    request changes nothing in the agent or its store; the record [sent] of
    the environment lists the requests of [_post] only, so it does not show
    this one. *)
Definition getOdds (feed : string -> OddsResponse) (asset : string) : M OddsReply :=
  do _h <- _auth ;;
  fun st =>
    match feed asset with
    | OddsResolved r => (Returned r, st)
    | OddsRejected err => (Thrown err, st)
    end.

(** The third piece of the grid identifier between underscores, or ["0"]. *)
Definition gridLevelOf (gridIdStr : string) : string :=
  let gridParts := splitOn "_" gridIdStr in
  if Nat.leb 3 (List.length gridParts) then List.nth 2 gridParts EmptyString else "0".

(** [typeof strategy === 'string' ? strategy : 'custom'] and
    [typeof strategy === 'string' ? strategy : undefined] *)
Definition strategyLabel (strategy : StrategyArg) : string :=
  match strategy with
  | Named name => name
  | Custom _ => "custom"
  end.

Definition strategyTag (strategy : StrategyArg) : option string :=
  match strategy with
  | Named name => Some name
  | Custom _ => None
  end.

(** The context [renderTemplate] receives: the caller's, with the five computed
    entries put over it. *)
Definition betContext (templateContext : gmap string JS.value)
    (price asset odds gridLevel strategy : string) : gmap string JS.value :=
  <[ "strategy" := Str strategy ]>
    (<[ "gridLevel" := Str gridLevel ]>
      (<[ "odds" := Str odds ]>
        (<[ "asset" := Str asset ]>
          (<[ "price" := Str price ]> templateContext)))).

(** [a || b] on strings. *)
Definition str_or (a b : string) : string := if String.eqb a "" then b else a.

(** The parameters [pickAndBet] hands to [placeBet] for a chosen grid. *)
Definition betFor (p : PickAndBetParams) (price : string) (chosen : Grid) : PlaceBetParams :=
  let asset := default "BTC" (a_asset p) in
  let strategy := default (Named "balanced") (a_strategy p) in
  let gridLevel := gridLevelOf (str_or (Strategy.gridIdStr chosen) "") in
  let rendered :=
    Commentary.renderTemplate (a_commentary p)
      (betContext (default ∅ (a_templateContext p)) price asset (Strategy.odds chosen)
         gridLevel (strategyLabel strategy)) in
  {| p_gridId := str_or (Strategy.gridIdStr chosen) (Strategy.gridId chosen);
     p_amount := default "1.00" (a_amount p);
     p_balanceType := Some (default "TEST" (a_balanceType p));
     p_commentary := rendered;
     p_strategy := strategyTag strategy |}.

(** How a run of [pickAndBet] ends: as a method does, or in the call of an
    inherited member, which is outside the model. *)
Inductive Run :=
| Done (o : Outcome Reply)
| Unmodelled.

Section PickAndBet.
Context `{Number}.

Definition pickAndBet (feed : string -> OddsResponse) (p : PickAndBetParams)
    (st : State) : Run * State :=
  let asset := default "BTC" (a_asset p) in
  match getOdds feed asset st with
  | (Thrown err, st1) => (Done (Thrown err), st1)
  | (Returned oddsRes, st1) =>
      let grids := match data oddsRes with Some d => grids d | None => [] end in
      let currentPrice := match data oddsRes with Some d => currentPrice d | None => "" end in
      match grids with
      | [] => (Done (Thrown (newError ("No grids available for " ++ asset))), st1)
      | _ :: _ =>
          match pickGrid grids currentPrice (a_strategy p) with
          | PickThrows msg => (Done (Thrown (newError msg)), st1)
          | PickInherited => (Unmodelled, st1)
          | Picked None =>
              (Done (Thrown (newError
                 "Cannot read properties of undefined (reading 'gridIdStr')")), st1)
          | Picked (Some chosen) =>
              let '(o, st2) := placeBet (betFor p currentPrice chosen) st1 in
              (Done o, st2)
          end
      end
  end.

End PickAndBet.

End Trading.

(** ** [lib/config.js]: the configuration loader, and the constructor of the agent *)

Module Config.

Import JS.
Local Open Scope string_scope.

Definition DEFAULT_API_URL : string := "https://api.predictme.me/api/v1/agent".

Definition newline : ascii := "010"%char.
Definition dquote : ascii := "034"%char.
Definition squote : ascii := "039"%char.

(** [s.startsWith(c)] and [s.endsWith(c)] for one code unit [c]. *)
Definition startsWith (c : ascii) (s : string) : bool :=
  match s with
  | EmptyString => false
  | String d _ => Ascii.eqb d c
  end.

Fixpoint endsWith (c : ascii) (s : string) : bool :=
  match s with
  | EmptyString => false
  | String d EmptyString => Ascii.eqb d c
  | String _ s' => endsWith c s'
  end.

(** [s.indexOf(c)]; [None] is [-1]. *)
Fixpoint indexOf (c : ascii) (s : string) : option nat :=
  match s with
  | EmptyString => None
  | String d s' => if Ascii.eqb d c then Some 0%nat else option_map S (indexOf c s')
  end.

(** [s.slice(0, -1)] and [s.slice(1, -1)] *)
Fixpoint dropLast (s : string) : string :=
  match s with
  | EmptyString => EmptyString
  | String _ EmptyString => EmptyString
  | String c s' => String c (dropLast s')
  end.

Definition unwrap (s : string) : string :=
  match s with
  | EmptyString => EmptyString
  | String _ s' => dropLast s'
  end.

(** One turn of the loop over the lines. An assignment to the key
    [__proto__] of an object literal sets nothing when the value is a string. *)
Definition parseLine (vars : gmap string string) (line : string) : gmap string string :=
  let trimmed := trim line in
  if String.eqb trimmed "" || startsWith "#" trimmed then vars
  else
    match indexOf "=" trimmed with
    | None => vars
    | Some eqIdx =>
        let key := trim (String.substring 0 eqIdx trimmed) in
        let val := trim (string_drop (S eqIdx) trimmed) in
        let val :=
          if (startsWith dquote val && endsWith dquote val)
             || (startsWith squote val && endsWith squote val)
          then unwrap val else val in
        if String.eqb key "__proto__" then vars else <[ key := val ]> vars
    end.

(** [parseEnvFile(filePath)] *)
Definition parseEnvFile (w : Nonce.World) (filePath : string) : gmap string string :=
  match Nonce.readFileSync w filePath with
  | Some content => fold_left parseLine (Trading.splitOn newline content) ∅
  | None => ∅
  end.

(** What the loader reads of the process: [process.env], and
    [path.join(process.cwd(), name)] for a name. *)
Record Process := mkProcess {
  environ : gmap string string;
  in_cwd : string -> string
}.

Record Settings := mkSettings {
  apiKey : option string;
  apiUrl : string;
  noncePath : string
}.

(** [a || b] where [a] is [undefined] or a string, and [b] is so too, or is a
    string. *)
Definition or_maybe (a b : option string) : option string :=
  match a with
  | Some s => if String.eqb s "" then b else Some s
  | None => b
  end.

Definition or_text (a : option string) (b : string) : string :=
  match a with
  | Some s => if String.eqb s "" then b else s
  | None => b
  end.

(** [loadConfig(opts)], with [opts.envPath] as [envPath]. *)
Definition loadConfig (envPath : option string) (proc : Process) (w : Nonce.World) : Settings :=
  let envPath := or_text envPath (in_cwd proc ".env") in
  let fileVars := parseEnvFile w envPath in
  let merged := environ proc ∪ fileVars in
  {| apiKey := or_maybe (merged !! "PREDICTME_API_KEY") (merged !! "PREDICTME_AGENT_API_KEY");
     apiUrl := or_text (or_maybe (merged !! "PREDICTME_API_URL")
                                 (merged !! "PREDICTME_AGENT_API_URL")) DEFAULT_API_URL;
     noncePath := or_text (merged !! "PREDICTME_NONCE_PATH") (in_cwd proc ".predictme-nonce") |}.

Record Options := mkOptions {
  o_apiKey : option string;
  o_apiUrl : option string;
  o_noncePath : option string
}.

(** [new PredictMeAgent(options)]. The key of an agent is only ever tested
    for being falsy and put after "Bearer ", so a key that is [undefined] is
    kept as the empty string. *)
Definition newAgent (options : Options) (proc : Process) (w : Nonce.World) : Api.Agent :=
  let config := loadConfig None proc w in
  {| Api.apiKey := default "" (or_maybe (o_apiKey options) (apiKey config));
     Api.apiUrl := or_text (o_apiUrl options) (apiUrl config);
     Api.store := Nonce.create (or_text (o_noncePath options) (noncePath config)) |}.

(** A line of an env file that binds [k] to [v], plain or in double quotes. *)
Definition envLine (quoted : bool) (k v : string) : string :=
  if quoted then k ++ "=" ++ String dquote (v ++ String dquote "") else k ++ "=" ++ v.

(** The lines joined by newlines. *)
Definition unlines (lines : list string) : string :=
  String.concat (String newline "") lines.

(** A value in matching double or single quotes. *)
Definition wrapped (val : string) : bool :=
  (startsWith dquote val && endsWith dquote val)
  || (startsWith squote val && endsWith squote val).

(** A key as it stands in a line: on one line, without an equals sign, with no
    white space around it, not opening a comment, and not [__proto__]. *)
Definition clean_key (k : string) : Prop :=
  Template.has_unit newline k = false
  /\ Template.has_unit "=" k = false
  /\ trim k = k
  /\ startsWith "#" k = false
  /\ k <> "__proto__".

(** A binding [(quoted, k, v)]: the value is on one line, and when it is not
    put in quotes it has no white space around it and is not itself in
    quotes. *)
Definition clean_binding (b : bool * string * string) : Prop :=
  clean_key (snd (fst b))
  /\ Template.has_unit newline (snd b) = false
  /\ (fst (fst b) = false -> trim (snd b) = snd b /\ wrapped (snd b) = false).

Definition bindingLine (b : bool * string * string) : string :=
  envLine (fst (fst b)) (snd (fst b)) (snd b).

Definition bind_var (vars : gmap string string) (b : bool * string * string) :
    gmap string string :=
  <[ snd (fst b) := snd b ]> vars.

End Config.

(** ** The commands [bet] and [run] of [cli.js] *)

Module Cli.

Import JS Strategy Picker Api Trading.
Local Open Scope string_scope.
Local Open Scope Z_scope.

(** [x || d] for an argument [x] that may be missing. *)
Definition arg_or (x : option string) (d : string) : string :=
  match x with
  | Some s => if String.eqb s "" then d else s
  | None => d
  end.

(** [Math.min(parseInt(roundsStr || '5', 10) || 5, 50)] *)
Definition roundsOf (roundsStr : option string) : Z :=
  Z.min (num_or (parseInt (arg_or roundsStr "5")) 5) 50.

Section Commands.
Context `{Number}.

(** The command [bet]: [args] is [process.argv.slice(3)]. *)
Definition betCommand (feed : string -> OddsResponse) (args : list string)
    (st : State) : Run * State :=
  let asset := arg_or (nth_error args 0) "" in
  if String.eqb asset ""
  then (Done (Thrown (newError
          "Usage: predictme bet <asset> <amount> [strategy] <commentary>")), st)
  else
    let amount := arg_or (nth_error args 1) "1.00" in
    let strategy := arg_or (nth_error args 2) "balanced" in
    let commentary := String.concat " " (skipn 3 args) in
    pickAndBet feed
      {| a_asset := Some asset; a_amount := Some amount; a_balanceType := None;
         a_strategy := Some (Named strategy); a_commentary := commentary;
         a_templateContext := None |} st.

(** The parameters of round [i] of the command [run], counted from zero. *)
Definition roundParams (args : list string) (i : nat) : PickAndBetParams :=
  {| a_asset := Some (arg_or (nth_error args 0) "BTC");
     a_amount := Some (arg_or (nth_error args 1) "1");
     a_balanceType := None;
     a_strategy := Some (Named (arg_or (nth_error args 2) "balanced"));
     a_commentary := String.concat " " (skipn 4 args);
     a_templateContext := Some {[ "round" := Str (numToString (Z.of_nat i + 1)) ]} |}.

(** The loop of [run] from round [i] on, [n] rounds to go; the odds of round
    [j] come from [feeds j]. What a round throws is caught and printed; the
    run is outside the model once a round is. *)
Fixpoint runRounds (feeds : nat -> string -> OddsResponse) (args : list string)
    (n i : nat) (st : State) : option State :=
  match n with
  | O => Some st
  | S n' =>
      match pickAndBet (feeds i) (roundParams args i) st with
      | (Done _, st') => runRounds feeds args n' (S i) st'
      | (Unmodelled, _) => None
      end
  end.

(** How the command [run] gets to the end of its loop: it stops with the
    message of [validate] before the first round, or it loops. Printing, the
    pauses between rounds and the balance request after the loop are left
    out. *)
Inductive Looped :=
| Stopped (msg : string) (st : State)
| Finished (st : option State).

Definition runCommand (feeds : nat -> string -> OddsResponse) (args : list string)
    (st : State) : Looped :=
  let rounds := roundsOf (nth_error args 3) in
  let template := String.concat " " (skipn 4 args) in
  let v := Commentary.validate template in
  if negb (Commentary.valid v) then Stopped (default "" (Commentary.error v)) st
  else Finished (runRounds feeds args (Z.to_nat rounds) 0 st).

End Commands.

End Cli.

(** ** States along a run of [placeBet] *)

Module Steps.

Import JS Api.
Local Open Scope Z_scope.

(** The state after [placeBet] has taken its first token. *)
Definition after_token (p : PlaceBetParams) (st : State) : State :=
  {| agent := {| apiKey := apiKey (agent st); apiUrl := apiUrl (agent st);
                 store := {| Nonce.filePath := Nonce.filePath (store (agent st));
                             Nonce._value := Some (nonce (first_body p st)) |} |};
     env := {| machine := Nonce.writeFileSync_caught (machine (env st))
                            (Nonce.filePath (store (agent st)))
                            (numToString (nonce (first_body p st)));
               sent := sent (env st);
               server := server (env st) |} |}.

(** A state with one more request on record. *)
Definition after_request (st : State) (r : Request) : State :=
  {| agent := agent st;
     env := {| machine := machine (env st); sent := (sent (env st) ++ [r])%list;
               server := server (env st) |} |}.

(** The state after the recovery has reset the store to [expected] and taken
    the next token. *)
Definition after_reset (st : State) (expected : Z) : State :=
  {| agent := {| apiKey := apiKey (agent st); apiUrl := apiUrl (agent st);
                 store := {| Nonce.filePath := Nonce.filePath (store (agent st));
                             Nonce._value := Some (JS.plus expected 1) |} |};
     env := {| machine :=
                 Nonce.writeFileSync_caught
                   (Nonce.writeFileSync_caught (machine (env st))
                      (Nonce.filePath (store (agent st))) (numToString expected))
                   (Nonce.filePath (store (agent st))) (numToString (JS.plus expected 1));
               sent := sent (env st);
               server := server (env st) |} |}.

End Steps.

(** ** A predicate on texts *)

Module Text.

Import JS.

(** A text that does not start with white space. *)
Definition starts_clean (s : string) : bool :=
  match s with
  | EmptyString => true
  | String c _ => negb (is_ws c)
  end.

End Text.

Import JS.
Local Open Scope string_scope.
Local Open Scope Z_scope.

(** ** Sample data, for running the definitions *)

(** A machine whose sequence file is absent or holds [content], at a fixed
    clock, with a writable disk. *)
Definition exampleWorld (content : option string) : Nonce.World :=
  {| Nonce.files := match content with
                    | Some text => {[ ".predictme-nonce"%string := text ]}
                    | None => ∅
                    end;
     Nonce.writable := true;
     Nonce.now := 1700000000000;
     Nonce.attempts := [] |}.

(** A conflict error that carries an expected token. *)
Definition conflict (expected : Z) : Api.Error :=
  {| Api.message := "Invalid nonce";
     Api.statusCode := Some 409;
     Api.body := Some {| Api.expectedNonce := Some expected; Api.errorText := Some "Invalid nonce"%string |} |}.

(** A server that answers the first request with a conflict expecting 42 and
    every later one with a conflict expecting 50. *)
Definition conflictServer (history : list Api.Request) : Api.Response :=
  match history with
  | [_] => Api.Rejected (conflict 42)
  | _ => Api.Rejected (conflict 50)
  end.

Definition exampleState : Api.State :=
  {| Api.agent := {| Api.apiKey := "pm_agent_key";
                     Api.apiUrl := "https://api.example";
                     Api.store := Nonce.create ".predictme-nonce" |};
     Api.env := {| Api.machine := exampleWorld None;
                   Api.sent := [];
                   Api.server := conflictServer |} |}.

Definition exampleBet (pool : option string) : Api.PlaceBetParams :=
  {| Api.p_gridId := "BTC_1_3";
     Api.p_amount := "1.00";
     Api.p_balanceType := pool;
     Api.p_commentary := "BTC testing $95k support with RSI at 28, expecting bounce";
     Api.p_strategy := Some "balanced"%string |}.

(** Four grids; the second and third are equally far from one half. *)
Definition sampleGrid (id ip od : string) : Strategy.Grid :=
  {| Strategy.gridId := id;
     Strategy.gridIdStr := id;
     Strategy.strikePriceMin := "94000";
     Strategy.strikePriceMax := "95000";
     Strategy.odds := od;
     Strategy.impliedProbability := ip;
     Strategy.expiryAt := 1700000010000 |}.

Definition sampleGrids : list Strategy.Grid :=
  [ sampleGrid "BTC_1_1" "0.20" "4.5"; sampleGrid "BTC_1_2" "0.45" "2.1";
    sampleGrid "BTC_1_3" "0.55" "1.7"; sampleGrid "BTC_1_4" "0.80" "1.2" ].

(** Three grids over consecutive strike intervals. *)
Definition ladderGrid (id lo hi ip od : string) : Strategy.Grid :=
  {| Strategy.gridId := id;
     Strategy.gridIdStr := id;
     Strategy.strikePriceMin := lo;
     Strategy.strikePriceMax := hi;
     Strategy.odds := od;
     Strategy.impliedProbability := ip;
     Strategy.expiryAt := 1700000010000 |}.

Definition ladder : list Strategy.Grid :=
  [ ladderGrid "BTC_7_-1" "93000" "94000" "0.25" "3.6";
    ladderGrid "BTC_7_0" "94000" "95000" "0.50" "1.9";
    ladderGrid "BTC_7_1" "95000" "96000" "0.25" "3.6" ].

(** A server that accepts every request. *)
Definition acceptServer (history : list Api.Request) : Api.Response :=
  Api.Resolved {| Api.orderId := "order-1"; Api.odds := "1.9";
                  Api.newBalance := "99.00"; Api.qualityScore := Some 70 |}.

(** An agent with the given key, facing the accepting server. *)
Definition acceptingState (key : string) : Api.State :=
  {| Api.agent := {| Api.apiKey := key;
                     Api.apiUrl := "https://api.example";
                     Api.store := Nonce.create ".predictme-nonce" |};
     Api.env := {| Api.machine := exampleWorld (Some "42"%string);
                   Api.sent := [];
                   Api.server := acceptServer |} |}.

(** Odds that list the ladder at a price of 94400, for every asset. *)
Definition ladderFeed (asset : string) : Trading.OddsResponse :=
  Trading.OddsResolved
    {| Trading.data := Some {| Trading.currentPrice := "94400"; Trading.grids := ladder |} |}.


(** A process with the given environment, working in [/home/agent]. *)
Definition exampleProcess (vars : gmap string string) : Config.Process :=
  {| Config.environ := vars;
     Config.in_cwd := fun name => "/home/agent/" ++ name |}.

(** A disk that holds an env file with the given lines, and nothing else. *)
Definition envFileWorld (lines : list string) : Nonce.World :=
  {| Nonce.files := {[ "/home/agent/.env"%string := Config.unlines lines ]};
     Nonce.writable := true;
     Nonce.now := 1700000000000;
     Nonce.attempts := [] |}.

Definition exampleTrade (strategy : option Picker.StrategyArg)
    (context : option (gmap string value)) : Trading.PickAndBetParams :=
  {| Trading.a_asset := Some "BTC"%string;
     Trading.a_amount := None;
     Trading.a_balanceType := None;
     Trading.a_strategy := strategy;
     Trading.a_commentary := "Round {round}: {strategy} at {price}, {odds}x odds on {asset} level {gridLevel}";
     Trading.a_templateContext := context |}.


(** * Properties *)

(** ** The decimal text of a number reads back as the number *)

Section DecimalTextFacts.

Lemma parseDigits_cons acc c s :
  parseDigits acc (String c s) =
  match digit_of c with Some d => parseDigits (10 * acc + d) s | None => acc end.
Proof. reflexivity. Qed.

Ltac read_digit :=
  rewrite parseDigits_cons;
  match goal with |- context [digit_of ?c] =>
    let r := eval vm_compute in (digit_of c) in change (digit_of c) with r
  end; cbv iota beta.

Lemma parseDigits_acc d : forall p,
  parseDigits (Zpos p) (NilEmpty.string_of_uint d) = Zpos (Pos.of_uint_acc d p).
Proof.
  induction d; intros p; cbn [NilEmpty.string_of_uint Pos.of_uint_acc];
    try reflexivity.
  all: read_digit; rewrite <- IHd; f_equal; lia.
Qed.

Lemma parseDigits_uint d :
  parseDigits 0 (NilEmpty.string_of_uint d) = Z.of_N (Pos.of_uint d).
Proof.
  induction d; cbn [NilEmpty.string_of_uint Pos.of_uint]; try reflexivity.
  - read_digit. exact IHd.
  - read_digit. apply (parseDigits_acc d 1).
  - read_digit. apply (parseDigits_acc d 2).
  - read_digit. apply (parseDigits_acc d 3).
  - read_digit. apply (parseDigits_acc d 4).
  - read_digit. apply (parseDigits_acc d 5).
  - read_digit. apply (parseDigits_acc d 6).
  - read_digit. apply (parseDigits_acc d 7).
  - read_digit. apply (parseDigits_acc d 8).
  - read_digit. apply (parseDigits_acc d 9).
Qed.

Lemma string_of_uint_digits d : all_digits (NilEmpty.string_of_uint d) = true.
Proof. induction d; cbn [NilEmpty.string_of_uint]; try reflexivity; exact IHd. Qed.

Lemma digit_not_ws c d : digit_of c = Some d -> is_ws c = false.
Proof.
  unfold digit_of, is_ws. intros Hd.
  destruct (Nat.leb_spec 48 (nat_of_ascii c)); [| discriminate].
  destruct (Nat.leb_spec (nat_of_ascii c) 57); [| discriminate].
  repeat match goal with |- context [Nat.leb ?a ?b] => destruct (Nat.leb_spec a b) end;
  repeat match goal with |- context [Nat.eqb ?a ?b] => destruct (Nat.eqb_spec a b) end;
  simpl; try reflexivity; lia.
Qed.

Lemma trimEnd_digits s : all_digits s = true -> trimEnd s = s.
Proof.
  induction s as [| c s IH]; [reflexivity |]. cbn [all_digits trimEnd].
  destruct (digit_of c) as [d |] eqn:Hd; [| discriminate]. intros Hs.
  rewrite (IH Hs). destruct s; [| reflexivity].
  now rewrite (digit_not_ws c d Hd).
Qed.

Lemma decimalText_pos p :
  exists c s, decimalText (Zpos p) = String c s
    /\ (exists d, digit_of c = Some d) /\ all_digits (String c s) = true
    /\ parseDigits 0 (String c s) = Zpos p.
Proof.
  unfold decimalText. cbn [Z.to_int NilZero.string_of_int].
  pose proof (DecimalPos.Unsigned.to_uint_nonnil p) as Hnil.
  pose proof (DecimalPos.Unsigned.of_to p) as Hback.
  pose proof (string_of_uint_digits (Pos.to_uint p)) as Hdig.
  pose proof (parseDigits_uint (Pos.to_uint p)) as Hparse.
  rewrite Hback in Hparse. cbn [Z.of_N] in Hparse.
  unfold NilZero.string_of_uint.
  destruct (Pos.to_uint p) eqn:E; [contradiction | ..];
    cbn [NilEmpty.string_of_uint] in *; do 2 eexists;
    (split; [reflexivity | split; [eexists; reflexivity | split; assumption]]).
Qed.

(** The decimal digits of an integer read as the number nearest to it. *)
Lemma parseInt_decimalText v :
  trim (decimalText v) = decimalText v /\ parseInt (decimalText v) = Some (toNumber v).
Proof.
  destruct v as [| p | p].
  - split; reflexivity.
  - destruct (decimalText_pos p) as (c & s & -> & [d Hd] & Hdig & Hval).
    pose proof (digit_not_ws c d Hd) as Hws. split.
    + unfold trim. cbn [trimStart]. rewrite Hws. now apply trimEnd_digits.
    + unfold parseInt. cbn [trimStart]. rewrite Hws.
      assert (Hsign : c <> "-"%char /\ c <> "+"%char)
        by (split; intros ->; discriminate).
      destruct Hsign as [Hm Hp].
      destruct c as [[] [] [] [] [] [] [] []]; try (rewrite Hd, Hval; reflexivity);
        exfalso; (now apply Hm) || (now apply Hp).
  - destruct (decimalText_pos p) as (c & s & Htext & [d Hd] & Hdig & Hval).
    assert (Hneg : decimalText (Zneg p) = String "-" (String c s)).
    { unfold decimalText in *. cbn [Z.to_int NilZero.string_of_int] in *.
      now rewrite Htext. }
    rewrite Hneg. split.
    + unfold trim. cbn [trimStart]. change (is_ws "-") with false. cbv iota.
      change (trimEnd (String "-" (String c s)))
        with (match trimEnd (String c s) with
              | EmptyString => if is_ws "-" then EmptyString else String "-" EmptyString
              | t => String "-" t
              end).
      now rewrite (trimEnd_digits _ Hdig).
    + unfold parseInt. cbn [trimStart]. change (is_ws "-") with false. cbv iota.
      rewrite Hd, Hval. reflexivity.
Qed.

(** Up to [2 ^ 53] in magnitude an integer is a number: it is its own nearest
    double, it prints as its decimal digits, and adding one to it is exact
    below [2 ^ 53]. *)
Lemma toNumber_exact z : Z.abs z <= 2 ^ 53 -> toNumber z = z.
Proof.
  intros Hz. unfold toNumber. cbv zeta.
  destruct (Z.ltb_spec (Z.abs z) (2 ^ 53)) as [_ | Hge]; [reflexivity |].
  assert (Hz' : z = 2 ^ 53 \/ z = - 2 ^ 53) by lia.
  destruct Hz' as [-> | ->]; vm_compute; reflexivity.
Qed.

Lemma numToString_exact z : Z.abs z <= 2 ^ 53 -> numToString z = decimalText z.
Proof.
  intros Hz. unfold numToString.
  destruct (Z.leb_spec (Z.abs z) (2 ^ 53)); [reflexivity | lia].
Qed.

Lemma plus_exact a : - 2 ^ 53 <= a < 2 ^ 53 -> plus a 1 = a + 1.
Proof. intros Ha. unfold plus. apply toNumber_exact. lia. Qed.

Lemma parseInt_numToString v :
  Z.abs v <= 2 ^ 53 ->
  trim (numToString v) = numToString v /\ parseInt (numToString v) = Some v.
Proof.
  intros Hv. rewrite (numToString_exact v Hv).
  destruct (parseInt_decimalText v) as [Htrim Hread].
  split; [exact Htrim |]. now rewrite Hread, (toNumber_exact v Hv).
Qed.

End DecimalTextFacts.

(** ** The sequence store *)

Section NonceFacts.
Import Nonce.

Lemma load_cached m w v : _value m = Some v -> load m w = (v, m).
Proof. intros Hv. unfold load. now rewrite Hv. Qed.

Lemma load_path m w : filePath (snd (load m w)) = filePath m.
Proof. unfold load. destruct (_value m); reflexivity. Qed.

Lemma next_spec m w :
  next m w =
  (JS.plus (fst (load m w)) 1,
   {| filePath := filePath m; _value := Some (JS.plus (fst (load m w)) 1) |},
   writeFileSync_caught w (filePath m) (numToString (JS.plus (fst (load m w)) 1))).
Proof.
  unfold next. pose proof (load_path m w) as Hp.
  destruct (load m w) as [current m1]. simpl in *. rewrite Hp. reflexivity.
Qed.

(** C2, as amended. On the first [load] of a store (nothing cached yet): if the
    file holds the decimal text of an integer [v] other than zero and of
    magnitude at most [2 ^ 53], or any text that [parseInt] reads as such a
    [v], the call returns exactly [v]; if the file is absent, or its text does
    not read as an integer, the call returns the fresh seed [Date.now()]. *)
Theorem load_first_call m w :
  _value m = None ->
  (forall v,
      files w !! filePath m = Some (decimalText v) -> v <> 0 -> Z.abs v <= 2 ^ 53 ->
      fst (load m w) = v)
  /\ (forall content v,
      files w !! filePath m = Some content ->
      parseInt (trim content) = Some v -> v <> 0 -> Z.abs v <= 2 ^ 53 ->
      fst (load m w) = v)
  /\ (files w !! filePath m = None -> fst (load m w) = now w)
  /\ (forall content,
      files w !! filePath m = Some content ->
      parseInt (trim content) = None ->
      fst (load m w) = now w).
Proof.
  intros Hfresh.
  assert (Hparsed : forall content v,
             files w !! filePath m = Some content ->
             parseInt (trim content) = Some v -> v <> 0 -> fst (load m w) = v).
  { intros content v Hfile Hparse Hv. unfold load, readFileSync.
    rewrite Hfresh, Hfile, Hparse. simpl.
    destruct (Z.eqb_spec v 0); [contradiction | reflexivity]. }
  split; [| split; [intros content v Hfile Hparse Hv _; now apply (Hparsed content) | split]].
  - intros v Hfile Hv Hrange. apply (Hparsed (decimalText v) v Hfile); [| exact Hv].
    destruct (parseInt_decimalText v) as [-> Hread].
    now rewrite Hread, (toNumber_exact v Hrange).
  - intros Hfile. unfold load, readFileSync. now rewrite Hfresh, Hfile.
  - intros content Hfile Hparse. unfold load, readFileSync.
    now rewrite Hfresh, Hfile, Hparse.
Qed.

(** C2 as stated fails in three ways. A file that holds the integer zero: the
    first [load] returns the clock value, not zero. A file that exists but
    holds text that is no integer: the seed is returned although the file is
    there. And a file that holds an integer that is no double, such as
    [2 ^ 53 + 1]: the number nearest to it is returned. *)
Lemma load_persisted_counterexample :
  let zero := exampleWorld (Some "0") in
  let other := exampleWorld (Some "n/a") in
  let large := exampleWorld (Some "9007199254740993") in
  (files zero !! ".predictme-nonce" = Some (decimalText 0)
   /\ parseInt (trim "0") = Some 0
   /\ fst (load (create ".predictme-nonce") zero) = 1700000000000
   /\ fst (load (create ".predictme-nonce") zero) <> 0)
  /\ (files other !! ".predictme-nonce" = Some "n/a"
      /\ parseInt (trim "n/a") = None
      /\ fst (load (create ".predictme-nonce") other) = now other)
  /\ (files large !! ".predictme-nonce" = Some (decimalText (2 ^ 53 + 1))
      /\ fst (load (create ".predictme-nonce") large) = 2 ^ 53
      /\ fst (load (create ".predictme-nonce") large) <> 2 ^ 53 + 1).
Proof.
  cbv zeta. repeat split; try (vm_compute; reflexivity); vm_compute; discriminate.
Qed.



End NonceFacts.

(** ** Bet submission *)

Section ApiFacts.
Import Api.

Lemma post_bet_spec st b :
  apiKey (agent st) <> ""%string ->
  _post "/bet" b true st =
  (settle (server (env st) (sent (env st) ++ [bet_request st b])%list),
   {| agent := agent st;
      env := {| machine := machine (env st);
                sent := (sent (env st) ++ [bet_request st b])%list;
                server := server (env st) |} |}).
Proof.
  intros Hkey. unfold _post, bind, _auth, ret, request.
  destruct (String.eqb_spec (apiKey (agent st)) ""); [contradiction |].
  fold (bet_request st b).
  destruct (server (env st) _); reflexivity.
Qed.

(** C4. A bet on the [REAL] pool throws and leaves the whole state as it was:
    the sequence store, its file, the write trace and the list of requests
    sent are unchanged. When the commentary is valid the error is the one
    about the [REAL] balance. *)
Theorem placeBet_rejects_real p st :
  p_balanceType p = Some "REAL"%string ->
  exists e, placeBet p st = (Thrown e, st)
    /\ (Commentary.valid (Commentary.validate (p_commentary p)) = true ->
        message e = "Agents cannot use REAL balance. Use TEST or BONUS."%string).
Proof.
  intros Hreal. unfold placeBet. rewrite Hreal. cbn [default].
  destruct (Commentary.valid (Commentary.validate (p_commentary p))) eqn:Hv; cbn [negb].
  - eexists. split; [reflexivity | reflexivity].
  - eexists. split; [reflexivity | discriminate].
Qed.



End ApiFacts.

(** ** Commentary validation and scoring *)

Section CommentaryFacts.
Import Commentary.

Lemma too_short_reports len :
  (len < MIN_LENGTH)%nat ->
  reports (too_short_message len) len = true
  /\ reports (too_short_message len) MIN_LENGTH = true.
Proof.
  unfold MIN_LENGTH. intros Hlen.
  do 20 (destruct len as [|len]; [split; vm_compute; reflexivity |]).
  lia.
Qed.

(** C7, as amended. [validate] is invalid exactly when the trimmed text is
    empty or shorter than 20, and valid exactly from length 20 on, whatever the
    length above. For a trimmed text of length 1 to 19 the message reports both
    that length and the minimum 20. For an empty or blank text the message is
    the "required" one: it reports the minimum 20 but not the length. *)
Theorem validate_contract text :
  let res := validate text in
  let len := String.length (trim text) in
  (valid res = false <-> (trim text = ""%string \/ (len < 20)%nat))
  /\ (valid res = true <-> (20 <= len)%nat)
  /\ (trim text <> ""%string -> (len < 20)%nat ->
      exists msg, error res = Some msg
        /\ reports msg len = true /\ reports msg 20 = true)
  /\ (trim text = ""%string ->
      error res = Some required_message
      /\ reports required_message 20 = true
      /\ reports required_message len = false).
Proof.
  cbv zeta. unfold validate.
  assert (Hempty : String.eqb text "" = true -> trim text = ""%string).
  { intros H. apply String.eqb_eq in H. subst. reflexivity. }
  destruct (String.eqb text "") eqn:E1; cbn [orb].
  - rewrite (Hempty eq_refl). cbn [valid error String.length].
    repeat split; intros; try (vm_compute; reflexivity); try discriminate; try tauto; lia.
  - destruct (String.eqb_spec (trim text) "") as [E2 | E2].
    + rewrite E2. cbn [valid error String.length].
      repeat split; intros; try (vm_compute; reflexivity); try discriminate; try tauto; lia.
    + change MIN_LENGTH with 20%nat.
      destruct (Nat.ltb_spec (String.length (trim text)) 20) as [Hlt | Hge]; cbn [valid error].
      * split; [| split; [| split]].
        -- tauto.
        -- split; [intros H; discriminate H | lia].
        -- intros _ _. eexists. split; [reflexivity |].
           apply (too_short_reports (String.length (trim text))). exact Hlt.
        -- contradiction.
      * split; [| split; [| split]].
        -- split; [intros H; discriminate H | intros [H | H]; [contradiction | lia]].
        -- tauto.
        -- intros; lia.
        -- contradiction.
Qed.

(** C7 as stated fails on the empty text: the numbers its message shows are
    20, 95, 28 and 97, and the offending length 0 is not among them. *)
Lemma validate_empty_counterexample :
  valid (validate "") = false
  /\ error (validate "") = Some required_message
  /\ String.length (trim "") = 0%nat
  /\ numbers_in required_message = [20; 95; 28; 97]%nat
  /\ reports required_message (String.length (trim "")) = false.
Proof. vm_compute. repeat split; reflexivity. Qed.

Lemma lengthPoints_range len : 10 <= lengthPoints len <= 50.
Proof. unfold lengthPoints. repeat destruct (Nat.leb _ _); lia. Qed.

Lemma uniquePoints_range n : 0 <= uniquePoints n <= 25.
Proof. unfold uniquePoints. repeat destruct (Nat.leb _ _); lia. Qed.

Lemma termPoints_range n : 0 <= termPoints n <= 25.
Proof. unfold termPoints. repeat destruct (Nat.leb _ _); lia. Qed.

Lemma lengthPoints_mono a b : (a <= b)%nat -> lengthPoints a <= lengthPoints b.
Proof.
  intros Hab. unfold lengthPoints.
  repeat match goal with |- context [Nat.leb ?x ?y] => destruct (Nat.leb_spec x y) end; lia.
Qed.

Lemma lengthPoints_bracket a b : bracket a = bracket b -> lengthPoints a = lengthPoints b.
Proof.
  unfold bracket, lengthPoints.
  repeat match goal with |- context [Nat.leb ?x ?y] => destruct (Nat.leb_spec x y) end;
    intros; try reflexivity; try discriminate.
Qed.

Lemma qualityScore_sum s :
  s <> ""%string ->
  qualityScore s =
  Z.min 100 (lengthPoints (String.length (trim s)) + uniquePoints (uniqueWords (trim s))
             + termPoints (termCount (trim s))).
Proof.
  intros Hs. unfold qualityScore.
  destruct (String.eqb_spec s ""); [contradiction |]. reflexivity.
Qed.

(** C9, as amended. The score lies in [0, 100]; for a text that is not empty
    it is the sum of the three parts clamped to 100; the length part is
    non-decreasing in the trimmed length and constant on each bracket; hence
    between two texts whose other two parts do not decrease the score is
    non-decreasing in the trimmed length. *)
Theorem qualityScore_contract :
  (forall s, 0 <= qualityScore s <= 100)
  /\ (forall s, s <> ""%string ->
        qualityScore s =
        Z.min 100 (lengthPoints (String.length (trim s)) + uniquePoints (uniqueWords (trim s))
                   + termPoints (termCount (trim s))))
  /\ (forall a b, (a <= b)%nat -> lengthPoints a <= lengthPoints b)
  /\ (forall a b, bracket a = bracket b -> lengthPoints a = lengthPoints b)
  /\ (forall s1 s2, s2 <> ""%string ->
        uniquePoints (uniqueWords (trim s1)) <= uniquePoints (uniqueWords (trim s2)) ->
        termPoints (termCount (trim s1)) <= termPoints (termCount (trim s2)) ->
        (String.length (trim s1) <= String.length (trim s2))%nat ->
        qualityScore s1 <= qualityScore s2).
Proof.
  split; [| split; [| split; [| split]]].
  - intros s. unfold qualityScore. destruct (String.eqb s ""); [lia |].
    pose proof (lengthPoints_range (String.length (trim s))).
    pose proof (uniquePoints_range (uniqueWords (trim s))).
    pose proof (termPoints_range (termCount (trim s))). lia.
  - exact qualityScore_sum.
  - exact lengthPoints_mono.
  - exact lengthPoints_bracket.
  - intros s1 s2 Hs2 Hu Ht Hlen. rewrite (qualityScore_sum s2 Hs2).
    pose proof (lengthPoints_mono _ _ Hlen) as Hl.
    pose proof (lengthPoints_range (String.length (trim s2))).
    pose proof (uniquePoints_range (uniqueWords (trim s2))).
    pose proof (termPoints_range (termCount (trim s2))).
    unfold qualityScore. destruct (String.eqb s1 ""); lia.
Qed.

(** C9 as stated fails: two texts of the bracket below 40, the shorter with
    five technical terms and score 35, the longer with none and score 10. *)
Lemma qualityScore_bracket_counterexample :
  let a := "rsi macd ema sma trend"%string in
  let b := "aaaaaaaaaaaaaaaaaaaaaaaaa"%string in
  bracket (String.length (trim a)) = bracket (String.length (trim b))
  /\ (String.length (trim a) < String.length (trim b))%nat
  /\ qualityScore a = 35
  /\ qualityScore b = 10
  /\ ~ (qualityScore a <= qualityScore b).
Proof.
  cbv zeta.
  assert (Ha : qualityScore "rsi macd ema sma trend" = 35) by (vm_compute; reflexivity).
  assert (Hb : qualityScore "aaaaaaaaaaaaaaaaaaaaaaaaa" = 10) by (vm_compute; reflexivity).
  rewrite Ha, Hb. repeat split; try lia.
  apply Nat.ltb_lt. vm_compute; reflexivity.
Qed.

End CommentaryFacts.

(** ** Grid selection *)

Section SelectionFacts.
Import Strategy.
Context `{Number}.

(** A reduction that keeps the running best unless the next grid beats it.
    [beats g best] is irreflexive and transitive, and "does not beat" is
    transitive through a grid whose key is a number. *)
Section Reduce.
Variable beats : Grid -> Grid -> bool.
Variable sound : Grid -> Prop.
Hypothesis beats_irrefl : forall a, beats a a = false.
Hypothesis beats_trans : forall a b c, beats a b = true -> beats b c = true -> beats a c = true.
Hypothesis beats_negtrans : forall a b c,
  sound b -> beats a b = false -> beats b c = false -> beats a c = false.

Let step := keep_unless beats.

Lemma first_best_step seen best x :
  Forall sound seen ->
  first_best beats seen best ->
  first_best beats (seen ++ [x])%list (step best x).
Proof.
  intros Hsound [Hnone (earlier & later & Hseen & Hearlier)].
  unfold step, keep_unless. destruct (beats x best) eqn:Hx.
  - assert (Hall : forall g, In g seen -> beats x g = true).
    { intros g Hg. destruct (beats x g) eqn:Hxg; [reflexivity |].
      assert (Hno : beats x best = false).
      { apply (beats_negtrans x g best);
          [ rewrite List.Forall_forall in Hsound; apply Hsound, Hg
          | exact Hxg | apply Hnone, Hg ]. }
      congruence. }
    split.
    + intros g Hg. apply in_app_or in Hg. destruct Hg as [Hg | [<- | []]].
      * destruct (beats g x) eqn:Hgx; [| reflexivity].
        pose proof (beats_trans x g x (Hall g Hg) Hgx) as Hxx.
        rewrite beats_irrefl in Hxx. discriminate.
      * apply beats_irrefl.
    + exists seen, []. split; [reflexivity | exact Hall].
  - split.
    + intros g Hg. apply in_app_or in Hg. destruct Hg as [Hg | [<- | []]]; auto.
    + exists earlier, (later ++ [x])%list. split; [| exact Hearlier].
      rewrite Hseen, <- app_assoc. reflexivity.
Qed.

Lemma first_best_fold rest seen best :
  Forall sound (seen ++ rest)%list ->
  first_best beats seen best ->
  first_best beats (seen ++ rest)%list (fold_left step rest best).
Proof.
  revert seen best. induction rest as [| x rest IH]; intros seen best Hsound Hinv.
  - rewrite app_nil_r. exact Hinv.
  - cbn [fold_left].
    replace (seen ++ x :: rest)%list with ((seen ++ [x]) ++ rest)%list
      by (rewrite <- app_assoc; reflexivity).
    apply IH.
    + rewrite <- app_assoc. exact Hsound.
    + apply first_best_step; [| exact Hinv].
      apply List.Forall_app in Hsound. tauto.
Qed.

Lemma reduce_first_best grids :
  grids <> [] ->
  Forall sound grids ->
  exists best, reduce_from_first step grids = Some best /\ first_best beats grids best.
Proof.
  intros Hne Hsound. destruct grids as [| g0 rest]; [contradiction |].
  exists (fold_left step (g0 :: rest) g0). split; [reflexivity |].
  cbn [fold_left]. replace (step g0 g0) with g0
    by (unfold step, keep_unless; rewrite beats_irrefl; reflexivity).
  apply (first_best_fold rest [g0] g0 Hsound).
  split.
  - intros g [<- | []]. apply beats_irrefl.
  - exists [], []. split; [reflexivity | intros g []].
Qed.

Lemma first_best_in seen best : first_best beats seen best -> In best seen.
Proof.
  intros [_ (earlier & later & -> & _)]. apply in_or_app. right. left. reflexivity.
Qed.

Lemma reduce_order_free grids grids' :
  grids <> [] ->
  Forall sound grids ->
  Permutation grids grids' ->
  ForallOrdPairs (fun a b => beats a b = true \/ beats b a = true) grids ->
  reduce_from_first step grids = reduce_from_first step grids'.
Proof.
  intros Hne Hsound Hperm Hdistinct.
  assert (Hne' : grids' <> []).
  { intros ->. apply Permutation_sym, Permutation_nil in Hperm. contradiction. }
  assert (Hsound' : Forall sound grids') by (eapply Permutation_Forall; eauto).
  destruct (reduce_first_best grids Hne Hsound) as (b & -> & Hb).
  destruct (reduce_first_best grids' Hne' Hsound') as (b' & -> & Hb').
  f_equal.
  pose proof (first_best_in _ _ Hb) as Hin.
  pose proof (first_best_in _ _ Hb') as Hin'.
  assert (Hcross : In b' grids) by (eapply Permutation_in; [apply Permutation_sym |]; eauto).
  assert (Hcross' : In b grids') by (eapply Permutation_in; eauto).
  destruct (ForallOrdPairs_In Hdistinct b b' Hin Hcross) as [Heq | [[Hlt | Hlt] | [Hlt | Hlt]]].
  - exact Heq.
  - destruct Hb' as [Hnone _]. rewrite (Hnone b Hcross') in Hlt. discriminate.
  - destruct Hb as [Hnone _]. rewrite (Hnone b' Hcross) in Hlt. discriminate.
  - destruct Hb as [Hnone _]. rewrite (Hnone b' Hcross) in Hlt. discriminate.
  - destruct Hb' as [Hnone _]. rewrite (Hnone b Hcross') in Hlt. discriminate.
Qed.

End Reduce.
Lemma smaller_irrefl key a : smaller key a a = false.
Proof. apply lt_irrefl. Qed.

Lemma smaller_trans key a b c :
  smaller key a b = true -> smaller key b c = true -> smaller key a c = true.
Proof. apply lt_trans. Qed.

Lemma smaller_negtrans key a b c :
  numeric key b -> smaller key a b = false -> smaller key b c = false -> smaller key a c = false.
Proof. apply lt_negtrans. Qed.

Lemma larger_irrefl key a : larger key a a = false.
Proof. apply lt_irrefl. Qed.

Lemma larger_trans key a b c :
  larger key a b = true -> larger key b c = true -> larger key a c = true.
Proof. unfold larger, gt. intros Hab Hbc. exact (lt_trans _ _ _ Hbc Hab). Qed.

Lemma larger_negtrans key a b c :
  numeric key b -> larger key a b = false -> larger key b c = false -> larger key a c = false.
Proof. unfold larger, gt. intros Hb Hab Hbc. exact (lt_negtrans _ _ _ Hb Hbc Hab). Qed.

(** C5. On a non-empty list whose keys [|impliedProbability - 0.5|] are
    numbers, [balanced] returns a grid of the list whose key is at most the key
    of every grid of the list, and every grid before it has a strictly larger
    key: it is the first minimal one. *)
Theorem balanced_minimal grids currentPrice :
  grids <> [] ->
  Forall (numeric balancedKey) grids ->
  exists b,
    balanced grids currentPrice = Some b
    /\ In b grids
    /\ (forall g, In g grids -> le (balancedKey b) (balancedKey g) = true)
    /\ exists earlier later,
         grids = (earlier ++ b :: later)%list
         /\ forall g, In g earlier -> lt (balancedKey b) (balancedKey g) = true.
Proof.
  intros Hne Hnum.
  destruct (reduce_first_best (smaller balancedKey) (numeric balancedKey)
              (smaller_irrefl _) (smaller_trans _) (smaller_negtrans _) grids Hne Hnum)
    as (b & Hrun & Hbest).
  exists b. split; [exact Hrun |]. split; [eapply first_best_in; eauto |].
  destruct Hbest as [Hnone Hfirst]. split; [| exact Hfirst].
  intros g Hg. unfold le. specialize (Hnone g Hg). unfold smaller in Hnone.
  rewrite Hnone. reflexivity.
Qed.

Lemma distinct_keys_larger key grids :
  distinct_keys key grids ->
  ForallOrdPairs (fun a b => larger key a b = true \/ larger key b a = true) grids.
Proof.
  unfold distinct_keys, larger, gt. induction 1 as [| a l Ha Hl IH]; constructor.
  - eapply List.Forall_impl; [| exact Ha]. cbv beta. tauto.
  - exact IH.
Qed.

Lemma first_best_largest key grids b :
  first_best (larger key) grids b -> first_largest key grids b.
Proof.
  intros [Hnone Hfirst]. split; [| exact Hfirst].
  intros g Hg. unfold le. specialize (Hnone g Hg). unfold larger, gt in Hnone.
  rewrite Hnone. reflexivity.
Qed.

(** Two keys one of which is less than the other are numbers, so distinct
    keys of a list of two or more grids are all numbers. *)
Lemma distinct_keys_numeric key grids :
  distinct_keys key grids -> (2 <= List.length grids)%nat -> Forall (numeric key) grids.
Proof.
  unfold distinct_keys, numeric. intros Hdistinct Hlen.
  assert (Hpair : forall a b,
             lt (key a) (key b) = true \/ lt (key b) (key a) = true ->
             isNaN (key a) = false /\ isNaN (key b) = false).
  { intros a b Hab. split.
    - destruct (isNaN (key a)) eqn:Ea; [| reflexivity].
      rewrite (lt_nan_l _ _ Ea), (lt_nan_r _ _ Ea) in Hab. destruct Hab; discriminate.
    - destruct (isNaN (key b)) eqn:Eb; [| reflexivity].
      rewrite (lt_nan_l _ _ Eb), (lt_nan_r _ _ Eb) in Hab. destruct Hab; discriminate. }
  induction Hdistinct as [| a l Ha Hl IH]; [constructor |].
  destruct l as [| b l]; [simpl in Hlen; lia |].
  constructor.
  - inversion Ha as [| ? ? Hab _]; subst. apply (Hpair a b Hab).
  - eapply List.Forall_impl; [| exact Ha]. intros c Hac. apply (Hpair a c Hac).
Qed.

Lemma largest_order_free key grids grids' :
  grids <> [] ->
  Permutation grids grids' ->
  distinct_keys key grids ->
  reduce_from_first (keep_unless (larger key)) grids
  = reduce_from_first (keep_unless (larger key)) grids'.
Proof.
  intros Hne Hperm Hdistinct.
  destruct grids as [| a [| b rest]]; [contradiction | |].
  - apply Permutation_length_1_inv in Hperm. now subst.
  - apply (reduce_order_free (larger key) (numeric key)
             (larger_irrefl _) (larger_trans _) (larger_negtrans _)); try assumption.
    + apply distinct_keys_numeric; [exact Hdistinct | simpl; lia].
    + apply distinct_keys_larger, Hdistinct.
Qed.

Lemma largest_first key grids :
  grids <> [] ->
  Forall (numeric key) grids ->
  exists b, reduce_from_first (keep_unless (larger key)) grids = Some b
            /\ first_largest key grids b.
Proof.
  intros Hne Hnum.
  destruct (reduce_first_best (larger key) (numeric key)
              (larger_irrefl _) (larger_trans _) (larger_negtrans _) grids Hne Hnum)
    as (b & Hrun & Hbest).
  exists b. split; [exact Hrun | apply first_best_largest, Hbest].
Qed.

(** C6. On a non-empty list, [underdog] and [value] give the same result on
    every permutation of the list when their keys ([odds], respectively
    [odds * impliedProbability]) are distinct; and when the keys are numbers,
    ties included, each returns the first grid of largest key. *)
Theorem underdog_value_order grids grids' p p' :
  grids <> [] ->
  Permutation grids grids' ->
  (distinct_keys underdogKey grids -> underdog grids p = underdog grids' p')
  /\ (distinct_keys valueKey grids -> value grids p = value grids' p')
  /\ (Forall (numeric underdogKey) grids ->
      exists b, underdog grids p = Some b /\ first_largest underdogKey grids b)
  /\ (Forall (numeric valueKey) grids ->
      exists b, value grids p = Some b /\ first_largest valueKey grids b).
Proof.
  intros Hne Hperm. repeat split.
  - apply (largest_order_free underdogKey); assumption.
  - apply (largest_order_free valueKey); assumption.
  - apply (largest_first underdogKey); assumption.
  - apply (largest_first valueKey); assumption.
Qed.

End SelectionFacts.

(** ** Exact decimals as numbers *)

Section DecimalFacts.
Import Strategy Decimal.

Lemma dlt_irrefl a : dlt a a = false.
Proof.
  destruct a as [x|]; [| reflexivity]. cbn.
  apply negb_false_iff, Qle_bool_iff, Qle_refl.
Qed.

Lemma dlt_true x y : dlt (Some x) (Some y) = true <-> (x < y)%Q.
Proof.
  cbn. rewrite negb_true_iff. split.
  - intros Hb. apply Qnot_le_lt. intros Hle. apply Qle_bool_iff in Hle. congruence.
  - intros Hlt. destruct (Qle_bool y x) eqn:E; [| reflexivity].
    apply Qle_bool_iff in E. exfalso. exact (Qlt_not_le _ _ Hlt E).
Qed.

Lemma dlt_false x y : dlt (Some x) (Some y) = false <-> (y <= x)%Q.
Proof. cbn. rewrite negb_false_iff. apply Qle_bool_iff. Qed.

Lemma dlt_trans a b c : dlt a b = true -> dlt b c = true -> dlt a c = true.
Proof.
  destruct a as [x|], b as [y|], c as [z|]; try discriminate.
  rewrite !dlt_true. apply Qlt_trans.
Qed.

Lemma dlt_nan_l a b : disNaN a = true -> dlt a b = false.
Proof. destruct a; [discriminate | reflexivity]. Qed.

Lemma dlt_nan_r a b : disNaN b = true -> dlt a b = false.
Proof. destruct b; [discriminate |]. destruct a; reflexivity. Qed.

Lemma dlt_negtrans a b c :
  disNaN b = false -> dlt a b = false -> dlt b c = false -> dlt a c = false.
Proof.
  destruct b as [y|]; [| discriminate]. intros _.
  destruct a as [x|], c as [z|]; try reflexivity.
  rewrite !dlt_false. intros Hyx Hzy. eapply Qle_trans; eauto.
Qed.

End DecimalFacts.

(** Exact decimal arithmetic is a model of the numbers of the strategies. *)
#[local] Instance decimalNumber : Strategy.Number := {|
  Strategy.num := option Q;
  Strategy.parseFloat := Decimal.parseFloat;
  Strategy.isNaN := Decimal.disNaN;
  Strategy.lt := Decimal.dlt;
  Strategy.add := Decimal.lift2 Qplus;
  Strategy.sub := Decimal.lift2 Qminus;
  Strategy.mul := Decimal.lift2 Qmult;
  Strategy.div := Decimal.ddiv;
  Strategy.abs := option_map Qabs;
  Strategy.half := Some (1 # 2);
  Strategy.two := Some (2 # 1);
  Strategy.lt_irrefl := dlt_irrefl;
  Strategy.lt_trans := dlt_trans;
  Strategy.lt_nan_l := dlt_nan_l;
  Strategy.lt_nan_r := dlt_nan_r;
  Strategy.lt_negtrans := dlt_negtrans
|}.


(** ** Template rendering *)

Section TemplateFacts.
Import Commentary Template.

#[local] Arguments String.append !s1 s2 : simpl nomatch.

Lemma append_assoc (a b c : string) : (a ++ b) ++ c = a ++ (b ++ c).
Proof. induction a as [| x a IH]; simpl; [reflexivity | now rewrite IH]. Qed.

Lemma append_nil_r (a : string) : a ++ "" = a.
Proof. induction a as [| x a IH]; simpl; [reflexivity | now rewrite IH]. Qed.

Lemma has_unit_append ch a b : has_unit ch (a ++ b) = has_unit ch a || has_unit ch b.
Proof.
  induction a as [| x a IH]; simpl; [reflexivity |].
  rewrite IH. now rewrite orb_assoc.
Qed.

Lemma getSubstitution_plain matched before after rep :
  has_unit "$" rep = false -> getSubstitution matched before after rep = rep.
Proof.
  induction rep as [| a rest IH]; cbn; [reflexivity |].
  intros Hno. apply orb_false_iff in Hno. destruct Hno as [Ha Hrest].
  rewrite Ha. now rewrite IH.
Qed.

Lemma prefix_nil (b : string) : String.prefix "" b = true.
Proof. destruct b; reflexivity. Qed.

Lemma prefix_cons a s1 b s2 :
  String.prefix (String a s1) (String b s2) =
  if Ascii.eqb a b then String.prefix s1 s2 else false.
Proof.
  cbn [String.prefix]. destruct (ascii_dec a b) as [-> | Hne].
  - now rewrite Ascii.eqb_refl.
  - destruct (Ascii.eqb_spec a b); [contradiction | reflexivity].
Qed.

Lemma prefix_refl_append (a b : string) : String.prefix a (a ++ b) = true.
Proof.
  induction a as [| x a IH]; [apply prefix_nil |].
  change (String x a ++ b) with (String x (a ++ b)).
  now rewrite prefix_cons, Ascii.eqb_refl.
Qed.

Lemma replace_go_zero pat v before c s :
  replace_go pat v before 0 (String c s) =
  if String.prefix pat (String c s)
  then getSubstitution pat before (string_drop (String.length pat) (String c s)) v
       ++ replace_go pat v (before ++ String c "") (String.length pat - 1) s
  else String c (replace_go pat v (before ++ String c "") 0 s).
Proof. reflexivity. Qed.

Lemma replace_go_succ pat v before k c s :
  replace_go pat v before (S k) (String c s) =
  replace_go pat v (before ++ String c "") k s.
Proof. reflexivity. Qed.

(** Scanning over text that holds no opening brace copies it. *)
Lemma replace_go_text n v s : forall before rest,
  has_unit "{" s = false ->
  replace_go (braced n) v before 0 (s ++ rest) =
  s ++ replace_go (braced n) v (before ++ s) 0 rest.
Proof.
  induction s as [| c s IH]; intros before rest Hno.
  - simpl. now rewrite append_nil_r.
  - simpl in Hno. apply orb_false_iff in Hno. destruct Hno as [Hc Hs].
    change (String c s ++ rest) with (String c (s ++ rest)).
    rewrite replace_go_zero. unfold braced at 1. rewrite prefix_cons.
    rewrite Ascii.eqb_sym, Hc. rewrite (IH _ _ Hs). rewrite append_assoc. reflexivity.
Qed.

(** Stepping over the rest of a match. *)
Lemma replace_go_skip pat v s : forall before rest,
  replace_go pat v before (String.length s) (s ++ rest) =
  replace_go pat v (before ++ s) 0 rest.
Proof.
  induction s as [| c s IH]; intros before rest.
  - simpl. rewrite append_nil_r. reflexivity.
  - change (String c s ++ rest) with (String c (s ++ rest)).
    cbn [String.length]. rewrite replace_go_succ, IH, append_assoc. reflexivity.
Qed.

(** A group in braces starts with the pattern of a name only if it is the
    group of that name. *)
Lemma prefix_group n : forall s rest,
  has_unit "}" n = false ->
  has_unit "}" s = false ->
  String.prefix (n ++ "}") (s ++ String "}" rest) = true -> s = n.
Proof.
  induction n as [| a n IH]; intros s rest Hn Hs Hp.
  - destruct s as [| b s]; [reflexivity |].
    change (String.prefix (String "}" "") (String b (s ++ String "}" rest)) = true) in Hp.
    rewrite prefix_cons in Hp. simpl in Hs. apply orb_false_iff in Hs.
    destruct Hs as [Hb _]. rewrite Ascii.eqb_sym, Hb in Hp. discriminate.
  - simpl in Hn. apply orb_false_iff in Hn. destruct Hn as [Ha Hn].
    destruct s as [| b s].
    + change (String.prefix (String a (n ++ "}")) (String "}" rest) = true) in Hp.
      rewrite prefix_cons, Ha in Hp. discriminate.
    + simpl in Hs. apply orb_false_iff in Hs. destruct Hs as [Hb Hs].
      change (String.prefix (String a (n ++ "}")) (String b (s ++ String "}" rest)) = true)
        in Hp.
      rewrite prefix_cons in Hp. destruct (Ascii.eqb_spec a b) as [<- | Hne]; [| discriminate].
      f_equal. exact (IH s rest Hn Hs Hp).
Qed.

Lemma replace_go_hit n v before rest :
  has_unit "$" v = false ->
  replace_go (braced n) v before 0 (braced n ++ rest) =
  v ++ replace_go (braced n) v (before ++ braced n) 0 rest.
Proof.
  intros Hv.
  change (braced n ++ rest) with (String "{" ((n ++ "}") ++ rest)) at 1.
  rewrite replace_go_zero.
  change (String "{" ((n ++ "}") ++ rest)) with (braced n ++ rest).
  rewrite prefix_refl_append, (getSubstitution_plain _ _ _ _ Hv).
  f_equal.
  replace (String.length (braced n) - 1)%nat with (String.length (n ++ "}"))
    by (unfold braced; cbn [String.length]; lia).
  rewrite replace_go_skip. rewrite append_assoc. reflexivity.
Qed.

Lemma replace_go_miss n v s before rest :
  has_unit "}" n = false ->
  has_unit "{" s = false -> has_unit "}" s = false ->
  s <> n ->
  replace_go (braced n) v before 0 (braced s ++ rest) =
  braced s ++ replace_go (braced n) v (before ++ braced s) 0 rest.
Proof.
  intros Hn Hopen Hclose Hne.
  change (braced s ++ rest) with (String "{" ((s ++ "}") ++ rest)) at 1.
  rewrite replace_go_zero.
  unfold braced at 1. rewrite prefix_cons, Ascii.eqb_refl.
  destruct (String.prefix (n ++ "}") ((s ++ "}") ++ rest)) eqn:Hp.
  - exfalso. apply Hne. rewrite append_assoc in Hp.
    exact (prefix_group n s rest Hn Hclose Hp).
  - fold (braced n). rewrite replace_go_text.
    + change (braced s) with (String "{" (s ++ "}")).
      change (String "{" (s ++ "}") ++ ?x) with (String "{" ((s ++ "}") ++ x)).
      rewrite !append_assoc. reflexivity.
    + rewrite has_unit_append, Hopen. reflexivity.
Qed.

Lemma marker_eqb_eq a b : marker_eqb a b = true <-> a = b.
Proof. destruct a, b; simpl; split; intros E; try reflexivity; discriminate. Qed.

Lemma marker_name_closed m :
  has_unit "{" (marker_name m) = false /\ has_unit "}" (marker_name m) = false.
Proof. destruct m; split; reflexivity. Qed.

Lemma marker_name_inj a b : marker_name a = marker_name b -> a = b.
Proof. destruct a, b; simpl; intros E; try reflexivity; discriminate. Qed.

Lemma is_marker_name_false s m : is_marker_name s = false -> s <> marker_name m.
Proof.
  intros Hno ->. destruct m; discriminate.
Qed.

(** One replacement of the source acts piece by piece. *)
Lemma replace_flatten m v ps : forall before,
  forallb well_formed ps = true ->
  has_unit "$" v = false ->
  replace_go (pattern m) v before 0 (flatten ps) = flatten (List.map (subst_piece m v) ps).
Proof.
  induction ps as [| p rest IH]; intros before Hwf Hv; [reflexivity |].
  cbn [forallb] in Hwf. apply andb_true_iff in Hwf. destruct Hwf as [Hp Hrest].
  destruct (marker_name_closed m) as [_ Hclosed].
  cbn [List.map flatten]. destruct p as [s | m' | s]; cbn [piece_text subst_piece].
  - cbn [well_formed] in Hp. apply negb_true_iff in Hp.
    unfold pattern. rewrite (replace_go_text _ _ _ _ _ Hp). cbn [flatten piece_text].
    f_equal. apply IH; assumption.
  - destruct (marker_eqb m m') eqn:E.
    + apply marker_eqb_eq in E. subst m'. unfold pattern.
      rewrite (replace_go_hit _ _ _ _ Hv). cbn [flatten piece_text].
      f_equal. apply IH; assumption.
    + destruct (marker_name_closed m') as [Hopen' Hclosed'].
      unfold pattern. rewrite replace_go_miss; try assumption.
      * cbn [flatten piece_text]. unfold pattern. f_equal. apply IH; assumption.
      * intros Heq. apply marker_name_inj in Heq. subst m'.
        assert (marker_eqb m m = true) by (now apply marker_eqb_eq). congruence.
  - cbn [well_formed] in Hp. apply andb_true_iff in Hp. destruct Hp as [Hp Hname].
    apply andb_true_iff in Hp. destruct Hp as [Hopen Hclose].
    apply negb_true_iff in Hopen, Hclose, Hname.
    unfold pattern. rewrite replace_go_miss; try assumption.
    + cbn [flatten piece_text]. f_equal. apply IH; assumption.
    + now apply is_marker_name_false.
Qed.

Lemma subst_well_formed m v ps :
  has_unit "{" v = false ->
  forallb well_formed ps = true ->
  forallb well_formed (List.map (subst_piece m v) ps) = true.
Proof.
  intros Hv. induction ps as [| p rest IH]; [reflexivity |].
  cbn [forallb List.map]. rewrite !andb_true_iff. intros [Hp Hrest].
  split; [| auto]. destruct p as [s | m' | s]; cbn [subst_piece]; try assumption.
  destruct (marker_eqb m m'); [| reflexivity]. cbn [well_formed]. now rewrite Hv.
Qed.

(** After the six replacements every marker is filled. *)
Lemma six_steps_fill (val : marker -> string) ps :
  flatten
    (List.map (subst_piece StrategyName (val StrategyName))
      (List.map (subst_piece GridLevel (val GridLevel))
        (List.map (subst_piece Odds (val Odds))
          (List.map (subst_piece Asset (val Asset))
            (List.map (subst_piece Price (val Price))
              (List.map (subst_piece Round (val Round)) ps)))))) = fill val ps.
Proof.
  induction ps as [| p rest IH]; [reflexivity |].
  cbn [List.map flatten fill]. destruct p as [s | m | s].
  - cbn. now rewrite IH.
  - destruct m; cbn; now rewrite IH.
  - cbn. now rewrite IH.
Qed.

Lemma renderTemplate_steps template context :
  renderTemplate template context =
  String.substring 0 500
    (replaceAll (pattern StrategyName) (code_value context StrategyName)
      (replaceAll (pattern GridLevel) (code_value context GridLevel)
        (replaceAll (pattern Odds) (code_value context Odds)
          (replaceAll (pattern Asset) (code_value context Asset)
            (replaceAll (pattern Price) (code_value context Price)
              (replaceAll (pattern Round) (code_value context Round) template)))))).
Proof.
  unfold renderTemplate. destruct (String.eqb_spec template "") as [-> | Hne]; reflexivity.
Qed.

Lemma substring_length n s : (String.length (String.substring 0 n s) <= n)%nat.
Proof.
  revert s. induction n as [| n IH]; intros s.
  - destruct s; simpl; lia.
  - destruct s as [| c s]; simpl; [lia |]. specialize (IH s). lia.
Qed.

Lemma plain_context_spec context :
  plain_context context = true ->
  forall m, has_unit "{" (code_value context m) = false
            /\ has_unit "$" (code_value context m) = false.
Proof.
  unfold plain_context. cbn [forallb]. rewrite !andb_true_iff. unfold plain.
  intros Hall m.
  assert (Hm : negb (has_unit "{" (code_value context m))
               && negb (has_unit "$" (code_value context m)) = true)
    by (destruct m; tauto).
  apply andb_true_iff in Hm. destruct Hm as [H1 H2].
  apply negb_true_iff in H1, H2. tauto.
Qed.

Lemma classify_text s : piece_text (classify s) = braced s.
Proof.
  unfold classify.
  destruct (List.find _ _) as [m |] eqn:E; [| reflexivity].
  apply List.find_some in E. destruct E as [_ E]. apply String.eqb_eq in E.
  cbn [piece_text]. unfold pattern. now rewrite <- E.
Qed.

Lemma classify_well_formed s :
  has_unit "{" s = false -> has_unit "}" s = false -> well_formed (classify s) = true.
Proof.
  intros Hopen Hclose. unfold classify.
  destruct (List.find _ _) as [m |] eqn:E; [reflexivity |].
  cbn [well_formed]. rewrite Hopen, Hclose. cbn [negb andb].
  apply negb_true_iff. unfold is_marker_name.
  destruct (existsb _ _) eqn:Ex; [| reflexivity].
  apply existsb_exists in Ex. destruct Ex as (m & Hin & Hm).
  pose proof (List.find_none _ _ E m Hin) as Hno. cbv beta in Hno. congruence.
Qed.

Lemma has_unit_snoc ch s c :
  has_unit ch (s ++ String c "") = has_unit ch s || Ascii.eqb c ch.
Proof. rewrite has_unit_append. simpl. now rewrite orb_false_r. Qed.

Lemma parse_go_sound s : forall in_group acc ps,
  has_unit "{" acc = false ->
  (in_group = true -> has_unit "}" acc = false) ->
  parse_go in_group acc s = Some ps ->
  forallb well_formed ps = true
  /\ flatten ps = (if in_group then String "{" (acc ++ s) else acc ++ s).
Proof.
  induction s as [| c s IH]; intros in_group acc ps Hopen Hclose Hparse.
  - destruct in_group; [discriminate |]. cbn [parse_go] in Hparse.
    injection Hparse as <-. cbn [forallb well_formed flatten piece_text].
    rewrite Hopen. split; reflexivity.
  - cbn [parse_go] in Hparse. destruct in_group.
    + specialize (Hclose eq_refl).
      destruct (Ascii.eqb_spec c "{") as [-> | Hc1]; [discriminate |].
      destruct (Ascii.eqb_spec c "}") as [-> | Hc2].
      * destruct (parse_go false "" s) as [rest |] eqn:E; [| discriminate].
        injection Hparse as <-.
        destruct (IH false ""%string rest eq_refl ltac:(discriminate) E) as [Hwf Hflat].
        cbn [forallb flatten]. rewrite Hwf, Hflat, classify_text.
        rewrite (classify_well_formed acc Hopen Hclose).
        split; [reflexivity |]. unfold braced. simpl. now rewrite append_assoc.
      * destruct (IH true (acc ++ String c "") ps) as [Hwf Hflat]; try assumption.
        -- rewrite has_unit_snoc, Hopen.
           destruct (Ascii.eqb_spec c "{"); [contradiction | reflexivity].
        -- intros _. rewrite has_unit_snoc, Hclose.
           destruct (Ascii.eqb_spec c "}"); [contradiction | reflexivity].
        -- split; [exact Hwf |]. rewrite Hflat, append_assoc. reflexivity.
    + destruct (Ascii.eqb_spec c "{") as [-> | Hc1].
      * destruct (parse_go true "" s) as [rest |] eqn:E; [| discriminate].
        injection Hparse as <-.
        destruct (IH true ""%string rest eq_refl ltac:(reflexivity) E) as [Hwf Hflat].
        cbn [forallb flatten well_formed piece_text]. rewrite Hwf, Hflat, Hopen.
        split; reflexivity.
      * destruct (IH false (acc ++ String c "") ps) as [Hwf Hflat]; try assumption.
        -- rewrite has_unit_snoc, Hopen.
           destruct (Ascii.eqb_spec c "{"); [contradiction | reflexivity].
        -- discriminate.
        -- split; [exact Hwf |]. rewrite Hflat, append_assoc. reflexivity.
Qed.

Lemma parse_sound template ps :
  parse template = Some ps -> forallb well_formed ps = true /\ flatten ps = template.
Proof.
  intros Hparse.
  exact (parse_go_sound template false ""%string ps eq_refl ltac:(discriminate) Hparse).
Qed.

(** C8, as amended. For a template in which every opening brace starts a group
    closed before the next opening brace (one that [parse] reads as pieces) and
    a context whose replacement texts hold no opening brace and no dollar,
    [renderTemplate] is the first 500 code units of the template with every
    occurrence of the six markers replaced by the text of its context value, or
    by a question mark when the value is missing or falsy, and every other
    group in braces left as it is. The result never exceeds 500 code units, and
    ["{asset} at {price}"] with only [asset = "BTC"] renders as ["BTC at ?"]. *)
Theorem renderTemplate_contract :
  (forall template ps context,
      parse template = Some ps ->
      plain_context context = true ->
      renderTemplate template context
      = String.substring 0 500 (fill (code_value context) ps))
  /\ (forall ps context,
        forallb well_formed ps = true ->
        plain_context context = true ->
        renderTemplate (flatten ps) context
        = String.substring 0 500 (fill (code_value context) ps))
  /\ (forall template context,
        (String.length (renderTemplate template context) <= 500)%nat)
  /\ renderTemplate "{asset} at {price}" {[ "asset" := Str "BTC" ]} = "BTC at ?".
Proof.
  assert (Hpieces : forall ps context,
             forallb well_formed ps = true ->
             plain_context context = true ->
             renderTemplate (flatten ps) context
             = String.substring 0 500 (fill (code_value context) ps)).
  { intros ps context Hwf Hplain. rewrite renderTemplate_steps.
    pose proof (plain_context_spec context Hplain) as Hv.
    unfold replaceAll.
    rewrite (replace_flatten Round) by (assumption || apply Hv).
    rewrite (replace_flatten Price)
      by (repeat apply subst_well_formed; assumption || apply Hv).
    rewrite (replace_flatten Asset)
      by (repeat apply subst_well_formed; assumption || apply Hv).
    rewrite (replace_flatten Odds)
      by (repeat apply subst_well_formed; assumption || apply Hv).
    rewrite (replace_flatten GridLevel)
      by (repeat apply subst_well_formed; assumption || apply Hv).
    rewrite (replace_flatten StrategyName)
      by (repeat apply subst_well_formed; assumption || apply Hv).
    now rewrite six_steps_fill. }
  split; [| split; [exact Hpieces | split]].
  - intros template ps context Hparse Hplain.
    destruct (parse_sound template ps Hparse) as [Hwf <-].
    now apply Hpieces.
  - intros template context. rewrite renderTemplate_steps. apply substring_length.
  - vm_compute. reflexivity.
Qed.

(** C8 as stated fails in four ways: a value that is present but falsy (the
    number 0) renders as a question mark; a value that spells a later marker is
    replaced again; a dollar pair in a value renders as one dollar; and a
    marker inside an open group can complete a later marker, which is then
    replaced. *)
Lemma renderTemplate_counterexample :
  let zero : gmap string value := {[ "round" := Num 0 ]} in
  let chain : gmap string value := <[ "round" := Str "{price}" ]> {[ "price" := Str "5" ]} in
  let dollars : gmap string value := {[ "price" := Str "$$" ]} in
  let nested : gmap string value := <[ "round" := Str "rice" ]> {[ "price" := Str "5" ]} in
  (flatten [Known Round] = "{round}"
   /\ renderTemplate "{round}" zero = "?"
   /\ render_spec [Known Round] zero = "0")
  /\ (renderTemplate "{round}" chain = "5"
      /\ render_spec [Known Round] chain = "{price}")
  /\ (flatten [Known Price] = "{price}"
      /\ renderTemplate "{price}" dollars = "$"
      /\ render_spec [Known Price] dollars = "$$")
  /\ (flatten [Text "{p"; Known Round; Text "}"] = "{p{round}}"
      /\ renderTemplate "{p{round}}" nested = "5"
      /\ render_spec [Text "{p"; Known Round; Text "}"] nested = "{price}").
Proof. vm_compute. repeat split; reflexivity. Qed.

(** A text without an opening brace holds no marker. *)
Lemma replaceAll_text n v s : has_unit "{" s = false -> replaceAll (braced n) v s = s.
Proof.
  intros Hs. unfold replaceAll. rewrite <- (append_nil_r s) at 1.
  rewrite (replace_go_text n v s "" "" Hs). cbn [replace_go]. apply append_nil_r.
Qed.

(** A single marker between texts without opening braces is found by its own
    replacement only. *)
Lemma replaceAll_other m' m v before after :
  m' <> m ->
  has_unit "{" before = false -> has_unit "{" after = false ->
  replaceAll (pattern m') v (before ++ pattern m ++ after)
  = before ++ pattern m ++ after.
Proof.
  intros Hne Hbefore Hafter. unfold replaceAll, pattern.
  destruct (marker_name_closed m') as [_ Hclosed'].
  destruct (marker_name_closed m) as [Hopen Hclosed].
  rewrite replace_go_text by exact Hbefore.
  rewrite replace_go_miss; try assumption.
  - rewrite <- (append_nil_r after) at 1.
    rewrite replace_go_text by exact Hafter. cbn [replace_go].
    now rewrite append_nil_r.
  - intros Heq. apply marker_name_inj in Heq. congruence.
Qed.

Lemma replaceAll_marker m v before after :
  has_unit "$" v = false ->
  has_unit "{" before = false -> has_unit "{" after = false ->
  replaceAll (pattern m) v (before ++ pattern m ++ after) = before ++ v ++ after.
Proof.
  intros Hv Hbefore Hafter. unfold replaceAll, pattern.
  rewrite replace_go_text by exact Hbefore.
  rewrite replace_go_hit by exact Hv.
  rewrite <- (append_nil_r after) at 1.
  rewrite replace_go_text by exact Hafter. cbn [replace_go].
  now rewrite append_nil_r.
Qed.

(** C10, as amended. Setting a key of the context to a falsy value
    ([undefined], [null], [false], the number 0, [NaN] or the empty string)
    renders every template exactly as removing the key does; and a marker
    whose value is falsy or missing is replaced by a question mark where it
    stands: a template that is a marker between two texts without opening
    braces renders as the first 500 code units of the first text, a question
    mark and the second text, whatever else the context holds. *)
Theorem falsy_value_is_missing :
  (forall template (context : gmap string value) key v,
      truthy v = false ->
      renderTemplate template (<[ key := v ]> context)
      = renderTemplate template (delete key context))
  /\ (forall m before after (context : gmap string value),
        has_unit "{" before = false -> has_unit "{" after = false ->
        truthy (prop context (marker_name m)) = false ->
        renderTemplate (before ++ pattern m ++ after) context
        = String.substring 0 500 (before ++ "?" ++ after)).
Proof.
  assert (Hprop : forall (context : gmap string value) key v name,
             truthy v = false ->
             or_else (prop (<[ key := v ]> context) name) "?"
             = or_else (prop (delete key context) name) "?").
  { intros context key v name Hv. unfold prop.
    destruct (decide (key = name)) as [-> | Hne].
    - rewrite lookup_insert_eq, lookup_delete_eq. cbn. unfold or_else. now rewrite Hv.
    - rewrite lookup_insert_ne, lookup_delete_ne by assumption. reflexivity. }
  split.
  - intros template context key v Hv. unfold renderTemplate.
    now rewrite !(Hprop context key v) by exact Hv.
  - intros m before after context Hbefore Hafter Hv. rewrite renderTemplate_steps.
    assert (Hm : code_value context m = "?")
      by (unfold code_value, or_else; now rewrite Hv).
    assert (Hfilled : has_unit "{" (before ++ "?" ++ after) = false)
      by (rewrite !has_unit_append, Hbefore, Hafter; reflexivity).
    assert (Hdone : forall m' v, replaceAll (pattern m') v (before ++ "?" ++ after)
                                 = before ++ "?" ++ after)
      by (intros m' v; apply replaceAll_text; exact Hfilled).
    assert (Hskip : forall m' v, m' <> m ->
                      replaceAll (pattern m') v (before ++ pattern m ++ after)
                      = before ++ pattern m ++ after)
      by (intros m' v Hne; now apply replaceAll_other).
    assert (Hhit : replaceAll (pattern m) (code_value context m)
                     (before ++ pattern m ++ after) = before ++ "?" ++ after)
      by (rewrite Hm; now apply replaceAll_marker).
    f_equal.
    destruct m;
      repeat first [ rewrite Hhit | rewrite Hdone | rewrite Hskip by discriminate ];
      reflexivity.
Qed.

(** C10 as stated fails in its last clause: a value that is present and not
    falsy can make a marker expand to the empty string, or to a zero. The
    string of a dollar and a backquote stands for the text before the match,
    which is empty at the start of the template; the string ["0"] is not
    falsy. *)
Lemma falsy_value_counterexample :
  truthy (Str "$`") = true
  /\ renderTemplate "{round}" {[ "round" := Str "$`" ]} = ""
  /\ truthy (Str "0") = true
  /\ renderTemplate "{round}" {[ "round" := Str "0" ]} = "0"
  /\ renderTemplate "Round {round}" {[ "round" := Str "0" ]} = "Round 0".
Proof. vm_compute. repeat split; reflexivity. Qed.

End TemplateFacts.

(** ** The theorems at concrete inputs *)

Section Examples.

Lemma load_first_call_witness :
  fst (Nonce.load (Nonce.create ".predictme-nonce") (exampleWorld (Some "42"%string))) = 42.
Proof.
  apply (proj1 (load_first_call (Nonce.create ".predictme-nonce")
                  (exampleWorld (Some "42"%string)) eq_refl) 42).
  - vm_compute. reflexivity.
  - lia.
  - vm_compute. discriminate.
Defined.


Lemma placeBet_rejects_real_witness :
  exists e, Api.placeBet (exampleBet (Some "REAL"%string)) exampleState = (Api.Thrown e, exampleState)
    /\ (Commentary.valid (Commentary.validate (Api.p_commentary (exampleBet (Some "REAL"%string)))) = true ->
        Api.message e = "Agents cannot use REAL balance. Use TEST or BONUS."%string).
Proof.
  apply (placeBet_rejects_real (exampleBet (Some "REAL"%string)) exampleState).
  reflexivity.
Defined.


Lemma validate_contract_witness :
  exists msg, Commentary.error (Commentary.validate "bullish") = Some msg
    /\ Commentary.reports msg (String.length (trim "bullish")) = true
    /\ Commentary.reports msg 20 = true.
Proof.
  apply (proj1 (proj2 (proj2 (validate_contract "bullish")))).
  - vm_compute. discriminate.
  - vm_compute. lia.
Defined.

Lemma qualityScore_contract_witness :
  Commentary.qualityScore "BTC testing support at the level"
  <= Commentary.qualityScore "BTC testing support at the level of $95k again, watching closely".
Proof.
  apply (proj2 (proj2 (proj2 (proj2 qualityScore_contract)))).
  - vm_compute. discriminate.
  - vm_compute. discriminate.
  - vm_compute. discriminate.
  - vm_compute. lia.
Defined.

Lemma balanced_minimal_witness :
  exists b,
    Strategy.balanced sampleGrids "94500" = Some b
    /\ In b sampleGrids
    /\ (forall g, In g sampleGrids ->
          Strategy.le (Strategy.balancedKey b) (Strategy.balancedKey g) = true)
    /\ exists earlier later,
         sampleGrids = (earlier ++ b :: later)%list
         /\ forall g, In g earlier ->
              Strategy.lt (Strategy.balancedKey b) (Strategy.balancedKey g) = true.
Proof.
  apply (balanced_minimal sampleGrids "94500").
  - discriminate.
  - repeat constructor.
Defined.

Lemma underdog_value_order_witness :
  Strategy.underdog sampleGrids "94500" = Strategy.underdog (List.rev sampleGrids) "94500"
  /\ Strategy.value sampleGrids "94500" = Strategy.value (List.rev sampleGrids) "94500".
Proof.
  pose proof (underdog_value_order sampleGrids (List.rev sampleGrids) "94500" "94500"
                ltac:(discriminate) (Permutation_rev sampleGrids)) as (Hu & Hv & _).
  split; [apply Hu | apply Hv]; unfold Strategy.distinct_keys;
    repeat match goal with
           | |- _ \/ _ => vm_compute; first [left; reflexivity | right; reflexivity]
           | |- _ => constructor
           end.
Defined.

Lemma renderTemplate_contract_witness :
  Commentary.renderTemplate "Round {round}: {asset} at {price} {why}"
    (<[ "round"%string := Num 3 ]> {[ "asset"%string := Str "BTC" ]})
  = "Round 3: BTC at ? {why}"%string.
Proof.
  rewrite (proj1 renderTemplate_contract _
             [Template.Text "Round "; Template.Known Template.Round; Template.Text ": ";
              Template.Known Template.Asset; Template.Text " at ";
              Template.Known Template.Price; Template.Text " "; Template.Other "why";
              Template.Text ""]).
  - vm_compute. reflexivity.
  - vm_compute. reflexivity.
  - vm_compute. reflexivity.
Defined.

Lemma falsy_value_is_missing_witness :
  Commentary.renderTemplate "Round {round} at {price}"
    (<[ "round"%string := Num 0 ]> {[ "price"%string := Str "95000" ]})
  = Commentary.renderTemplate "Round {round} at {price}"
      (delete "round"%string ({[ "price"%string := Str "95000" ]} : gmap string value)).
Proof.
  apply (proj1 falsy_value_is_missing). reflexivity.
Defined.

End Examples.

(** ** The definitions on the inputs the documentation gives *)

Section Checks.
Import Commentary.

Example validate_bullish :
  validate "bullish"
  = {| valid := false;
       error := Some "Commentary too short (7 chars, min 20). Add more detail about WHY."%string |}.
Proof. vm_compute. reflexivity. Qed.

Example validate_support :
  validate "BTC testing $95k support with RSI at 28, expecting bounce"
  = {| valid := true; error := None |}.
Proof. vm_compute. reflexivity. Qed.

Example qualityScore_support :
  qualityScore "BTC testing $95k support with RSI at 28, expecting bounce" = 45.
Proof. vm_compute. reflexivity. Qed.

Example qualityScore_blank : qualityScore " " = 10 /\ qualityScore "" = 0.
Proof. vm_compute. split; reflexivity. Qed.

Example badgeTier_thresholds :
  badgeTier 39 = None /\ badgeTier 40 = Some "Bronze"%string
  /\ badgeTier 59 = Some "Bronze"%string /\ badgeTier 60 = Some "Silver"%string
  /\ badgeTier 89 = Some "Gold"%string /\ badgeTier 90 = Some "Diamond"%string.
Proof. vm_compute. repeat split; reflexivity. Qed.

Example replace_dollar_patterns :
  replaceAll "{price}" "<$`|$'|$&|$$|$1>" "a{price}b" = "a<a|b|{price}|$|$1>b"%string.
Proof. vm_compute. reflexivity. Qed.

Example split_ws_runs :
  split_ws "a  b" = ["a"; "b"]%string /\ split_ws " a" = [""; "a"]%string
  /\ split_ws "" = [""]%string.
Proof. vm_compute. repeat split; reflexivity. Qed.

Example parseInt_prefix :
  parseInt "42" = Some 42 /\ parseInt "-7x" = Some (-7) /\ parseInt "abc" = None
  /\ parseInt "" = None.
Proof. vm_compute. repeat split; reflexivity. Qed.

Example strategies_on_samples :
  option_map Strategy.gridIdStr (Strategy.balanced sampleGrids "94500") = Some "BTC_1_2"%string
  /\ option_map Strategy.gridIdStr (Strategy.underdog sampleGrids "94500") = Some "BTC_1_1"%string
  /\ option_map Strategy.gridIdStr (Strategy.value sampleGrids "94500") = Some "BTC_1_4"%string
  /\ option_map Strategy.gridIdStr (Strategy.favorite sampleGrids "94500") = Some "BTC_1_1"%string.
Proof. vm_compute. repeat split; reflexivity. Qed.

Example placeBet_recovers :
  let '(out, st) := Api.placeBet (exampleBet None) exampleState in
  out = Api.Thrown (conflict 50)
  /\ List.map (fun r => Api.nonce (Api.payload r)) (Api.sent (Api.env st))
     = [1700000000001; 43]
  /\ Nonce.attempts (Api.machine (Api.env st))
     = [ (".predictme-nonce", "1700000000001"); (".predictme-nonce", "42");
         (".predictme-nonce", "43") ]%string
  /\ Nonce.files (Api.machine (Api.env st)) !! ".predictme-nonce"%string = Some "43"%string.
Proof. vm_compute. repeat split; reflexivity. Qed.

End Checks.

(** ** More on the sequence store *)

Section StoreFacts.
Import Nonce.

Lemma load_settles m w :
  forall w2, load (snd (load m w)) w2 = load m w.
Proof.
  intros w2. unfold load at 2 3. destruct (_value m) as [v |] eqn:E; cbn [snd].
  - unfold load. now rewrite E.
  - reflexivity.
Qed.

Lemma next_value m w : _value (snd (fst (next m w))) = Some (fst (fst (next m w))).
Proof. rewrite next_spec. reflexivity. Qed.

Lemma next_after m w v :
  _value m = Some v -> fst (fst (next m w)) = JS.plus v 1.
Proof. intros Hv. rewrite next_spec. cbn [fst]. now rewrite (load_cached m w v Hv). Qed.

(** X1. Once a store has loaded, what it returns no longer depends on the
    environment: a later [load] returns the same value and a later [next] the
    same token, whatever the file holds and whatever the clock shows; the
    token is the loaded value plus one as long as that value is below
    [2 ^ 53] in magnitude. *)
Theorem loaded_store_ignores_environment m w :
  let m1 := snd (load m w) in
  forall w2 w3,
    fst (load m1 w2) = fst (load m w)
    /\ fst (fst (next m1 w2)) = fst (fst (next m1 w3))
    /\ fst (fst (next m1 w2)) = fst (fst (next m w))
    /\ (Z.abs (fst (load m w)) < 2 ^ 53 ->
        fst (fst (next m1 w2)) = fst (load m w) + 1).
Proof.
  cbv zeta. intros w2 w3. rewrite !next_spec. cbn [fst]. rewrite !load_settles.
  repeat split. intros Hrange. apply plus_exact. lia.
Qed.

(** X2. Consecutive [next] calls on one store, each in an environment of its
    own, return consecutive tokens as long as they stay within [2 ^ 53]: the
    [i]-th call returns the value the first call loaded plus one plus [i]. *)
Theorem next_run_consecutive : forall ws m w,
  - 2 ^ 53 <= fst (load m w) ->
  fst (load m w) + Z.of_nat (S (List.length ws)) <= 2 ^ 53 ->
  fst (next_run m (w :: ws))
  = List.map (fun i => fst (load m w) + 1 + Z.of_nat i) (List.seq 0 (S (List.length ws))).
Proof.
  induction ws as [| w2 ws IH]; intros m w Hlow Hhigh.
  - cbn [next_run List.length List.seq List.map]. rewrite next_spec. cbn [fst].
    rewrite plus_exact by (cbn [List.length] in Hhigh; lia). f_equal. lia.
  - change (next_run m (w :: w2 :: ws))
      with (let '(n, m', _) := next m w in
            let '(ns, m'') := next_run m' (w2 :: ws) in (n :: ns, m'')).
    rewrite next_spec.
    rewrite plus_exact by (cbn [List.length] in Hhigh; lia).
    specialize (IH {| filePath := filePath m; _value := Some (fst (load m w) + 1) |} w2).
    rewrite !(load_cached {| filePath := filePath m; _value := Some (fst (load m w) + 1) |}
                 w2 (fst (load m w) + 1) eq_refl) in IH.
    cbn [fst] in IH.
    specialize (IH ltac:(lia) ltac:(cbn [List.length] in Hhigh |- *; lia)).
    destruct (next_run _ (w2 :: ws)) as [ns m''] eqn:E. cbn [fst] in IH |- *.
    rewrite IH.
    change (List.seq 0 (S (List.length (w2 :: ws))))
      with (0%nat :: List.seq 1 (S (List.length ws))).
    rewrite <- List.seq_shift, List.map_cons, List.map_map.
    f_equal; [lia |]. apply List.map_ext. intros i. lia.
Qed.

(** What a first [load] makes of a file that holds the text of a number
    other than zero, of magnitude at most [2 ^ 53]. *)
Lemma load_reads_text m w v :
  _value m = None ->
  files w !! filePath m = Some (numToString v) -> v <> 0 -> Z.abs v <= 2 ^ 53 ->
  fst (load m w) = v.
Proof.
  intros Hfresh Hfile Hv Hrange. unfold load, readFileSync. rewrite Hfresh, Hfile.
  destruct (parseInt_numToString v Hrange) as [-> ->]. cbn [fst num_or].
  destruct (Z.eqb_spec v 0); [contradiction | reflexivity].
Qed.

(** X3. Restart. When the write of [next] succeeds and the token is neither
    zero nor beyond [2 ^ 53] in magnitude, a new store on the same path, in
    any later environment where that file is as [next] left it, reads the
    token back, and continues with the token plus one as long as the token is
    below [2 ^ 53]. *)
Theorem restart_continues m w :
  writable w = true ->
  fst (fst (next m w)) <> 0 ->
  Z.abs (fst (fst (next m w))) <= 2 ^ 53 ->
  forall later,
    files later !! filePath m = files (snd (next m w)) !! filePath m ->
    fst (load (create (filePath m)) later) = fst (fst (next m w))
    /\ (fst (fst (next m w)) < 2 ^ 53 ->
        fst (fst (next (create (filePath m)) later)) = fst (fst (next m w)) + 1).
Proof.
  intros Hw Hn Hrange later Hsame.
  rewrite next_spec in Hn, Hrange, Hsame |- *. cbn [fst snd] in Hn, Hrange, Hsame |- *.
  assert (Hload : fst (load (create (filePath m)) later) = JS.plus (fst (load m w)) 1).
  { apply load_reads_text; [reflexivity | | exact Hn | exact Hrange].
    cbn [create filePath]. rewrite Hsame. cbn [files writeFileSync_caught].
    rewrite Hw. apply lookup_insert_eq. }
  split; [exact Hload |]. intros Hbelow. rewrite next_spec. cbn [fst].
  rewrite Hload. apply plus_exact. lia.
Qed.

(** X4. [next] and [set] write to the store's own path only: every other file
    is as before, and when the disk refuses the write no file changes at all;
    the attempt is made all the same, and neither call throws. *)
Theorem store_writes_own_file m w v :
  let after_next := snd (next m w) in
  let after_set := snd (set v m w) in
  (forall p, p <> filePath m ->
     files after_next !! p = files w !! p /\ files after_set !! p = files w !! p)
  /\ (writable w = false -> files after_next = files w /\ files after_set = files w)
  /\ List.length (attempts after_next) = S (List.length (attempts w))
  /\ List.length (attempts after_set) = S (List.length (attempts w)).
Proof.
  cbv zeta. rewrite next_spec. unfold set, _save. cbn [snd _value filePath].
  unfold writeFileSync_caught. cbn [files attempts].
  split; [| split; [| split]].
  - intros p Hp. destruct (writable w); [| split; reflexivity].
    split; now rewrite lookup_insert_ne.
  - intros ->. split; reflexivity.
  - rewrite List.length_app. cbn. lia.
  - rewrite List.length_app. cbn. lia.
Qed.

(** X5. [set] overrides whatever the store held: after [set v], for [v] at
    most [2 ^ 53] in magnitude, every [load] returns [v], zero included, and
    the next token is [v + 1] as long as [v] is below [2 ^ 53]; a write of
    the decimal text of [v] is attempted, and if it succeeds and [v] is not
    zero a new store on that file starts from [v]. *)
Theorem set_overrides v m w :
  Z.abs v <= 2 ^ 53 ->
  let m' := fst (set v m w) in
  let w' := snd (set v m w) in
  (forall w2, fst (load m' w2) = v
              /\ (Z.abs v < 2 ^ 53 -> fst (fst (next m' w2)) = v + 1))
  /\ attempts w' = (attempts w ++ [(filePath m, decimalText v)])%list
  /\ (writable w = true ->
      files w' !! filePath m = Some (decimalText v)
      /\ (v <> 0 -> fst (load (create (filePath m)) w') = v)).
Proof.
  intros Hrange. cbv zeta. unfold set. cbn [fst snd].
  rewrite <- (numToString_exact v Hrange). split; [| split].
  - intros w2. rewrite next_spec. cbn [fst]. unfold load. cbn [_value fst].
    split; [reflexivity |]. intros Hbelow. apply plus_exact. lia.
  - reflexivity.
  - intros Hw.
    assert (Hfile : files (_save {| filePath := filePath m; _value := Some v |} w)
                      !! filePath m = Some (numToString v)).
    { unfold _save, writeFileSync_caught. cbn [_value filePath files]. rewrite Hw.
      apply lookup_insert_eq. }
    split; [exact Hfile |]. intros Hv.
    apply load_reads_text; [reflexivity | exact Hfile | exact Hv | exact Hrange].
Qed.

End StoreFacts.

(** ** More on bet submission *)

Section SubmissionFacts.
Import Api Steps.

Lemma post_bet_no_key st b :
  apiKey (agent st) = ""%string ->
  _post "/bet" b true st
  = (Thrown (newError "API key required. Set PREDICTME_API_KEY in .env"), st).
Proof.
  intros Hkey. unfold _post, bind, _auth. rewrite Hkey. reflexivity.
Qed.

(** Every run of [placeBet], path by path. *)
Lemma placeBet_run p st :
  placeBet p st =
  if negb (Commentary.valid (Commentary.validate (p_commentary p)))
  then (Thrown (newError (default ""%string
                   (Commentary.error (Commentary.validate (p_commentary p))))), st)
  else if String.eqb (default "TEST"%string (p_balanceType p)) "REAL"
  then (Thrown (newError "Agents cannot use REAL balance. Use TEST or BONUS."), st)
  else
    let st0 := after_token p st in
    if String.eqb (apiKey (agent st)) ""
    then (Thrown (newError "API key required. Set PREDICTME_API_KEY in .env"), st0)
    else
      let req0 := bet_request st (first_body p st) in
      let st1 := after_request st0 req0 in
      match server (env st) (sent (env st) ++ [req0])%list with
      | Resolved json => (Returned json, st1)
      | Rejected err =>
          match expected_of err with
          | None => (Thrown err, st1)
          | Some expected =>
              let req1 := bet_request st (with_nonce (first_body p st) (JS.plus expected 1)) in
              (settle (server (env st) (sent (env st) ++ [req0; req1])%list),
               after_request (after_reset st1 expected) req1)
          end
      end.
Proof.
  unfold placeBet.
  destruct (negb (Commentary.valid (Commentary.validate (p_commentary p)))); [reflexivity |].
  destruct (String.eqb (default "TEST"%string (p_balanceType p)) "REAL"); [reflexivity |].
  unfold bind at 1, nonce_next at 1. rewrite next_spec.
  fold (first_body p st). fold (after_token p st). cbv zeta.
  unfold try_catch.
  destruct (String.eqb_spec (apiKey (agent st)) "") as [Hkey | Hkey].
  - rewrite post_bet_no_key by exact Hkey. reflexivity.
  - assert (Hkey0 : apiKey (agent (after_token p st)) <> ""%string) by exact Hkey.
    rewrite (post_bet_spec _ _ Hkey0).
    change (bet_request (after_token p st) (first_body p st))
      with (bet_request st (first_body p st)).
    cbn [after_token env sent server].
    destruct (server (env st) (sent (env st) ++ [bet_request st (first_body p st)])%list)
      as [json | err]; cbn [settle]; [reflexivity |].
    unfold expected_of.
    destruct (body err) as [b |]; [| reflexivity].
    destruct (expectedNonce b) as [expected |]; [| reflexivity].
    unfold bind at 1, nonce_set, Nonce.set. cbn [agent env machine sent server apiKey apiUrl store].
    unfold bind at 1, nonce_next. rewrite next_spec.
    cbn [agent env machine sent server apiKey apiUrl store].
    rewrite load_cached with (v := expected) by reflexivity.
    cbn [fst Nonce.filePath].
    rewrite post_bet_spec by exact Hkey.
    cbn [agent env machine sent server apiKey apiUrl store].
    f_equal. rewrite <- app_assoc. reflexivity.
Qed.

(** X6. A bet whose commentary does not validate throws the validation
    message and leaves the whole state as it was: no token is taken, nothing is
    written, nothing is sent. This check comes first, before the pool check. *)
Theorem placeBet_rejects_invalid p st :
  Commentary.valid (Commentary.validate (p_commentary p)) = false ->
  exists msg,
    Commentary.error (Commentary.validate (p_commentary p)) = Some msg
    /\ placeBet p st = (Thrown (newError msg), st).
Proof.
  intros Hinvalid. rewrite placeBet_run, Hinvalid. cbn [negb].
  unfold Commentary.validate in *.
  destruct (_ || _); [eexists; split; reflexivity |].
  destruct (Nat.ltb _ _); [eexists; split; reflexivity | discriminate].
Qed.

(** X7. A bet from a store whose value is below [2 ^ 53] in magnitude, whose
    first request is accepted, returns the reply as it is, after exactly one
    request: a POST to [/bet] with the bearer key, carrying the grid, the
    amount, the pool (TEST when none is given), the first 500 code units of
    the commentary, and as token the store's value plus one; the store is left
    at that token. *)
Theorem placeBet_accepted p st json :
  Commentary.valid (Commentary.validate (p_commentary p)) = true ->
  default "TEST"%string (p_balanceType p) <> "REAL"%string ->
  apiKey (agent st) <> ""%string ->
  Z.abs (fst (Nonce.load (store (agent st)) (machine (env st)))) < 2 ^ 53 ->
  server (env st) (sent (env st) ++ [bet_request st (first_body p st)])%list = Resolved json ->
  let r := bet_request st (first_body p st) in
  let st' := snd (placeBet p st) in
  fst (placeBet p st) = Returned json
  /\ sent (env st') = (sent (env st) ++ [r])%list
  /\ Nonce._value (store (agent st')) = Some (nonce (payload r))
  /\ nonce (payload r) = fst (Nonce.load (store (agent st)) (machine (env st))) + 1
  /\ commentary (payload r) = String.substring 0 500 (p_commentary p)
  /\ (String.length (commentary (payload r)) <= 500)%nat
  /\ balanceType (payload r) = default "TEST"%string (p_balanceType p)
  /\ method r = "POST"%string
  /\ url r = (apiUrl (agent st) ++ "/bet")%string
  /\ authorization r = Some ("Bearer " ++ apiKey (agent st))%string.
Proof.
  intros Hvalid Hpool Hkey Hstore Hserver. cbv zeta. rewrite placeBet_run, Hvalid. cbn [negb].
  destruct (String.eqb_spec (default "TEST"%string (p_balanceType p)) "REAL");
    [contradiction |].
  destruct (String.eqb_spec (apiKey (agent st)) ""); [contradiction |].
  cbv zeta. rewrite Hserver. cbn [fst snd].
  repeat split; [| apply substring_length].
  cbn. apply plus_exact. lia.
Qed.

(** X8. Without an API key a valid bet throws "API key required" and sends
    nothing, but only after it has taken a token: on a store whose value is
    below [2 ^ 53] in magnitude, the store has advanced by one and the write
    of that token was attempted. *)
Theorem placeBet_without_key p st :
  Commentary.valid (Commentary.validate (p_commentary p)) = true ->
  default "TEST"%string (p_balanceType p) <> "REAL"%string ->
  apiKey (agent st) = ""%string ->
  Z.abs (fst (Nonce.load (store (agent st)) (machine (env st)))) < 2 ^ 53 ->
  let st' := snd (placeBet p st) in
  let token := fst (Nonce.load (store (agent st)) (machine (env st))) + 1 in
  fst (placeBet p st)
  = Thrown (newError "API key required. Set PREDICTME_API_KEY in .env")
  /\ sent (env st') = sent (env st)
  /\ Nonce._value (store (agent st')) = Some token
  /\ Nonce.attempts (machine (env st'))
     = (Nonce.attempts (machine (env st))
        ++ [(Nonce.filePath (store (agent st)), decimalText token)])%list.
Proof.
  intros Hvalid Hpool Hkey Hstore. cbv zeta. rewrite placeBet_run, Hvalid. cbn [negb].
  destruct (String.eqb_spec (default "TEST"%string (p_balanceType p)) "REAL");
    [contradiction |].
  rewrite Hkey. cbn [String.eqb fst snd].
  unfold after_token. cbn [agent env store machine sent Nonce._value Nonce.attempts
                           Nonce.writeFileSync_caught first_body nonce].
  rewrite plus_exact by lia. rewrite numToString_exact by lia.
  repeat split.
Qed.

(** X9. Whatever the parameters, the state and the server, one [placeBet]
    only appends to the record of requests, and at most two of them; each is an
    authenticated POST to [/bet] of a commentary that validated, cut to at most
    500 code units, on a pool other than REAL. The key, the URL, the file path
    of the store and the server are as before. *)
Theorem placeBet_sends_at_most_two p st :
  let st' := snd (placeBet p st) in
  (exists added,
     sent (env st') = (sent (env st) ++ added)%list
     /\ (List.length added <= 2)%nat
     /\ Forall (fun r =>
           method r = "POST"%string
           /\ url r = (apiUrl (agent st) ++ "/bet")%string
           /\ authorization r = Some ("Bearer " ++ apiKey (agent st))%string
           /\ balanceType (payload r) <> "REAL"%string
           /\ (String.length (commentary (payload r)) <= 500)%nat
           /\ Commentary.valid (Commentary.validate (p_commentary p)) = true) added)
  /\ apiKey (agent st') = apiKey (agent st)
  /\ apiUrl (agent st') = apiUrl (agent st)
  /\ Nonce.filePath (store (agent st')) = Nonce.filePath (store (agent st))
  /\ server (env st') = server (env st).
Proof.
  cbv zeta. rewrite placeBet_run.
  assert (Hnothing : exists added : list Request,
             sent (env st) = (sent (env st) ++ added)%list
             /\ (List.length added <= 2)%nat
             /\ Forall (fun r =>
                   method r = "POST"%string
                   /\ url r = (apiUrl (agent st) ++ "/bet")%string
                   /\ authorization r = Some ("Bearer " ++ apiKey (agent st))%string
                   /\ balanceType (payload r) <> "REAL"%string
                   /\ (String.length (commentary (payload r)) <= 500)%nat
                   /\ Commentary.valid (Commentary.validate (p_commentary p)) = true) added).
  { exists []. rewrite app_nil_r. split; [reflexivity | split; [cbn; lia | constructor]]. }
  destruct (Commentary.valid (Commentary.validate (p_commentary p))) eqn:Hvalid;
    cbn [negb snd]; [| repeat split; exact Hnothing].
  destruct (String.eqb_spec (default "TEST"%string (p_balanceType p)) "REAL") as [Hpool | Hpool];
    cbn [snd]; [repeat split; exact Hnothing |].
  cbv zeta.
  destruct (String.eqb_spec (apiKey (agent st)) "") as [Hkey | Hkey];
    cbn [snd]; [repeat split; exact Hnothing |].
  clear Hnothing.
  assert (Hlen : (String.length (String.substring 0 500 (p_commentary p)) <= 500)%nat)
    by apply substring_length.
  assert (Hfirst : forall n,
             method (bet_request st (with_nonce (first_body p st) n)) = "POST"%string
             /\ url (bet_request st (with_nonce (first_body p st) n))
                = (apiUrl (agent st) ++ "/bet")%string
             /\ authorization (bet_request st (with_nonce (first_body p st) n))
                = Some ("Bearer " ++ apiKey (agent st))%string
             /\ balanceType (payload (bet_request st (with_nonce (first_body p st) n)))
                <> "REAL"%string
             /\ (String.length
                   (commentary (payload (bet_request st (with_nonce (first_body p st) n))))
                 <= 500)%nat
             /\ true = true).
  { intros n. cbn. repeat split; assumption. }
  destruct (server (env st) _) as [json | err]; cbn [snd].
  { split; [| repeat split].
    exists [bet_request st (first_body p st)].
    split; [reflexivity | split; [cbn; lia |]].
    constructor; [exact (Hfirst (nonce (first_body p st))) | constructor]. }
  destruct (expected_of err) as [expected |]; cbn [snd].
  - split; [| repeat split].
    exists [bet_request st (first_body p st);
            bet_request st (with_nonce (first_body p st) (JS.plus expected 1))].
    split; [cbn; rewrite <- app_assoc; reflexivity | split; [cbn; lia |]].
    constructor; [exact (Hfirst (nonce (first_body p st))) |].
    constructor; [exact (Hfirst (JS.plus expected 1)) | constructor].
  - split; [| repeat split].
    exists [bet_request st (first_body p st)].
    split; [reflexivity | split; [cbn; lia |]].
    constructor; [exact (Hfirst (nonce (first_body p st))) | constructor].
Qed.

(** After a [placeBet] that sent anything, the first token of the next bet
    is the sum of the last token sent and one. *)
Lemma next_token_sum p q st earlier r :
  sent (env (snd (placeBet p st))) = (sent (env st) ++ earlier ++ [r])%list ->
  nonce (first_body q (snd (placeBet p st))) = JS.plus (nonce (payload r)) 1.
Proof.
  rewrite placeBet_run.
  assert (Hnone : forall A (l x : list A) (y : A), l = (l ++ x ++ [y])%list -> False).
  { intros A l x y Heq. apply (f_equal (@List.length A)) in Heq.
    rewrite !List.length_app in Heq. cbn in Heq. lia. }
  assert (Hlast : forall A (l x : list A) (y : A) (ys : list A) (z : A),
             (l ++ ys ++ [z] = l ++ x ++ [y])%list -> z = y).
  { intros A l x y ys z Heq. apply app_inv_head in Heq.
    apply app_inj_tail in Heq. tauto. }
  destruct (negb _); cbn [snd].
  { intros Heq. exfalso. exact (Hnone _ _ _ _ Heq). }
  destruct (String.eqb _ "REAL"); cbn [snd].
  { intros Heq. exfalso. exact (Hnone _ _ _ _ Heq). }
  cbv zeta. destruct (String.eqb (apiKey (agent st)) ""); cbn [snd].
  { intros Heq. exfalso. exact (Hnone _ _ _ _ Heq). }
  destruct (server (env st) _) as [json | err]; cbn [snd].
  { intros Heq. cbn in Heq.
    apply (Hlast _ _ _ _ [] _) in Heq. subst r. reflexivity. }
  destruct (expected_of err) as [expected |]; cbn [snd].
  - intros Heq. cbn in Heq. rewrite <- app_assoc in Heq.
    apply (Hlast _ _ _ _ [_] _) in Heq. subst r. reflexivity.
  - intros Heq. cbn in Heq.
    apply (Hlast _ _ _ _ [] _) in Heq. subst r. reflexivity.
Qed.

(** X10. Every bet continues from the last token sent: after a [placeBet] that
    sent anything, the last token below [2 ^ 53] in magnitude, the first token
    of the agent's next bet is the token of the last request sent plus one. *)
Theorem next_bet_follows_last_token p q st :
  let st' := snd (placeBet p st) in
  forall earlier r,
    sent (env st') = (sent (env st) ++ earlier ++ [r])%list ->
    Z.abs (nonce (payload r)) < 2 ^ 53 ->
    nonce (first_body q st') = nonce (payload r) + 1.
Proof.
  cbv zeta. intros earlier r Hsent Hrange.
  rewrite (next_token_sum p q st earlier r Hsent). apply plus_exact. lia.
Qed.

End SubmissionFacts.

(** ** More on commentary *)

Section ScoreFacts.
Import Commentary Template Text.

#[local] Arguments String.append !s1 s2 : simpl nomatch.

Lemma trimEnd_cons c s :
  trimEnd (String c s) =
  match trimEnd s with
  | EmptyString => if is_ws c then EmptyString else String c EmptyString
  | t => String c t
  end.
Proof. reflexivity. Qed.

Lemma trimEnd_idempotent s : trimEnd (trimEnd s) = trimEnd s.
Proof.
  induction s as [| c s IH]; [reflexivity |].
  rewrite trimEnd_cons. destruct (trimEnd s) as [| d t] eqn:E.
  - destruct (is_ws c) eqn:Hc; [reflexivity |]. rewrite trimEnd_cons. cbn [trimEnd].
    now rewrite Hc.
  - rewrite trimEnd_cons, IH. reflexivity.
Qed.

Lemma trimStart_clean s : starts_clean (trimStart s) = true.
Proof.
  induction s as [| c s IH]; [reflexivity |]. cbn [trimStart].
  destruct (is_ws c) eqn:Hc; [exact IH |]. cbn. now rewrite Hc.
Qed.

Lemma trimStart_of_clean s : starts_clean s = true -> trimStart s = s.
Proof.
  destruct s as [| c s]; [reflexivity |]. cbn. intros Hc.
  apply negb_true_iff in Hc. now rewrite Hc.
Qed.

Lemma trimEnd_clean s : starts_clean s = true -> starts_clean (trimEnd s) = true.
Proof.
  destruct s as [| c s]; [reflexivity |]. cbn [starts_clean]. intros Hc.
  rewrite trimEnd_cons. destruct (trimEnd s); [| exact Hc].
  apply negb_true_iff in Hc. rewrite Hc. cbn. now rewrite Hc.
Qed.

Lemma trim_idempotent s : trim (trim s) = trim s.
Proof.
  unfold trim.
  rewrite (trimStart_of_clean (trimEnd (trimStart s))).
  - apply trimEnd_idempotent.
  - apply trimEnd_clean, trimStart_clean.
Qed.

Lemma trim_nonempty s : trim s <> ""%string -> s <> ""%string.
Proof. intros Ht ->. now apply Ht. Qed.

(** X11. White space around a text changes neither the verdict of [validate],
    message included, nor the score of a text that is not blank. *)
Theorem surrounding_space_is_ignored s :
  validate (trim s) = validate s
  /\ (trim s <> ""%string -> qualityScore (trim s) = qualityScore s).
Proof.
  split.
  - unfold validate. rewrite trim_idempotent.
    destruct (String.eqb_spec (trim s) "") as [E | E].
    + now rewrite !orb_true_r.
    + rewrite !orb_false_r. destruct (String.eqb_spec s "") as [-> | Hs].
      * exfalso. now apply E.
      * reflexivity.
  - intros Ht. unfold qualityScore. rewrite trim_idempotent.
    destruct (String.eqb_spec (trim s) ""); [contradiction |].
    destruct (String.eqb_spec s "") as [-> | Hs]; [exfalso; now apply Ht | reflexivity].
Qed.

Lemma is_ws_lower c : is_ws (lower_unit c) = is_ws c.
Proof. destruct c as [[] [] [] [] [] [] [] []]; reflexivity. Qed.

Lemma trimStart_lower s : toLowerCase (trimStart s) = trimStart (toLowerCase s).
Proof.
  induction s as [| c s IH]; [reflexivity |]. cbn [trimStart toLowerCase].
  rewrite is_ws_lower. destruct (is_ws c); [exact IH | reflexivity].
Qed.

Lemma trimEnd_lower s : toLowerCase (trimEnd s) = trimEnd (toLowerCase s).
Proof.
  induction s as [| c s IH]; [reflexivity |]. cbn [toLowerCase].
  rewrite !trimEnd_cons, <- IH, is_ws_lower.
  destruct (trimEnd s) as [| d t]; cbn [toLowerCase]; [| reflexivity].
  destruct (is_ws c); reflexivity.
Qed.

Lemma trim_lower s : toLowerCase (trim s) = trim (toLowerCase s).
Proof. unfold trim. now rewrite trimEnd_lower, trimStart_lower. Qed.

Lemma lower_empty s : String.eqb (toLowerCase s) "" = String.eqb s "".
Proof. destruct s; reflexivity. Qed.

(** X12. The score does not look at the case of letters: two texts with the
    same lower-casing and the same trimmed length score the same. (The length
    is counted before the text is put in lower case.) *)
Theorem qualityScore_ignores_case s1 s2 :
  toLowerCase s1 = toLowerCase s2 ->
  String.length (trim s1) = String.length (trim s2) ->
  qualityScore s1 = qualityScore s2.
Proof.
  intros Hsame Hlength.
  assert (Hscore : forall s,
             qualityScore s =
             if String.eqb (toLowerCase s) "" then 0
             else Z.min 100
                    (0 + lengthPoints (String.length (trim s))
                     + uniquePoints
                         (size (list_to_set (C := gset string)
                                  (split_ws (trim (toLowerCase s)))))
                     + termPoints
                         (List.length
                            (List.filter (fun term => includes (trim (toLowerCase s)) term)
                               TECHNICAL_TERMS)))).
  { intros s. unfold qualityScore, uniqueWords, termCount.
    rewrite lower_empty, <- !trim_lower. reflexivity. }
  rewrite (Hscore s1), (Hscore s2), Hsame, Hlength. reflexivity.
Qed.

(** X13. What a badge takes: every text that is not empty scores at least 10,
    a score of Gold or better needs a trimmed length of at least 60, and a
    Diamond score a trimmed length of at least 100. *)
Theorem badge_needs_length s :
  (s <> ""%string -> 10 <= qualityScore s)
  /\ (75 <= qualityScore s -> (60 <= String.length (trim s))%nat)
  /\ (badgeTier (qualityScore s) = Some "Gold"%string -> (60 <= String.length (trim s))%nat)
  /\ (badgeTier (qualityScore s) = Some "Diamond"%string ->
      (100 <= String.length (trim s))%nat).
Proof.
  assert (Hbound : forall bound need,
             (forall len, (len < need)%nat -> lengthPoints len + 50 < bound) ->
             bound <= qualityScore s -> (need <= String.length (trim s))%nat).
  { intros bound need Hlow Hscore.
    destruct (Nat.le_gt_cases need (String.length (trim s))) as [Hok | Hshort];
      [exact Hok | exfalso].
    specialize (Hlow _ Hshort). unfold qualityScore in Hscore.
    pose proof (lengthPoints_range (String.length (trim s))).
    pose proof (uniquePoints_range (uniqueWords (trim s))).
    pose proof (termPoints_range (termCount (trim s))).
    destruct (String.eqb s ""); lia. }
  assert (H60 : forall len, (len < 60)%nat -> lengthPoints len + 50 < 75).
  { intros len Hlen. unfold lengthPoints.
    repeat match goal with |- context [Nat.leb ?a ?b] => destruct (Nat.leb_spec a b) end; lia. }
  assert (H100 : forall len, (len < 100)%nat -> lengthPoints len + 50 < 90).
  { intros len Hlen. unfold lengthPoints.
    repeat match goal with |- context [Nat.leb ?a ?b] => destruct (Nat.leb_spec a b) end; lia. }
  split; [| split; [| split]].
  - intros Hs. unfold qualityScore. destruct (String.eqb_spec s ""); [contradiction |].
    pose proof (lengthPoints_range (String.length (trim s))).
    pose proof (uniquePoints_range (uniqueWords (trim s))).
    pose proof (termPoints_range (termCount (trim s))). lia.
  - apply (Hbound 75 60%nat H60).
  - intros Htier. apply (Hbound 75 60%nat H60). unfold badgeTier in Htier.
    repeat match type of Htier with
           | context [Z.leb ?a ?b] => destruct (Z.leb_spec a b)
           end; try discriminate; lia.
  - intros Htier. apply (Hbound 90 100%nat H100). unfold badgeTier in Htier.
    repeat match type of Htier with
           | context [Z.leb ?a ?b] => destruct (Z.leb_spec a b)
           end; try discriminate; lia.
Qed.

(** X14. A template that holds no opening brace is plain text: it renders as
    its own first 500 code units, whatever the context holds. *)
Theorem plain_text_renders_as_itself template (context : gmap string value) :
  has_unit "{" template = false ->
  renderTemplate template context = String.substring 0 500 template.
Proof.
  intros Hplain. rewrite renderTemplate_steps. unfold replaceAll, pattern.
  assert (Hstep : forall n v, replace_go (braced n) v "" 0 template = template).
  { intros n v. rewrite <- (append_nil_r template) at 1.
    rewrite (replace_go_text n v template "" "" Hplain). cbn [replace_go].
    apply append_nil_r. }
  now rewrite !Hstep.
Qed.

End ScoreFacts.

(** ** More on grid selection *)

Section MoreSelectionFacts.
Import Strategy Picker.
Context `{Number}.

Lemma fold_keeps_member (f : Grid -> Grid -> Grid) :
  (forall best g, f best g = best \/ f best g = g) ->
  forall grids best, fold_left f grids best = best \/ In (fold_left f grids best) grids.
Proof.
  intros Hf. induction grids as [| g rest IH]; intros best; [left; reflexivity |].
  cbn [fold_left]. destruct (IH (f best g)) as [Hstay | Hin].
  - rewrite Hstay. destruct (Hf best g) as [-> | ->]; [left; reflexivity | right; left; reflexivity].
  - right. right. exact Hin.
Qed.

Lemma reduce_member (f : Grid -> Grid -> Grid) grids :
  (forall best g, f best g = best \/ f best g = g) ->
  match reduce_from_first f grids with
  | Some g => In g grids
  | None => grids = []
  end.
Proof.
  intros Hf. destruct grids as [| g0 rest]; [reflexivity |]. cbn [reduce_from_first].
  destruct (fold_keeps_member f Hf (g0 :: rest) g0) as [-> | Hin]; [left; reflexivity | exact Hin].
Qed.

Lemma each_strategy_member grids currentPrice :
  let member (r : option Grid) :=
    match r with Some g => In g grids | None => grids = [] end in
  member (balanced grids currentPrice)
  /\ member (underdog grids currentPrice)
  /\ member (favorite grids currentPrice)
  /\ member (value grids currentPrice).
Proof.
  cbv zeta. repeat split; apply reduce_member; intros best g; cbv zeta;
    match goal with |- context [if ?c then _ else _] => destruct c end; auto.
Qed.

(** X15. Each of the four strategies returns one of the grids it was given,
    whatever their fields hold, and returns nothing ([undefined]) exactly when
    the list is empty. *)
Theorem strategies_pick_a_member grids currentPrice :
  let member (r : option Grid) :=
    match r with Some g => In g grids | None => grids = [] end in
  member (balanced grids currentPrice)
  /\ member (underdog grids currentPrice)
  /\ member (favorite grids currentPrice)
  /\ member (value grids currentPrice).
Proof. exact (each_strategy_member grids currentPrice). Qed.

(** X16. On a non-empty list whose distances from midpoint to price are
    numbers, [favorite] returns the first grid whose midpoint is closest to the
    price: no grid of the list is closer, and every grid before it is strictly
    farther. *)
Theorem favorite_closest grids currentPrice :
  grids <> [] ->
  Forall (numeric (favoriteKey currentPrice)) grids ->
  exists b,
    favorite grids currentPrice = Some b
    /\ In b grids
    /\ (forall g, In g grids ->
          le (favoriteKey currentPrice b) (favoriteKey currentPrice g) = true)
    /\ exists earlier later,
         grids = (earlier ++ b :: later)%list
         /\ forall g, In g earlier ->
              lt (favoriteKey currentPrice b) (favoriteKey currentPrice g) = true.
Proof.
  intros Hne Hnum.
  destruct (reduce_first_best (smaller (favoriteKey currentPrice))
              (numeric (favoriteKey currentPrice))
              (smaller_irrefl _) (smaller_trans _) (smaller_negtrans _) grids Hne Hnum)
    as (b & Hrun & Hbest).
  exists b. split; [exact Hrun |]. split; [eapply first_best_in; eauto |].
  destruct Hbest as [Hnone Hfirst]. split; [| exact Hfirst].
  intros g Hg. unfold le. specialize (Hnone g Hg). unfold smaller in Hnone.
  rewrite Hnone. reflexivity.
Qed.

End MoreSelectionFacts.

(** ** Picking a grid and betting on it *)

Section TradingFacts.
Import Strategy Picker Api Trading.
Context `{Number}.

#[local] Arguments String.append !s1 s2 : simpl nomatch.

(** X17. [pickGrid] throws "No grids available" on an empty list whatever the
    strategy; on a non-empty list each of the four names (and no name at all,
    which means balanced) gives a grid of the list, a function of the caller
    gives whatever it returns, and a name that is neither in the registry nor
    inherited throws "Unknown strategy" with the four names. *)
Theorem pickGrid_contract grids currentPrice :
  (forall strategy, pickGrid [] currentPrice strategy = PickThrows "No grids available")
  /\ (grids <> [] ->
      (forall name, In name ["balanced"; "underdog"; "favorite"; "value"]%string ->
         exists g, pickGrid grids currentPrice (Some (Named name)) = Picked (Some g)
                   /\ In g grids)
      /\ pickGrid grids currentPrice None = Picked (balanced grids currentPrice)
      /\ (forall fn, pickGrid grids currentPrice (Some (Custom fn))
                     = Picked (Some (fn grids currentPrice)))
      /\ (forall name,
            ~ In name ["balanced"; "underdog"; "favorite"; "value"]%string ->
            ~ In name inherited ->
            pickGrid grids currentPrice (Some (Named name))
            = PickThrows ("Unknown strategy: " ++ name
                          ++ ". Available: balanced, underdog, favorite, value"))).
Proof.
  split; [reflexivity |]. intros Hne.
  destruct grids as [| g0 rest]; [contradiction |].
  pose proof (each_strategy_member (g0 :: rest) currentPrice) as Hmember.
  cbv zeta in Hmember. destruct Hmember as (Hb & Hu & Hf & Hv).
  split; [| split; [reflexivity | split; [reflexivity |]]].
  - intros name Hname. cbn in Hname.
    destruct Hname as [<- | [<- | [<- | [<- | []]]]].
    + change (pickGrid (g0 :: rest) currentPrice (Some (Named "balanced")))
        with (Picked (balanced (g0 :: rest) currentPrice)).
      destruct (balanced (g0 :: rest) currentPrice) as [g |]; [eauto | discriminate].
    + change (pickGrid (g0 :: rest) currentPrice (Some (Named "underdog")))
        with (Picked (underdog (g0 :: rest) currentPrice)).
      destruct (underdog (g0 :: rest) currentPrice) as [g |]; [eauto | discriminate].
    + change (pickGrid (g0 :: rest) currentPrice (Some (Named "favorite")))
        with (Picked (favorite (g0 :: rest) currentPrice)).
      destruct (favorite (g0 :: rest) currentPrice) as [g |]; [eauto | discriminate].
    + change (pickGrid (g0 :: rest) currentPrice (Some (Named "value")))
        with (Picked (value (g0 :: rest) currentPrice)).
      destruct (value (g0 :: rest) currentPrice) as [g |]; [eauto | discriminate].
  - intros name Hfour Hinherited. unfold pickGrid. cbn [default].
    assert (Hfind : List.find (fun kv => String.eqb (fst kv) name) strategies = None).
    { unfold strategies. cbn [List.find fst].
      repeat match goal with
             | |- context [String.eqb ?a name] =>
                 destruct (String.eqb_spec a name) as [E | E];
                   [exfalso; apply Hfour; rewrite <- E; cbn; auto 10 | clear E]
             end.
      reflexivity. }
    unfold id. rewrite Hfind.
    destruct (existsb (String.eqb name) inherited) eqn:Ex; [| reflexivity].
    exfalso. apply Hinherited. apply existsb_exists in Ex.
    destruct Ex as (x & Hx & Heq). apply String.eqb_eq in Heq. now subst.
Qed.

End TradingFacts.
(** ** Fetching the odds, picking and betting *)

Section PickAndBetFacts.
Import Strategy Picker Api Steps Trading Template.
Context `{Number}.

#[local] Arguments String.append !s1 s2 : simpl nomatch.

Lemma substring_all n : forall s,
  (String.length s <= n)%nat -> String.substring 0 n s = s.
Proof.
  induction n as [| n IH]; intros [| c s] Hlen; cbn in Hlen |- *;
    try reflexivity; try lia.
  f_equal. apply IH. lia.
Qed.

Lemma renderTemplate_short template context :
  (String.length (Commentary.renderTemplate template context) <= 500)%nat.
Proof. rewrite renderTemplate_steps. apply substring_length. Qed.

(** Every request a [placeBet] adds carries the body of the first attempt, up
    to the token. *)
Lemma placeBet_requests p st :
  exists added,
    sent (env (snd (placeBet p st))) = (sent (env st) ++ added)%list
    /\ Forall (fun r => exists n, payload r = with_nonce (first_body p st) n) added.
Proof.
  rewrite placeBet_run.
  assert (Hnothing : exists added : list Request,
             sent (env st) = (sent (env st) ++ added)%list
             /\ Forall (fun r => exists n, payload r = with_nonce (first_body p st) n) added).
  { exists []. rewrite app_nil_r. split; [reflexivity | constructor]. }
  destruct (negb _); cbn [snd]; [exact Hnothing |].
  destruct (String.eqb _ "REAL"); cbn [snd]; [exact Hnothing |].
  cbv zeta. destruct (String.eqb (apiKey (agent st)) ""); cbn [snd]; [exact Hnothing |].
  clear Hnothing.
  assert (Hreq : forall n, exists k,
             payload (bet_request st (with_nonce (first_body p st) n))
             = with_nonce (first_body p st) k) by (intros n; exists n; reflexivity).
  destruct (server (env st) _) as [json | err]; cbn [snd].
  { exists [bet_request st (first_body p st)]. split; [reflexivity |].
    constructor; [exact (Hreq (nonce (first_body p st))) | constructor]. }
  destruct (expected_of err) as [expected |]; cbn [snd].
  - exists [bet_request st (first_body p st);
            bet_request st (with_nonce (first_body p st) (JS.plus expected 1))].
    split; [cbn; rewrite <- app_assoc; reflexivity |].
    constructor; [exact (Hreq (nonce (first_body p st))) |].
    constructor; [exact (Hreq (JS.plus expected 1)) | constructor].
  - exists [bet_request st (first_body p st)]. split; [reflexivity |].
    constructor; [exact (Hreq (nonce (first_body p st))) | constructor].
Qed.

Lemma getOdds_with_key feed asset st :
  apiKey (agent st) <> ""%string ->
  getOdds feed asset st
  = match feed asset with
    | OddsResolved r => (Returned r, st)
    | OddsRejected err => (Thrown err, st)
    end.
Proof.
  intros Hkey. unfold getOdds, bind, _auth.
  destruct (String.eqb_spec (apiKey (agent st)) ""); [contradiction | reflexivity].
Qed.

(** What a run that picked [chosen] sends. *)
Lemma pickAndBet_requests feed p st d chosen :
  apiKey (agent st) <> ""%string ->
  feed (default "BTC"%string (a_asset p)) = OddsResolved {| data := Some d |} ->
  pickGrid (grids d) (currentPrice d) (a_strategy p) = Picked (Some chosen) ->
  exists o added,
    pickAndBet feed p st = (Done o, snd (placeBet (betFor p (currentPrice d) chosen) st))
    /\ sent (env (snd (pickAndBet feed p st))) = (sent (env st) ++ added)%list
    /\ Forall (fun r =>
          gridId (payload r) = str_or (Strategy.gridIdStr chosen) (Strategy.gridId chosen)
          /\ amount (payload r) = default "1.00"%string (a_amount p)
          /\ balanceType (payload r) = default "TEST"%string (a_balanceType p)
          /\ commentary (payload r)
             = Commentary.renderTemplate (a_commentary p)
                 (betContext (default ∅ (a_templateContext p)) (currentPrice d)
                    (default "BTC"%string (a_asset p)) (Strategy.odds chosen)
                    (gridLevelOf (Strategy.gridIdStr chosen))
                    (strategyLabel (default (Named "balanced") (a_strategy p))))
          /\ strategy (payload r)
             = match strategyTag (default (Named "balanced") (a_strategy p)) with
               | Some s => if String.eqb s "" then None else Some s
               | None => None
               end) added.
Proof.
  intros Hkey Hfeed Hpick.
  assert (Hrun : pickAndBet feed p st
                 = (Done (fst (placeBet (betFor p (currentPrice d) chosen) st)),
                    snd (placeBet (betFor p (currentPrice d) chosen) st))).
  { unfold pickAndBet. cbv zeta. rewrite (getOdds_with_key _ _ _ Hkey), Hfeed.
    cbn [data]. destruct (grids d) as [| g0 rest] eqn:Hgrids.
    - discriminate Hpick.
    - rewrite Hpick. now destruct (placeBet _ st). }
  destruct (placeBet_requests (betFor p (currentPrice d) chosen) st) as (added & Hsent & Hall).
  exists (fst (placeBet (betFor p (currentPrice d) chosen) st)), added.
  rewrite Hrun. cbn [snd]. split; [reflexivity | split; [exact Hsent |]].
  eapply List.Forall_impl; [| exact Hall].
  intros r [n ->]. cbn [with_nonce first_body betFor gridId amount balanceType commentary
                        strategy p_gridId p_amount p_balanceType p_commentary p_strategy
                        default from_option id].
  repeat split.
  rewrite substring_all by apply renderTemplate_short.
  unfold str_or. destruct (String.eqb_spec (Strategy.gridIdStr chosen) "") as [-> | _];
    reflexivity.
Qed.


(** X18. Whatever stops [pickAndBet] before a grid is chosen leaves the agent,
    its store and the record of bets untouched: no token is taken and no bet
    is submitted. (The odds request itself, which is no part of that record,
    has gone out in every case but the first.) That is so without an API key
    (the same call of [placeBet] would take a token first), when the odds
    request is rejected (the error is passed on as it is), when the answer has
    no data or no grids ("No grids available for" the asset, BTC when none is
    given), and for a strategy name that is neither one of the four nor
    inherited. *)
Theorem pickAndBet_stops_before_betting feed p st :
  let asset := default "BTC"%string (a_asset p) in
  (apiKey (agent st) = ""%string ->
     pickAndBet feed p st
     = (Done (Thrown (newError "API key required. Set PREDICTME_API_KEY in .env")), st))
  /\ (apiKey (agent st) <> ""%string ->
      (forall err, feed asset = OddsRejected err ->
         pickAndBet feed p st = (Done (Thrown err), st))
      /\ (forall r, feed asset = OddsResolved r ->
            match data r with Some d => grids d | None => [] end = [] ->
            pickAndBet feed p st
            = (Done (Thrown (newError ("No grids available for " ++ asset))), st))
      /\ (forall r d name,
            feed asset = OddsResolved r -> data r = Some d -> grids d <> [] ->
            a_strategy p = Some (Named name) ->
            ~ In name ["balanced"; "underdog"; "favorite"; "value"]%string ->
            ~ In name inherited ->
            pickAndBet feed p st
            = (Done (Thrown (newError
                 ("Unknown strategy: " ++ name
                  ++ ". Available: balanced, underdog, favorite, value"))), st))).
Proof.
  cbv zeta. split.
  - intros Hkey. unfold pickAndBet, getOdds, bind, _auth. cbv zeta. rewrite Hkey. reflexivity.
  - intros Hkey. split; [| split].
    + intros err Hfeed. unfold pickAndBet. cbv zeta.
      rewrite (getOdds_with_key _ _ _ Hkey), Hfeed. reflexivity.
    + intros r Hfeed Hempty. unfold pickAndBet. cbv zeta.
      rewrite (getOdds_with_key _ _ _ Hkey), Hfeed, Hempty. reflexivity.
    + intros r d name Hfeed Hdata Hgrids Hstrategy Hfour Hinherited.
      unfold pickAndBet. cbv zeta.
      rewrite (getOdds_with_key _ _ _ Hkey), Hfeed, Hdata.
      destruct (grids d) as [| g0 rest] eqn:Eg; [contradiction |].
      rewrite Hstrategy.
      assert (Hpick : pickGrid (g0 :: rest) (currentPrice d) (Some (Named name))
                      = PickThrows ("Unknown strategy: " ++ name
                          ++ ". Available: balanced, underdog, favorite, value")).
      { unfold pickGrid. cbn [default from_option id].
        assert (Hfind : List.find (fun kv => String.eqb (fst kv) name) strategies = None).
        { unfold strategies. cbn [List.find fst].
          repeat match goal with
                 | |- context [String.eqb ?a name] =>
                     destruct (String.eqb_spec a name) as [E | E];
                       [exfalso; apply Hfour; rewrite <- E; cbn; auto 10 | clear E]
                 end.
          reflexivity. }
        rewrite Hfind.
        destruct (existsb (String.eqb name) inherited) eqn:Ex; [| reflexivity].
        exfalso. apply Hinherited. apply existsb_exists in Ex.
        destruct Ex as (x & Hx & Heq). apply String.eqb_eq in Heq. now subst. }
      rewrite Hpick. reflexivity.
Qed.

(** X19. With one of the four strategy names, or none, an agent with a key
    that is given grids always reaches [placeBet], and on a grid of the list
    it fetched: every request it sends carries that grid's [gridIdStr] (its
    [gridId] when that is empty), the amount (1.00 when none is given), the
    pool (TEST when none is given), the strategy name, and as commentary the
    template rendered with the fetched price, the asset, that grid's odds and
    level and the strategy name. *)
Theorem pickAndBet_bets_on_listed_grid feed p st d :
  apiKey (agent st) <> ""%string ->
  feed (default "BTC"%string (a_asset p)) = OddsResolved {| data := Some d |} ->
  grids d <> [] ->
  (a_strategy p = None
   \/ exists name, a_strategy p = Some (Named name)
                   /\ In name ["balanced"; "underdog"; "favorite"; "value"]%string) ->
  exists chosen o added,
    In chosen (grids d)
    /\ pickAndBet feed p st = (Done o, snd (placeBet (betFor p (currentPrice d) chosen) st))
    /\ sent (env (snd (pickAndBet feed p st))) = (sent (env st) ++ added)%list
    /\ Forall (fun r =>
          gridId (payload r) = str_or (Strategy.gridIdStr chosen) (Strategy.gridId chosen)
          /\ amount (payload r) = default "1.00"%string (a_amount p)
          /\ balanceType (payload r) = default "TEST"%string (a_balanceType p)
          /\ commentary (payload r)
             = Commentary.renderTemplate (a_commentary p)
                 (betContext (default ∅ (a_templateContext p)) (currentPrice d)
                    (default "BTC"%string (a_asset p)) (Strategy.odds chosen)
                    (gridLevelOf (Strategy.gridIdStr chosen))
                    (strategyLabel (default (Named "balanced") (a_strategy p))))
          /\ strategy (payload r)
             = Some (strategyLabel (default (Named "balanced") (a_strategy p)))) added.
Proof.
  intros Hkey Hfeed Hgrids Hstrategy.
  pose proof (each_strategy_member (grids d) (currentPrice d)) as Hmember.
  cbv zeta in Hmember. destruct Hmember as (Hb & Hu & Hf & Hv).
  assert (Hpick : exists chosen,
             In chosen (grids d)
             /\ pickGrid (grids d) (currentPrice d) (a_strategy p) = Picked (Some chosen)
             /\ match strategyTag (default (Named "balanced") (a_strategy p)) with
                | Some s => if String.eqb s "" then None else Some s
                | None => None
                end = Some (strategyLabel (default (Named "balanced") (a_strategy p)))).
  { destruct (grids d) as [| g0 rest] eqn:Eg; [contradiction |].
    destruct Hstrategy as [-> | (name & -> & Hname)].
    - change (pickGrid (g0 :: rest) (currentPrice d) None)
        with (Picked (balanced (g0 :: rest) (currentPrice d))).
      destruct (balanced (g0 :: rest) (currentPrice d)) as [g |];
        [exists g; auto | discriminate Hb].
    - cbn in Hname. destruct Hname as [<- | [<- | [<- | [<- | []]]]].
      + change (pickGrid (g0 :: rest) (currentPrice d) (Some (Named "balanced")))
          with (Picked (balanced (g0 :: rest) (currentPrice d))).
        destruct (balanced (g0 :: rest) (currentPrice d)) as [g |];
          [exists g; auto | discriminate Hb].
      + change (pickGrid (g0 :: rest) (currentPrice d) (Some (Named "underdog")))
          with (Picked (underdog (g0 :: rest) (currentPrice d))).
        destruct (underdog (g0 :: rest) (currentPrice d)) as [g |];
          [exists g; auto | discriminate Hu].
      + change (pickGrid (g0 :: rest) (currentPrice d) (Some (Named "favorite")))
          with (Picked (favorite (g0 :: rest) (currentPrice d))).
        destruct (favorite (g0 :: rest) (currentPrice d)) as [g |];
          [exists g; auto | discriminate Hf].
      + change (pickGrid (g0 :: rest) (currentPrice d) (Some (Named "value")))
          with (Picked (Strategy.value (g0 :: rest) (currentPrice d))).
        destruct (Strategy.value (g0 :: rest) (currentPrice d)) as [g |];
          [exists g; auto | discriminate Hv]. }
  destruct Hpick as (chosen & Hin & Hpick & Htag).
  destruct (pickAndBet_requests feed p st d chosen Hkey Hfeed Hpick)
    as (o & added & Hrun & Hsent & Hall).
  exists chosen, o, added. rewrite <- Htag. auto.
Qed.

(** X20. With a function of the caller's as strategy the bet is on the grid
    the function returns, whether listed or not; the requests carry no
    strategy field, and the template's strategy marker reads "custom". *)
Theorem pickAndBet_custom_strategy feed p st d fn :
  apiKey (agent st) <> ""%string ->
  feed (default "BTC"%string (a_asset p)) = OddsResolved {| data := Some d |} ->
  grids d <> [] ->
  a_strategy p = Some (Custom fn) ->
  let chosen := fn (grids d) (currentPrice d) in
  exists o added,
    pickAndBet feed p st = (Done o, snd (placeBet (betFor p (currentPrice d) chosen) st))
    /\ sent (env (snd (pickAndBet feed p st))) = (sent (env st) ++ added)%list
    /\ Forall (fun r =>
          gridId (payload r) = str_or (Strategy.gridIdStr chosen) (Strategy.gridId chosen)
          /\ commentary (payload r)
             = Commentary.renderTemplate (a_commentary p)
                 (betContext (default ∅ (a_templateContext p)) (currentPrice d)
                    (default "BTC"%string (a_asset p)) (Strategy.odds chosen)
                    (gridLevelOf (Strategy.gridIdStr chosen)) "custom")
          /\ strategy (payload r) = None) added.
Proof.
  intros Hkey Hfeed Hgrids Hstrategy. cbv zeta.
  assert (Hpick : pickGrid (grids d) (currentPrice d) (a_strategy p)
                  = Picked (Some (fn (grids d) (currentPrice d)))).
  { rewrite Hstrategy. destruct (grids d); [contradiction | reflexivity]. }
  destruct (pickAndBet_requests feed p st d _ Hkey Hfeed Hpick)
    as (o & added & Hrun & Hsent & Hall).
  exists o, added. split; [exact Hrun | split; [exact Hsent |]].
  eapply List.Forall_impl; [| exact Hall].
  rewrite Hstrategy. cbn [default from_option id strategyLabel strategyTag].
  intros r (Hid & _ & _ & Hcommentary & Htag). auto.
Qed.

Lemma betContext_values ctx price asset odds level label m :
  code_value (betContext ctx price asset odds level label) m
  = match m with
    | Round => code_value ctx Round
    | Price => JS.or_else (JS.Str price) "?"
    | Asset => JS.or_else (JS.Str asset) "?"
    | Odds => JS.or_else (JS.Str odds) "?"
    | GridLevel => JS.or_else (JS.Str level) "?"
    | StrategyName => JS.or_else (JS.Str label) "?"
    end.
Proof.
  unfold code_value, JS.prop, betContext.
  destruct m; cbn [marker_name];
    repeat first [ rewrite lookup_insert_eq | rewrite lookup_insert_ne by discriminate ];
    reflexivity.
Qed.

(** X21. Of the caller's template context only [round] reaches the bet: the
    entries for price, asset, odds, grid level and strategy are replaced by the
    computed ones, and no other entry is read. Two runs whose contexts agree on
    [round] are the same run. *)
Theorem pickAndBet_reads_only_round feed st asset amount pool strategy commentary ctx1 ctx2 :
  JS.prop (default ∅ ctx1) "round" = JS.prop (default ∅ ctx2) "round" ->
  pickAndBet feed
    {| a_asset := asset; a_amount := amount; a_balanceType := pool;
       a_strategy := strategy; a_commentary := commentary; a_templateContext := ctx1 |} st
  = pickAndBet feed
      {| a_asset := asset; a_amount := amount; a_balanceType := pool;
         a_strategy := strategy; a_commentary := commentary; a_templateContext := ctx2 |} st.
Proof.
  intros Hround.
  assert (Hbet : forall price chosen,
             betFor {| a_asset := asset; a_amount := amount; a_balanceType := pool;
                       a_strategy := strategy; a_commentary := commentary;
                       a_templateContext := ctx1 |} price chosen
             = betFor {| a_asset := asset; a_amount := amount; a_balanceType := pool;
                         a_strategy := strategy; a_commentary := commentary;
                         a_templateContext := ctx2 |} price chosen).
  { intros price chosen. unfold betFor. cbv zeta.
    cbn [a_asset a_amount a_balanceType a_strategy a_commentary a_templateContext].
    f_equal. rewrite !renderTemplate_steps, !betContext_values.
    unfold code_value. cbn [marker_name]. now rewrite Hround. }
  unfold pickAndBet. cbv zeta.
  cbn [a_asset a_amount a_balanceType a_strategy a_commentary a_templateContext].
  destruct (getOdds feed (default "BTC"%string asset) st) as [[oddsRes | err] st1];
    [| reflexivity].
  destruct (match data oddsRes with Some d => grids d | None => [] end); [reflexivity |].
  destruct (pickGrid _ _ strategy) as [[chosen |] | msg |]; try reflexivity.
  now rewrite Hbet.
Qed.

Lemma splitOn_go_text sep a : forall cur s,
  has_unit sep a = false ->
  splitOn_go sep cur (a ++ s) = splitOn_go sep (cur ++ a) s.
Proof.
  induction a as [| c a IH]; intros cur s Ha.
  - now rewrite append_nil_r.
  - cbn in Ha. apply orb_false_iff in Ha. destruct Ha as [Hc Ha].
    cbn [String.append splitOn_go]. rewrite Hc, IH by exact Ha.
    now rewrite append_assoc.
Qed.

Lemma splitOn_last sep a : has_unit sep a = false -> splitOn sep a = [a].
Proof.
  intros Ha. unfold splitOn. rewrite <- (append_nil_r a) at 1.
  now rewrite splitOn_go_text.
Qed.

Lemma splitOn_segment sep a rest :
  has_unit sep a = false ->
  splitOn sep (a ++ String sep rest) = a :: splitOn sep rest.
Proof.
  intros Ha. unfold splitOn. rewrite splitOn_go_text by exact Ha.
  cbn [splitOn_go String.append]. now rewrite Ascii.eqb_refl.
Qed.

(** X22. The grid level handed to the template is the third piece of the grid
    identifier between underscores, whatever follows it, and "0" for an
    identifier with fewer than two underscores. *)
Theorem gridLevel_third_segment a b c rest :
  has_unit "_" a = false -> has_unit "_" b = false -> has_unit "_" c = false ->
  gridLevelOf a = "0"%string
  /\ gridLevelOf (a ++ "_" ++ b) = "0"%string
  /\ gridLevelOf (a ++ "_" ++ b ++ "_" ++ c) = c
  /\ gridLevelOf (a ++ "_" ++ b ++ "_" ++ c ++ "_" ++ rest) = c.
Proof.
  intros Ha Hb Hc. unfold gridLevelOf. cbv zeta.
  assert (Hsep : forall x, ("_" ++ x)%string = String "_" x) by reflexivity.
  rewrite !Hsep. repeat split.
  - now rewrite splitOn_last.
  - rewrite splitOn_segment by assumption. rewrite (splitOn_last "_" b Hb). reflexivity.
  - rewrite !splitOn_segment by assumption. rewrite (splitOn_last "_" c Hc). reflexivity.
  - rewrite !splitOn_segment by assumption. reflexivity.
Qed.

End PickAndBetFacts.
(** ** The configuration loader *)

Section ConfigFacts.
Import Nonce Template Text Trading Config.

#[local] Arguments String.append !s1 s2 : simpl nomatch.

Lemma trim_fixed_trimEnd s : trim s = s -> trimEnd s = s.
Proof.
  intros Hs. rewrite <- Hs at 1. unfold trim. rewrite trimEnd_idempotent. exact Hs.
Qed.

Lemma trim_fixed_clean s : trim s = s -> starts_clean s = true.
Proof.
  intros Hs. rewrite <- Hs. unfold trim. apply trimEnd_clean, trimStart_clean.
Qed.

Lemma trim_fixed s : starts_clean s = true -> trimEnd s = s -> trim s = s.
Proof. intros Hstart Hend. unfold trim. now rewrite trimStart_of_clean. Qed.

Lemma trimEnd_append a b :
  b <> ""%string -> trimEnd b = b -> trimEnd (a ++ b) = (a ++ b)%string.
Proof.
  intros Hb Hend. induction a as [| c a IH]; [exact Hend |].
  cbn [String.append]. rewrite trimEnd_cons, IH.
  destruct (a ++ b)%string eqn:E; [| reflexivity].
  destruct a; [contradiction | discriminate E].
Qed.

Lemma starts_clean_append a b :
  starts_clean a = true -> (a = ""%string -> starts_clean b = true) ->
  starts_clean (a ++ b) = true.
Proof. destruct a; cbn; auto. Qed.

Lemma indexOf_append c k rest :
  has_unit c k = false -> indexOf c (k ++ String c rest) = Some (String.length k).
Proof.
  induction k as [| d k IH]; cbn; intros Hk.
  - now rewrite Ascii.eqb_refl.
  - apply orb_false_iff in Hk. destruct Hk as [Hd Hk]. rewrite Hd, IH by exact Hk.
    reflexivity.
Qed.

Lemma substring_prefix k rest : String.substring 0 (String.length k) (k ++ rest) = k.
Proof.
  induction k as [| d k IH]; cbn.
  - destruct rest; reflexivity.
  - now rewrite IH.
Qed.

Lemma string_drop_append k c rest : string_drop (S (String.length k)) (k ++ String c rest) = rest.
Proof. induction k as [| d k IH]; cbn; [reflexivity | exact IH]. Qed.

Lemma endsWith_snoc c s : endsWith c (s ++ String c "") = true.
Proof.
  induction s as [| d s IH]; cbn; [apply Ascii.eqb_refl |].
  destruct (s ++ String c "")%string eqn:E; [destruct s; discriminate E | exact IH].
Qed.

Lemma dropLast_snoc c s : dropLast (s ++ String c "") = s.
Proof.
  induction s as [| d s IH]; cbn; [reflexivity |].
  destruct (s ++ String c "")%string eqn:E; [destruct s; discriminate E |].
  now rewrite IH.
Qed.

Lemma parseLine_binding vars b :
  clean_binding b -> parseLine vars (bindingLine b) = bind_var vars b.
Proof.
  destruct b as [[quoted k] v]. unfold clean_binding, clean_key, bindingLine, bind_var, envLine.
  cbn [fst snd]. intros ((Hnl & Heq & Hk & Hhash & Hproto) & Hv & Hplain).
  assert (Hsep : forall x, ("=" ++ x)%string = String "=" x) by reflexivity.
  rewrite !Hsep.
  set (body := if quoted then String dquote (v ++ String dquote "") else v).
  assert (Hline : (if quoted then (k ++ String "=" (String dquote (v ++ String dquote "")))%string
                   else (k ++ String "=" v)%string) = (k ++ String "=" body)%string)
    by (subst body; destruct quoted; reflexivity).
  rewrite Hline. clear Hline.
  assert (Hbody : trim body = body).
  { subst body. destruct quoted; [| now apply Hplain].
    apply trim_fixed; [reflexivity |].
    change (String dquote (v ++ String dquote ""))
      with (String dquote v ++ String dquote "")%string.
    apply trimEnd_append; [discriminate | reflexivity]. }
  assert (Htrim : trim (k ++ String "=" body) = (k ++ String "=" body)%string).
  { apply trim_fixed.
    - apply starts_clean_append; [now apply trim_fixed_clean | reflexivity].
    - apply trimEnd_append; [discriminate |].
      rewrite trimEnd_cons, (trim_fixed_trimEnd _ Hbody). now destruct body. }
  unfold parseLine. cbv zeta. rewrite Htrim.
  assert (Hne : String.eqb (k ++ String "=" body) "" = false) by now destruct k.
  assert (Hcomment : startsWith "#" (k ++ String "=" body) = false)
    by (destruct k; [reflexivity | exact Hhash]).
  rewrite Hne, Hcomment. cbn [orb].
  rewrite indexOf_append by exact Heq.
  rewrite substring_prefix, string_drop_append, Hk, Hbody.
  destruct (String.eqb_spec k "__proto__") as [E | _]; [contradiction |].
  f_equal. subst body. destruct quoted.
  - cbn [startsWith]. rewrite Ascii.eqb_refl.
    change (String dquote (v ++ String dquote ""))
      with (String dquote v ++ String dquote "")%string at 1.
    rewrite endsWith_snoc. cbn [andb orb unwrap]. apply dropLast_snoc.
  - destruct (Hplain eq_refl) as [_ Hwrapped]. unfold wrapped in Hwrapped.
    now rewrite Hwrapped.
Qed.

Lemma has_unit_line b : clean_binding b -> has_unit newline (bindingLine b) = false.
Proof.
  destruct b as [[quoted k] v]. unfold clean_binding, clean_key, bindingLine, envLine.
  cbn [fst snd]. intros ((Hnl & _) & Hv & _).
  destruct quoted.
  - change (String dquote (v ++ String dquote ""))
      with (String dquote "" ++ v ++ String dquote "")%string.
    rewrite !has_unit_append, Hnl, Hv. reflexivity.
  - rewrite !has_unit_append, Hnl, Hv. reflexivity.
Qed.

Lemma splitOn_unlines lines :
  lines <> [] -> Forall (fun l => has_unit newline l = false) lines ->
  splitOn newline (unlines lines) = lines.
Proof.
  induction lines as [| l rest IH]; [contradiction |]. intros _ Hall.
  apply List.Forall_cons_iff in Hall. destruct Hall as [Hl Hrest].
  destruct rest as [| l2 rest].
  - cbn. now apply splitOn_last.
  - change (unlines (l :: l2 :: rest))
      with (l ++ String newline (unlines (l2 :: rest)))%string.
    rewrite splitOn_segment by exact Hl. f_equal. apply IH; [discriminate | exact Hrest].
Qed.

Lemma fold_bindings bindings : forall vars,
  Forall clean_binding bindings ->
  fold_left parseLine (List.map bindingLine bindings) vars = fold_left bind_var bindings vars.
Proof.
  induction bindings as [| b rest IH]; intros vars Hall; [reflexivity |].
  apply List.Forall_cons_iff in Hall. destruct Hall as [Hb Hrest].
  cbn [List.map fold_left]. rewrite parseLine_binding by exact Hb. now apply IH.
Qed.

(** X23. Reading back an env file. A file whose lines are bindings
    [key=value] or [key="value"] parses to exactly those bindings, a later
    line overriding an earlier one with the same key: the value comes back as
    written, and inside double quotes it may hold anything but a newline. *)
Theorem parseEnvFile_round_trip w path bindings :
  files w !! path = Some (unlines (List.map bindingLine bindings)) ->
  Forall clean_binding bindings ->
  parseEnvFile w path = fold_left bind_var bindings ∅.
Proof.
  intros Hfile Hall. unfold parseEnvFile, readFileSync. rewrite Hfile.
  destruct bindings as [| b rest]; [reflexivity |].
  rewrite splitOn_unlines.
  - now apply fold_bindings.
  - discriminate.
  - apply List.Forall_forall. intros l Hl. apply List.in_map_iff in Hl.
    destruct Hl as (b' & <- & Hin). apply has_unit_line.
    now apply (proj1 (List.Forall_forall _ _) Hall).
Qed.

End ConfigFacts.

(** ** Configuration, construction and the command line *)

Section SetupFacts.
Import Nonce Strategy Picker Api Steps Trading Config Cli.
Context `{Number}.

#[local] Arguments String.append !s1 s2 : simpl nomatch.

(** The settings the loader computes from the merged variables. *)
Lemma loadConfig_merged envPath proc w :
  let merged := environ proc ∪ parseEnvFile w (or_text envPath (in_cwd proc ".env")) in
  loadConfig envPath proc w
  = {| apiKey := or_maybe (merged !! "PREDICTME_API_KEY"%string)
                          (merged !! "PREDICTME_AGENT_API_KEY"%string);
       apiUrl := or_text (or_maybe (merged !! "PREDICTME_API_URL"%string)
                                   (merged !! "PREDICTME_AGENT_API_URL"%string))
                         DEFAULT_API_URL;
       noncePath := or_text (merged !! "PREDICTME_NONCE_PATH"%string)
                            (in_cwd proc ".predictme-nonce") |}.
Proof. reflexivity. Qed.

Lemma or_text_nonempty a d : d <> ""%string -> or_text a d <> ""%string.
Proof.
  intros Hd. unfold or_text. destruct a as [s |]; [| exact Hd].
  destruct (String.eqb_spec s ""); assumption.
Qed.

(** X24. Of the env file the loader reads five names and nothing else, and a
    name only when the process environment does not define it: a variable of
    the environment hides the file's, even when it is empty. Two disks whose
    env files agree on the names the environment leaves undefined give the
    same settings. *)
Theorem loadConfig_reads envPath proc w1 w2 :
  let path := or_text envPath (in_cwd proc ".env") in
  (forall name,
     In name ["PREDICTME_API_KEY"; "PREDICTME_AGENT_API_KEY"; "PREDICTME_API_URL";
              "PREDICTME_AGENT_API_URL"; "PREDICTME_NONCE_PATH"]%string ->
     environ proc !! name = None ->
     parseEnvFile w1 path !! name = parseEnvFile w2 path !! name) ->
  loadConfig envPath proc w1 = loadConfig envPath proc w2.
Proof.
  cbv zeta. intros Hsame. rewrite !loadConfig_merged. cbv zeta.
  assert (Hmerged : forall name,
             In name ["PREDICTME_API_KEY"; "PREDICTME_AGENT_API_KEY"; "PREDICTME_API_URL";
                      "PREDICTME_AGENT_API_URL"; "PREDICTME_NONCE_PATH"]%string ->
             (environ proc ∪ parseEnvFile w1 (or_text envPath (in_cwd proc ".env"))) !! name
             = (environ proc ∪ parseEnvFile w2 (or_text envPath (in_cwd proc ".env"))) !! name).
  { intros name Hname. rewrite !lookup_union.
    destruct (environ proc !! name) as [v |] eqn:E.
    - now rewrite !union_Some_l.
    - now rewrite !(left_id None _), (Hsame name Hname E). }
  rewrite !Hmerged by (cbn; auto 10). reflexivity.
Qed.

(** X25. The agent a constructor call makes. Its URL is never empty, and its
    store starts unloaded; an option that is given and not empty wins over the
    environment and the file; without options, environment variables and an
    env file the agent has no key, the default URL, and the store file
    [.predictme-nonce] in the working directory. *)
Theorem newAgent_contract options proc w :
  let a := newAgent options proc w in
  Api.apiUrl a <> ""%string
  /\ _value (store a) = None
  /\ (forall k, o_apiKey options = Some k -> k <> ""%string -> Api.apiKey a = k)
  /\ (forall u, o_apiUrl options = Some u -> u <> ""%string -> Api.apiUrl a = u)
  /\ (forall p, o_noncePath options = Some p -> p <> ""%string -> filePath (store a) = p)
  /\ (options = {| o_apiKey := None; o_apiUrl := None; o_noncePath := None |} ->
      environ proc = ∅ -> files w !! in_cwd proc ".env" = None ->
      a = {| Api.apiKey := ""; Api.apiUrl := DEFAULT_API_URL;
             store := create (in_cwd proc ".predictme-nonce") |}).
Proof.
  cbv zeta. unfold newAgent. cbv zeta. cbn [Api.apiUrl Api.apiKey store].
  split; [| split; [reflexivity | split; [| split; [| split]]]].
  - apply or_text_nonempty. rewrite loadConfig_merged. cbv zeta. cbn [apiUrl].
    apply or_text_nonempty. discriminate.
  - intros k -> Hk. cbn. now destruct (String.eqb_spec k "").
  - intros u -> Hu. cbn. now destruct (String.eqb_spec u "").
  - intros p -> Hp. cbn. now destruct (String.eqb_spec p "").
  - intros -> Henv Hfile. unfold loadConfig, parseEnvFile, readFileSync.
    cbn [or_text]. rewrite Hfile, Henv. cbv zeta.
    rewrite (left_id ∅ _). cbn [o_apiKey o_apiUrl o_noncePath or_maybe or_text].
    rewrite !lookup_empty. reflexivity.
Qed.

Lemma placeBet_appends p st :
  exists added,
    sent (env (snd (placeBet p st))) = (sent (env st) ++ added)%list
    /\ (List.length added <= 2)%nat.
Proof.
  rewrite placeBet_run.
  assert (Hnothing : exists added : list Request,
             sent (env st) = (sent (env st) ++ added)%list /\ (List.length added <= 2)%nat).
  { exists []. rewrite app_nil_r. split; [reflexivity | cbn; lia]. }
  destruct (negb _); cbn [snd]; [exact Hnothing |].
  destruct (String.eqb _ "REAL"); cbn [snd]; [exact Hnothing |].
  cbv zeta. destruct (String.eqb (Api.apiKey (agent st)) ""); cbn [snd]; [exact Hnothing |].
  destruct (server (env st) _) as [json | err]; cbn [snd].
  { eexists [_]. split; [reflexivity | cbn; lia]. }
  destruct (expected_of err) as [expected |]; cbn [snd].
  - eexists [_; _]. split; [cbn; rewrite <- app_assoc; reflexivity | cbn; lia].
  - eexists [_]. split; [reflexivity | cbn; lia].
Qed.

Lemma placeBet_keyless p st :
  Api.apiKey (agent st) = ""%string ->
  (exists e, fst (placeBet p st) = Thrown e)
  /\ sent (env (snd (placeBet p st))) = sent (env st).
Proof.
  intros Hkey. rewrite placeBet_run.
  destruct (negb _); [split; [eexists |]; reflexivity |].
  destruct (String.eqb _ "REAL"); [split; [eexists |]; reflexivity |].
  cbv zeta. rewrite Hkey. split; [eexists |]; reflexivity.
Qed.

Lemma pickAndBet_keyless feed p st :
  Api.apiKey (agent st) = ""%string ->
  pickAndBet feed p st
  = (Done (Thrown (newError "API key required. Set PREDICTME_API_KEY in .env")), st).
Proof.
  intros Hkey. unfold pickAndBet, getOdds, bind, _auth. cbv zeta. now rewrite Hkey.
Qed.

Lemma pickAndBet_appends feed p st :
  exists added,
    sent (env (snd (pickAndBet feed p st))) = (sent (env st) ++ added)%list
    /\ (List.length added <= 2)%nat.
Proof.
  assert (Hnothing : exists added : list Request,
             sent (env st) = (sent (env st) ++ added)%list /\ (List.length added <= 2)%nat).
  { exists []. rewrite app_nil_r. split; [reflexivity | cbn; lia]. }
  destruct (String.eqb_spec (Api.apiKey (agent st)) "") as [Hkey | Hkey].
  { now rewrite pickAndBet_keyless. }
  unfold pickAndBet. cbv zeta. rewrite getOdds_with_key by exact Hkey.
  destruct (feed _) as [r | err]; [| exact Hnothing].
  destruct (match data r with Some d => grids d | None => [] end); [exact Hnothing |].
  destruct (pickGrid _ _ _) as [[chosen |] | msg |]; try exact Hnothing.
  pose proof (placeBet_appends
                (betFor p match data r with Some d => currentPrice d | None => ""%string end
                   chosen) st) as Hbet.
  now destruct (placeBet _ st).
Qed.

Lemma pickGrid_unknown grids price name :
  ~ In name ["balanced"; "underdog"; "favorite"; "value"]%string ->
  ~ In name inherited ->
  exists msg, pickGrid grids price (Some (Named name)) = PickThrows msg.
Proof.
  intros Hfour Hinherited. destruct grids as [| g0 rest]; [eexists; reflexivity |].
  unfold pickGrid. cbn [default from_option id].
  assert (Hfind : List.find (fun kv => String.eqb (fst kv) name) strategies = None).
  { unfold strategies. cbn [List.find fst].
    repeat match goal with
           | |- context [String.eqb ?a name] =>
               destruct (String.eqb_spec a name) as [E | E];
                 [exfalso; apply Hfour; rewrite <- E; cbn; auto 10 | clear E]
           end.
    reflexivity. }
  rewrite Hfind.
  destruct (existsb (String.eqb name) inherited) eqn:Ex; [| eexists; reflexivity].
  exfalso. apply Hinherited. apply existsb_exists in Ex.
  destruct Ex as (x & Hx & Heq). apply String.eqb_eq in Heq. now subst.
Qed.

Lemma pickAndBet_unknown feed p st name :
  a_strategy p = Some (Named name) ->
  ~ In name ["balanced"; "underdog"; "favorite"; "value"]%string ->
  ~ In name inherited ->
  exists e, pickAndBet feed p st = (Done (Thrown e), st).
Proof.
  intros Hstrategy Hfour Hinherited. unfold pickAndBet. cbv zeta.
  unfold getOdds, bind, _auth.
  destruct (String.eqb (Api.apiKey (agent st)) ""); [eexists; reflexivity |].
  destruct (feed _) as [r | err]; [| eexists; reflexivity].
  destruct (match data r with Some d => grids d | None => [] end) as [| g0 rest] eqn:Eg;
    [eexists; reflexivity |].
  rewrite Hstrategy.
  destruct (pickGrid_unknown (g0 :: rest)
              match data r with Some d => currentPrice d | None => ""%string end
              name Hfour Hinherited) as [msg ->].
  eexists; reflexivity.
Qed.

Lemma runRounds_appends feeds args : forall n i st st',
  runRounds feeds args n i st = Some st' ->
  exists added,
    sent (env st') = (sent (env st) ++ added)%list
    /\ (List.length added <= 2 * n)%nat.
Proof.
  induction n as [| n IH]; intros i st st' Hrun.
  - injection Hrun as <-. exists []. rewrite app_nil_r. split; [reflexivity | cbn; lia].
  - cbn [runRounds] in Hrun.
    destruct (pickAndBet_appends (feeds i) (roundParams args i) st) as (first & Hfirst & Hlen).
    destruct (pickAndBet (feeds i) (roundParams args i) st) as [[o |] st1];
      [| discriminate Hrun].
    cbn [snd] in Hfirst. destruct (IH _ _ _ Hrun) as (more & Hmore & Hlen').
    exists (first ++ more)%list. rewrite Hmore, Hfirst, <- app_assoc.
    split; [reflexivity |]. rewrite List.length_app. lia.
Qed.

(** X26. An agent made without a key anywhere (no option, neither variable
    in the environment or the file, or only empty ones) never sends a bet:
    [placeBet] throws and leaves the record of requests as it was, and
    [pickAndBet] throws "API key required" and leaves the whole state as it
    was. *)
Theorem agent_without_key_sends_nothing options proc w :
  or_maybe (o_apiKey options) None = None ->
  (forall name, In name ["PREDICTME_API_KEY"; "PREDICTME_AGENT_API_KEY"]%string ->
     or_maybe ((environ proc ∪ parseEnvFile w (in_cwd proc ".env")) !! name) None = None) ->
  forall surroundings p feed q,
    let st := {| agent := newAgent options proc w; env := surroundings |} in
    (exists e, fst (placeBet p st) = Thrown e)
    /\ sent (env (snd (placeBet p st))) = sent surroundings
    /\ pickAndBet feed q st
       = (Done (Thrown (newError "API key required. Set PREDICTME_API_KEY in .env")), st).
Proof.
  intros Hoption Hvars surroundings p feed q. cbv zeta.
  assert (Hkey : Api.apiKey (newAgent options proc w) = ""%string).
  { unfold newAgent. cbv zeta. cbn [Api.apiKey]. rewrite loadConfig_merged. cbv zeta.
    cbn [apiKey or_text].
    pose proof (Hvars "PREDICTME_API_KEY"%string ltac:(cbn; auto)) as H1.
    pose proof (Hvars "PREDICTME_AGENT_API_KEY"%string ltac:(cbn; auto)) as H2.
    unfold or_maybe in *.
    destruct (o_apiKey options) as [k |];
      [destruct (String.eqb k ""); [| discriminate Hoption] |];
      (destruct (_ !! "PREDICTME_API_KEY"%string) as [k1 |];
       [destruct (String.eqb k1 ""); [| discriminate H1] |];
       (destruct (_ !! "PREDICTME_AGENT_API_KEY"%string) as [k2 |];
        [destruct (String.eqb_spec k2 ""); [subst; reflexivity | discriminate H2]
        | reflexivity])). }
  destruct (placeBet_keyless p {| agent := newAgent options proc w; env := surroundings |} Hkey)
    as [Hthrown Hsent].
  split; [exact Hthrown | split; [exact Hsent |]].
  now apply pickAndBet_keyless.
Qed.

Lemma roundsOf_bound r : roundsOf r <= 50.
Proof. unfold roundsOf. lia. Qed.

(** A name that is not inherited is looked up in the registry or refused. *)
Lemma pickGrid_modelled grids price name :
  ~ In name inherited -> pickGrid grids price (Some (Named name)) <> PickInherited.
Proof.
  intros Hname. destruct grids as [| g0 rest]; [discriminate |].
  unfold pickGrid. cbn [default from_option id].
  destruct (List.find _ strategies) as [[key fn] |]; [discriminate |].
  destruct (existsb (String.eqb name) inherited) eqn:Ex; [| discriminate].
  exfalso. apply Hname. apply existsb_exists in Ex.
  destruct Ex as (x & Hx & Heq). apply String.eqb_eq in Heq. now subst.
Qed.

Lemma pickAndBet_modelled feed p st name :
  a_strategy p = Some (Named name) -> ~ In name inherited ->
  exists o, fst (pickAndBet feed p st) = Done o.
Proof.
  intros Hstrategy Hname. unfold pickAndBet. cbv zeta.
  destruct (getOdds feed _ st) as [[oddsRes | err] st1]; [| eexists; reflexivity].
  destruct (match data oddsRes with Some d => grids d | None => [] end) as [| g0 rest];
    [eexists; reflexivity |].
  rewrite Hstrategy.
  pose proof (pickGrid_modelled (g0 :: rest)
                match data oddsRes with Some d => currentPrice d | None => ""%string end
                name Hname) as Hpick.
  destruct (pickGrid _ _ _) as [[chosen |] | msg |];
    [| eexists; reflexivity | eexists; reflexivity | contradiction].
  destruct (placeBet _ st1); eexists; reflexivity.
Qed.

Lemma runRounds_modelled feeds args :
  ~ In (arg_or (nth_error args 2) "balanced") inherited ->
  forall n i st, exists st', runRounds feeds args n i st = Some st'.
Proof.
  intros Hname. induction n as [| n IH]; intros i st; [eexists; reflexivity |].
  cbn [runRounds].
  destruct (pickAndBet_modelled (feeds i) (roundParams args i) st _ eq_refl Hname)
    as [o Ho].
  destruct (pickAndBet (feeds i) (roundParams args i) st) as [[o' |] st1];
    [apply IH | discriminate Ho].
Qed.

(** X27. The command [run] bets a bounded number of times, for every strategy
    argument that is not a name inherited from [Object.prototype]. The number
    of rounds is at most 50: it is 5 when the fourth argument is missing, empty,
    not a number or zero, and otherwise the number it starts with, capped at
    50; a template that does not validate stops the command with the message
    of [validate] before anything is done; otherwise the loop runs to its end
    and only adds to the record of requests, at most two a round and so at
    most 100, and none when the number of rounds is negative. *)
Theorem run_is_bounded feeds args st :
  ~ In (arg_or (nth_error args 2) "balanced") inherited ->
  let rounds := roundsOf (nth_error args 3) in
  let template := String.concat " " (skipn 4 args) in
  rounds <= 50
  /\ ((nth_error args 3 = None
       \/ exists r, nth_error args 3 = Some r
                    /\ (r = ""%string \/ parseInt r = None \/ parseInt r = Some 0)) ->
      rounds = 5)
  /\ (forall r n, nth_error args 3 = Some r -> parseInt r = Some n -> n <> 0 ->
        rounds = Z.min n 50)
  /\ match runCommand feeds args st with
     | Stopped msg st' =>
         st' = st /\ Commentary.error (Commentary.validate template) = Some msg
     | Finished None => False
     | Finished (Some st') =>
         Commentary.valid (Commentary.validate template) = true
         /\ exists added,
              sent (env st') = (sent (env st) ++ added)%list
              /\ Z.of_nat (List.length added) <= 2 * Z.max 0 rounds
              /\ (List.length added <= 100)%nat
     end.
Proof.
  intros Hname. cbv zeta. split; [apply roundsOf_bound | split; [| split]].
  - unfold roundsOf, arg_or.
    intros [-> | (r & -> & [-> | [Hr | Hr]])]; try reflexivity;
      destruct (String.eqb r ""); try reflexivity; now rewrite Hr.
  - intros r n -> Hr Hn. unfold roundsOf, arg_or.
    destruct (String.eqb_spec r "") as [-> | _]; [discriminate Hr |].
    rewrite Hr. cbn [num_or]. now destruct (Z.eqb_spec n 0).
  - unfold runCommand. cbv zeta.
    destruct (Commentary.valid _) eqn:Hvalid; cbn [negb].
    + destruct (runRounds_modelled feeds args Hname
                  (Z.to_nat (roundsOf (nth_error args 3))) 0%nat st) as [st' Hrun].
      rewrite Hrun. split; [reflexivity |].
      destruct (runRounds_appends _ _ _ _ _ _ Hrun) as (added & Hsent & Hlen).
      exists added. split; [exact Hsent |].
      pose proof (roundsOf_bound (nth_error args 3)). lia.
    + split; [reflexivity |]. unfold Commentary.validate in *.
      destruct (_ || _); [reflexivity |].
      destruct (Nat.ltb _ _); [reflexivity | discriminate].
Qed.

(** X28. The third argument of [bet] and [run] is always taken for the
    strategy. When it is given and is neither one of the four names nor an
    inherited one (the first word of a commentary, say), neither command
    places a bet: [bet] throws, every round of [run] fails, and the agent and
    its environment stay as they were. *)
Theorem third_argument_is_the_strategy feed feeds args st name :
  nth_error args 2 = Some name -> name <> ""%string ->
  ~ In name ["balanced"; "underdog"; "favorite"; "value"]%string ->
  ~ In name inherited ->
  (exists e, betCommand feed args st = (Done (Thrown e), st))
  /\ (forall n i, runRounds feeds args n i st = Some st)
  /\ match runCommand feeds args st with
     | Stopped _ st' => st' = st
     | Finished r => r = Some st
     end.
Proof.
  intros Harg Hname Hfour Hinherited.
  assert (Hstrategy : forall d, arg_or (nth_error args 2) d = name).
  { intros d. rewrite Harg. unfold arg_or. now destruct (String.eqb_spec name ""). }
  assert (Hrounds : forall n i, runRounds feeds args n i st = Some st).
  { induction n as [| n IH]; intros i; [reflexivity |]. cbn [runRounds].
    destruct (pickAndBet_unknown (feeds i) (roundParams args i) st name) as [e ->];
      [cbn [roundParams a_strategy]; now rewrite Hstrategy | exact Hfour | exact Hinherited |].
    apply IH. }
  split; [| split; [exact Hrounds |]].
  - unfold betCommand. cbv zeta.
    destruct (String.eqb _ ""); [eexists; reflexivity |].
    apply (pickAndBet_unknown _ _ _ name); [| exact Hfour | exact Hinherited].
    cbn [a_strategy]. now rewrite Hstrategy.
  - unfold runCommand. cbv zeta. destruct (negb _); [reflexivity | apply Hrounds].
Qed.

End SetupFacts.

(** ** Grids whose fields are not numbers *)

Section UnparsableFacts.
Import Strategy Picker.
Context `{Number}.

(** A reduction by smaller or larger key keeps a first grid whose key is not
    a number, and moves to no grid whose key is not a number. *)
Lemma fold_nan_first (key : Grid -> num) (beats : Grid -> Grid -> bool) :
  (forall g best, beats g best = true ->
     isNaN (key g) = false /\ isNaN (key best) = false) ->
  forall rest g0,
    (isNaN (key g0) = true -> fold_left (keep_unless beats) rest g0 = g0)
    /\ (isNaN (key (fold_left (keep_unless beats) rest g0)) = true ->
        fold_left (keep_unless beats) rest g0 = g0).
Proof.
  intros Hbeats rest g0.
  assert (Hinv : forall best,
             (best = g0 \/ isNaN (key best) = false) ->
             (isNaN (key g0) = true -> fold_left (keep_unless beats) rest best = best
                                        \/ best <> g0)
             /\ (fold_left (keep_unless beats) rest best = g0
                 \/ isNaN (key (fold_left (keep_unless beats) rest best)) = false)).
  { induction rest as [| g rest IH]; intros best Hbest.
    - cbn [fold_left]. split; [auto | exact Hbest].
    - cbn [fold_left]. unfold keep_unless at 2 4 6. destruct (beats g best) eqn:Hg.
      + destruct (Hbeats _ _ Hg) as [Hgnum Hbestnum].
        destruct (IH g (or_intror Hgnum)) as [_ Hafter].
        split; [| exact Hafter].
        intros Hnan. right. intros ->. congruence.
      + destruct (IH best Hbest) as [Hkeep Hafter]. split; [| exact Hafter].
        exact Hkeep. }
  destruct (Hinv g0 (or_introl eq_refl)) as [Hkeep Hafter]. split.
  - intros Hnan. destruct (Hkeep Hnan) as [E | E]; [exact E | contradiction].
  - intros Hnan. destruct Hafter as [E | E]; [exact E | congruence].
Qed.

Lemma smaller_numbers (key : Grid -> num) g best :
  smaller key g best = true -> isNaN (key g) = false /\ isNaN (key best) = false.
Proof.
  unfold smaller. intros Hlt. split.
  - destruct (isNaN (key g)) eqn:E; [| reflexivity]. now rewrite lt_nan_l in Hlt.
  - destruct (isNaN (key best)) eqn:E; [| reflexivity]. now rewrite lt_nan_r in Hlt.
Qed.

Lemma larger_numbers (key : Grid -> num) g best :
  larger key g best = true -> isNaN (key g) = false /\ isNaN (key best) = false.
Proof.
  unfold larger, gt. intros Hlt. split.
  - destruct (isNaN (key g)) eqn:E; [| reflexivity]. now rewrite lt_nan_r in Hlt.
  - destruct (isNaN (key best)) eqn:E; [| reflexivity]. now rewrite lt_nan_l in Hlt.
Qed.

(** X29. Fields that are not numbers. For each strategy, when the key of the
    first grid is not a number (an [impliedProbability] that does not parse,
    say) the first grid is returned whatever the other grids are; and the
    grid returned has a key that is not a number only when it is the first. *)
Theorem unparsable_first_grid_wins g0 rest currentPrice :
  let grids := g0 :: rest in
  let stays (key : Grid -> num) (r : option Grid) :=
    (isNaN (key g0) = true -> r = Some g0)
    /\ (forall b, r = Some b -> isNaN (key b) = true -> b = g0) in
  stays balancedKey (balanced grids currentPrice)
  /\ stays underdogKey (underdog grids currentPrice)
  /\ stays (favoriteKey currentPrice) (favorite grids currentPrice)
  /\ stays valueKey (value grids currentPrice).
Proof.
  cbv zeta.
  assert (Hshape : forall key beats,
             (forall g best, beats g best = true ->
                isNaN (key g) = false /\ isNaN (key best) = false) ->
             beats g0 g0 = false ->
             (isNaN (key g0) = true ->
              reduce_from_first (keep_unless beats) (g0 :: rest) = Some g0)
             /\ (forall b, reduce_from_first (keep_unless beats) (g0 :: rest) = Some b ->
                   isNaN (key b) = true -> b = g0)).
  { intros key beats Hbeats Hirrefl. cbn [reduce_from_first fold_left].
    unfold keep_unless at 2 4. rewrite Hirrefl.
    destruct (fold_nan_first key beats Hbeats rest g0) as [Hkeep Hback]. split.
    - intros Hnan. now rewrite Hkeep.
    - intros b Hb Hnan. injection Hb as <-. now apply Hback. }
  repeat split.
  - apply (Hshape balancedKey (smaller balancedKey) (smaller_numbers _) (smaller_irrefl _ _)).
  - apply (Hshape balancedKey (smaller balancedKey) (smaller_numbers _) (smaller_irrefl _ _)).
  - apply (Hshape underdogKey (larger underdogKey) (larger_numbers _) (larger_irrefl _ _)).
  - apply (Hshape underdogKey (larger underdogKey) (larger_numbers _) (larger_irrefl _ _)).
  - apply (Hshape (favoriteKey currentPrice) (smaller (favoriteKey currentPrice))
             (smaller_numbers _) (smaller_irrefl _ _)).
  - apply (Hshape (favoriteKey currentPrice) (smaller (favoriteKey currentPrice))
             (smaller_numbers _) (smaller_irrefl _ _)).
  - apply (Hshape valueKey (larger valueKey) (larger_numbers _) (larger_irrefl _ _)).
  - apply (Hshape valueKey (larger valueKey) (larger_numbers _) (larger_irrefl _ _)).
Qed.

End UnparsableFacts.

(** ** The commentary that goes out *)

Section OutgoingFacts.
Import Strategy Picker Api Steps Trading.
Context `{Number}.



End OutgoingFacts.

(** ** The further theorems at concrete inputs *)

Section MoreExamples.

Lemma loaded_store_ignores_environment_witness :
  let m := Nonce.create ".predictme-nonce" in
  let w := exampleWorld (Some "42"%string) in
  fst (fst (Nonce.next (snd (Nonce.load m w)) (exampleWorld None))) = 42 + 1.
Proof.
  cbv zeta.
  apply (proj2 (proj2 (proj2 (loaded_store_ignores_environment
           (Nonce.create ".predictme-nonce") (exampleWorld (Some "42"%string))
           (exampleWorld None) (exampleWorld None))))).
  vm_compute. reflexivity.
Defined.

Lemma next_run_consecutive_witness :
  fst (Nonce.next_run (Nonce.create ".predictme-nonce")
         [exampleWorld (Some "42"%string); exampleWorld None; exampleWorld None])
  = [43; 44; 45].
Proof.
  rewrite (next_run_consecutive [exampleWorld None; exampleWorld None]
             (Nonce.create ".predictme-nonce") (exampleWorld (Some "42"%string))).
  - vm_compute. reflexivity.
  - vm_compute. discriminate.
  - vm_compute. discriminate.
Defined.

Lemma restart_continues_witness :
  let m := Nonce.create ".predictme-nonce" in
  let w := exampleWorld (Some "42"%string) in
  fst (Nonce.load m (snd (Nonce.next m w))) = fst (fst (Nonce.next m w))
  /\ (fst (fst (Nonce.next m w)) < 2 ^ 53 ->
      fst (fst (Nonce.next m (snd (Nonce.next m w)))) = fst (fst (Nonce.next m w)) + 1).
Proof.
  cbv zeta.
  exact (restart_continues (Nonce.create ".predictme-nonce") (exampleWorld (Some "42"%string))
           eq_refl ltac:(vm_compute; discriminate) ltac:(vm_compute; discriminate)
           (snd (Nonce.next (Nonce.create ".predictme-nonce") (exampleWorld (Some "42"%string))))
           eq_refl).
Defined.

Lemma store_writes_own_file_witness :
  let m := Nonce.create ".predictme-nonce" in
  let w := exampleWorld (Some "42"%string) in
  Nonce.files (snd (Nonce.next m w)) !! ".env"%string = Nonce.files w !! ".env"%string
  /\ Nonce.files (snd (Nonce.set 7 m w)) !! ".env"%string = Nonce.files w !! ".env"%string.
Proof.
  cbv zeta.
  apply (proj1 (store_writes_own_file (Nonce.create ".predictme-nonce")
                  (exampleWorld (Some "42"%string)) 7)).
  vm_compute. discriminate.
Defined.

Lemma set_overrides_witness :
  let m := Nonce.create ".predictme-nonce" in
  let w := exampleWorld None in
  Nonce.files (snd (Nonce.set 50 m w)) !! ".predictme-nonce"%string = Some "50"%string
  /\ (50 <> 0 -> fst (Nonce.load m (snd (Nonce.set 50 m w))) = 50).
Proof.
  cbv zeta.
  exact (proj2 (proj2 (set_overrides 50 (Nonce.create ".predictme-nonce") (exampleWorld None)
                         ltac:(vm_compute; discriminate)))
           eq_refl).
Defined.

Lemma placeBet_rejects_invalid_witness :
  exists msg,
    Commentary.error (Commentary.validate "bullish") = Some msg
    /\ Api.placeBet
         {| Api.p_gridId := "BTC_1_3"; Api.p_amount := "1.00"; Api.p_balanceType := None;
            Api.p_commentary := "bullish"; Api.p_strategy := None |} exampleState
       = (Api.Thrown (Api.newError msg), exampleState).
Proof.
  apply (placeBet_rejects_invalid
           {| Api.p_gridId := "BTC_1_3"; Api.p_amount := "1.00"; Api.p_balanceType := None;
              Api.p_commentary := "bullish"; Api.p_strategy := None |} exampleState).
  vm_compute. reflexivity.
Defined.

Lemma placeBet_accepted_witness :
  let st := acceptingState "pm_agent_key" in
  let st' := snd (Api.placeBet (exampleBet None) st) in
  List.map (fun r => Api.nonce (Api.payload r)) (Api.sent (Api.env st')) = [43]
  /\ Nonce._value (Api.store (Api.agent st')) = Some 43.
Proof.
  cbv zeta.
  pose proof (placeBet_accepted (exampleBet None) (acceptingState "pm_agent_key")
                {| Api.orderId := "order-1"; Api.odds := "1.9";
                   Api.newBalance := "99.00"; Api.qualityScore := Some 70 |}
                ltac:(vm_compute; reflexivity)
                ltac:(vm_compute; discriminate)
                ltac:(vm_compute; discriminate)
                ltac:(vm_compute; reflexivity)
                eq_refl) as Hrun.
  cbv zeta in Hrun. destruct Hrun as (_ & Hsent & Hvalue & Htoken & _).
  rewrite Hsent, Hvalue, Htoken. vm_compute. split; reflexivity.
Defined.

Lemma placeBet_without_key_witness :
  let st := acceptingState "" in
  let st' := snd (Api.placeBet (exampleBet None) st) in
  fst (Api.placeBet (exampleBet None) st)
  = Api.Thrown (Api.newError "API key required. Set PREDICTME_API_KEY in .env")
  /\ Api.sent (Api.env st') = []
  /\ Nonce._value (Api.store (Api.agent st')) = Some 43.
Proof.
  cbv zeta.
  pose proof (placeBet_without_key (exampleBet None) (acceptingState "")
                ltac:(vm_compute; reflexivity)
                ltac:(vm_compute; discriminate)
                eq_refl
                ltac:(vm_compute; reflexivity)) as Hrun.
  cbv zeta in Hrun. destruct Hrun as (Hout & Hsent & Hvalue & _).
  rewrite Hout, Hsent, Hvalue. vm_compute. repeat split; reflexivity.
Defined.

Lemma next_bet_follows_last_token_witness :
  let st' := snd (Api.placeBet (exampleBet None) exampleState) in
  Api.nonce (Api.first_body (exampleBet (Some "BONUS"%string)) st') = 43 + 1.
Proof.
  cbv zeta.
  apply (next_bet_follows_last_token (exampleBet None)
           (exampleBet (Some "BONUS"%string)) exampleState
           [Api.bet_request exampleState (Api.first_body (exampleBet None) exampleState)]
           (Api.bet_request exampleState
              (Api.with_nonce (Api.first_body (exampleBet None) exampleState) 43))).
  - vm_compute. reflexivity.
  - vm_compute. reflexivity.
Defined.

Lemma surrounding_space_is_ignored_witness :
  Commentary.qualityScore (trim "  BTC holds support  ")
  = Commentary.qualityScore "  BTC holds support  ".
Proof.
  apply (proj2 (surrounding_space_is_ignored "  BTC holds support  ")).
  vm_compute. discriminate.
Defined.

Lemma qualityScore_ignores_case_witness :
  Commentary.qualityScore "BTC Testing Support" = Commentary.qualityScore "btc testing SUPPORT".
Proof.
  apply (qualityScore_ignores_case "BTC Testing Support" "btc testing SUPPORT").
  - vm_compute. reflexivity.
  - vm_compute. reflexivity.
Defined.

Lemma badge_needs_length_witness :
  (60 <= String.length
           (trim "BTC testing $95k support with RSI at 28, expecting bounce to $97k after the retest of the breakout level"))%nat.
Proof.
  apply (proj1 (proj2 (badge_needs_length
           "BTC testing $95k support with RSI at 28, expecting bounce to $97k after the retest of the breakout level"))).
  vm_compute. discriminate.
Defined.

Lemma plain_text_renders_as_itself_witness :
  Commentary.renderTemplate "BTC holds support at $95k} again"
    ({[ "price"%string := Str "95000" ]} : gmap string value)
  = String.substring 0 500 "BTC holds support at $95k} again".
Proof.
  apply (plain_text_renders_as_itself "BTC holds support at $95k} again").
  vm_compute. reflexivity.
Defined.

Lemma favorite_closest_witness :
  exists b,
    Strategy.favorite ladder "94400" = Some b
    /\ In b ladder
    /\ (forall g, In g ladder ->
          Strategy.le (Picker.favoriteKey "94400" b) (Picker.favoriteKey "94400" g) = true)
    /\ exists earlier later,
         ladder = (earlier ++ b :: later)%list
         /\ forall g, In g earlier ->
              Strategy.lt (Picker.favoriteKey "94400" b) (Picker.favoriteKey "94400" g) = true.
Proof.
  apply (favorite_closest ladder "94400").
  - discriminate.
  - repeat constructor.
Defined.

Lemma pickGrid_contract_witness :
  (exists g, Picker.pickGrid ladder "94400" (Some (Picker.Named "underdog"))
             = Picker.Picked (Some g) /\ In g ladder)
  /\ Picker.pickGrid ladder "94400" (Some (Picker.Named "martingale"))
     = Picker.PickThrows
         "Unknown strategy: martingale. Available: balanced, underdog, favorite, value".
Proof.
  destruct (proj2 (pickGrid_contract ladder "94400") ltac:(discriminate))
    as (Hnamed & _ & _ & Hunknown).
  split.
  - apply Hnamed. cbn. auto.
  - apply Hunknown.
    + cbn. intros [E | [E | [E | [E | []]]]]; discriminate E.
    + cbn. intros E. repeat destruct E as [E | E]; try discriminate E. exact E.
Defined.

Lemma pickAndBet_stops_before_betting_witness :
  Trading.pickAndBet ladderFeed (exampleTrade None None) (acceptingState "")
  = (Trading.Done (Api.Thrown
       (Api.newError "API key required. Set PREDICTME_API_KEY in .env")), acceptingState "")
  /\ Trading.pickAndBet ladderFeed (exampleTrade (Some (Picker.Named "martingale")) None)
       (acceptingState "pm_agent_key")
     = (Trading.Done (Api.Thrown (Api.newError
          "Unknown strategy: martingale. Available: balanced, underdog, favorite, value")),
        acceptingState "pm_agent_key").
Proof.
  split.
  - apply (proj1 (pickAndBet_stops_before_betting ladderFeed (exampleTrade None None)
                    (acceptingState ""))).
    reflexivity.
  - destruct (proj2 (pickAndBet_stops_before_betting ladderFeed
                       (exampleTrade (Some (Picker.Named "martingale")) None)
                       (acceptingState "pm_agent_key")) ltac:(discriminate))
      as (_ & _ & Hunknown).
    apply (Hunknown _ {| Trading.currentPrice := "94400"; Trading.grids := ladder |}
             "martingale"%string eq_refl eq_refl ltac:(discriminate) eq_refl).
    + cbn. intros [E | [E | [E | [E | []]]]]; discriminate E.
    + cbn. intros E. repeat destruct E as [E | E]; try discriminate E. exact E.
Defined.

Lemma pickAndBet_bets_on_listed_grid_witness :
  exists chosen o added,
    In chosen ladder
    /\ fst (Trading.pickAndBet ladderFeed
              (exampleTrade (Some (Picker.Named "favorite")) None)
              (acceptingState "pm_agent_key")) = Trading.Done o
    /\ Api.sent (Api.env (snd (Trading.pickAndBet ladderFeed
                                 (exampleTrade (Some (Picker.Named "favorite")) None)
                                 (acceptingState "pm_agent_key")))) = added
    /\ Forall (fun r =>
          Api.gridId (Api.payload r) = Strategy.gridIdStr chosen
          /\ Api.strategy (Api.payload r) = Some "favorite"%string) added.
Proof.
  destruct (pickAndBet_bets_on_listed_grid ladderFeed
              (exampleTrade (Some (Picker.Named "favorite")) None)
              (acceptingState "pm_agent_key")
              {| Trading.currentPrice := "94400"; Trading.grids := ladder |}
              ltac:(discriminate) eq_refl ltac:(discriminate)
              ltac:(right; exists "favorite"%string; split; [reflexivity | cbn; auto]))
    as (chosen & o & added & Hin & Hrun & Hsent & Hall).
  exists chosen, o, added. split; [exact Hin |]. split; [now rewrite Hrun |].
  split; [exact Hsent |].
  eapply List.Forall_impl; [| exact Hall].
  intros r (Hid & _ & _ & _ & Htag). split; [| exact Htag].
  rewrite Hid. unfold Trading.str_or.
  destruct (String.eqb_spec (Strategy.gridIdStr chosen) "") as [E | E]; [| reflexivity].
  destruct Hin as [<- | [<- | [<- | []]]]; discriminate E.
Defined.

Lemma pickAndBet_custom_strategy_witness :
  let last_grid (grids : list Strategy.Grid) (_ : string) :=
    List.last grids (ladderGrid "none" "0" "0" "0" "0") in
  exists o added,
    fst (Trading.pickAndBet ladderFeed (exampleTrade (Some (Picker.Custom last_grid)) None)
           (acceptingState "pm_agent_key")) = Trading.Done o
    /\ Api.sent (Api.env (snd (Trading.pickAndBet ladderFeed
                                 (exampleTrade (Some (Picker.Custom last_grid)) None)
                                 (acceptingState "pm_agent_key")))) = added
    /\ Forall (fun r =>
          Api.gridId (Api.payload r) = "BTC_7_1"%string
          /\ Api.commentary (Api.payload r)
             = "Round ?: custom at 94400, 3.6x odds on BTC level 1"%string
          /\ Api.strategy (Api.payload r) = None) added.
Proof.
  cbv zeta.
  destruct (pickAndBet_custom_strategy ladderFeed
              (exampleTrade (Some (Picker.Custom
                 (fun grids _ => List.last grids (ladderGrid "none" "0" "0" "0" "0")))) None)
              (acceptingState "pm_agent_key")
              {| Trading.currentPrice := "94400"; Trading.grids := ladder |}
              (fun grids _ => List.last grids (ladderGrid "none" "0" "0" "0" "0"))
              ltac:(discriminate) eq_refl ltac:(discriminate) eq_refl)
    as (o & added & Hrun & Hsent & Hall).
  exists o, added. split; [now rewrite Hrun |]. split; [exact Hsent |].
  eapply List.Forall_impl; [| exact Hall].
  intros r (Hid & Hcommentary & Htag). rewrite Hid, Hcommentary, Htag.
  vm_compute. repeat split; reflexivity.
Defined.

Lemma pickAndBet_reads_only_round_witness :
  Trading.pickAndBet ladderFeed
    (exampleTrade None (Some (<[ "price"%string := Str "1" ]> {[ "round"%string := Str "3" ]})))
    (acceptingState "pm_agent_key")
  = Trading.pickAndBet ladderFeed
      (exampleTrade None (Some {[ "round"%string := Str "3" ]}))
      (acceptingState "pm_agent_key").
Proof.
  apply (pickAndBet_reads_only_round ladderFeed (acceptingState "pm_agent_key")).
  vm_compute. reflexivity.
Defined.

Lemma gridLevel_third_segment_witness :
  Trading.gridLevelOf "BTC" = "0"%string
  /\ Trading.gridLevelOf "BTC_7" = "0"%string
  /\ Trading.gridLevelOf "BTC_7_-1" = "-1"%string
  /\ Trading.gridLevelOf "BTC_7_-1_x_y" = "-1"%string.
Proof.
  apply (gridLevel_third_segment "BTC" "7" "-1" "x_y"); reflexivity.
Defined.

End MoreExamples.
(** ** Configuration, the command line and unparsable fields at concrete inputs *)

Section SetupExamples.

Lemma parseEnvFile_round_trip_witness :
  Config.parseEnvFile
    (envFileWorld ["PREDICTME_API_KEY=pm_agent_abc";
                   Config.envLine true "NOTE" " kept = as it is ";
                   "PREDICTME_API_KEY=pm_agent_xyz"]%string)
    "/home/agent/.env"
  = <[ "PREDICTME_API_KEY"%string := "pm_agent_xyz"%string ]>
      (<[ "NOTE"%string := " kept = as it is "%string ]>
         (<[ "PREDICTME_API_KEY"%string := "pm_agent_abc"%string ]> ∅)).
Proof.
  apply (parseEnvFile_round_trip
           (envFileWorld ["PREDICTME_API_KEY=pm_agent_abc";
                          Config.envLine true "NOTE" " kept = as it is ";
                          "PREDICTME_API_KEY=pm_agent_xyz"]%string)
           "/home/agent/.env"
           [ (false, "PREDICTME_API_KEY", "pm_agent_abc");
             (true, "NOTE", " kept = as it is ");
             (false, "PREDICTME_API_KEY", "pm_agent_xyz") ]%string).
  - vm_compute. reflexivity.
  - repeat constructor; try discriminate; try (intros _; split; reflexivity).
Defined.

Lemma loadConfig_reads_witness :
  Config.loadConfig None
    (exampleProcess {[ "PREDICTME_API_KEY"%string := ""%string ]})
    (envFileWorld ["PREDICTME_API_KEY=from_file"]%string)
  = Config.loadConfig None
      (exampleProcess {[ "PREDICTME_API_KEY"%string := ""%string ]})
      (envFileWorld []).
Proof.
  apply (loadConfig_reads None
           (exampleProcess {[ "PREDICTME_API_KEY"%string := ""%string ]})
           (envFileWorld ["PREDICTME_API_KEY=from_file"]%string) (envFileWorld [])).
  intros name Hname. cbn in Hname.
  destruct Hname as [<- | [<- | [<- | [<- | [<- | []]]]]]; vm_compute;
    first [discriminate | reflexivity].
Defined.

Lemma newAgent_contract_witness :
  Api.apiKey
    (Config.newAgent
       {| Config.o_apiKey := Some "pm_agent_opt"%string; Config.o_apiUrl := None;
          Config.o_noncePath := None |}
       (exampleProcess {[ "PREDICTME_API_KEY"%string := "pm_agent_env"%string ]})
       (envFileWorld ["PREDICTME_API_KEY=pm_agent_file"]%string))
  = "pm_agent_opt"%string.
Proof.
  apply (proj1 (proj2 (proj2 (newAgent_contract
           {| Config.o_apiKey := Some "pm_agent_opt"%string; Config.o_apiUrl := None;
              Config.o_noncePath := None |}
           (exampleProcess {[ "PREDICTME_API_KEY"%string := "pm_agent_env"%string ]})
           (envFileWorld ["PREDICTME_API_KEY=pm_agent_file"]%string))))).
  - reflexivity.
  - discriminate.
Defined.

Lemma agent_without_key_sends_nothing_witness :
  let st :=
    {| Api.agent :=
         Config.newAgent
           {| Config.o_apiKey := None; Config.o_apiUrl := None; Config.o_noncePath := None |}
           (exampleProcess {[ "PREDICTME_API_KEY"%string := ""%string ]})
           (envFileWorld ["PREDICTME_API_URL=https://api.example"]%string);
       Api.env := Api.env (acceptingState "") |} in
  (exists e, fst (Api.placeBet (exampleBet None) st) = Api.Thrown e)
  /\ Api.sent (Api.env (snd (Api.placeBet (exampleBet None) st))) = []
  /\ Trading.pickAndBet ladderFeed (exampleTrade None None) st
     = (Trading.Done (Api.Thrown
          (Api.newError "API key required. Set PREDICTME_API_KEY in .env")), st).
Proof.
  apply (agent_without_key_sends_nothing
           {| Config.o_apiKey := None; Config.o_apiUrl := None; Config.o_noncePath := None |}
           (exampleProcess {[ "PREDICTME_API_KEY"%string := ""%string ]})
           (envFileWorld ["PREDICTME_API_URL=https://api.example"]%string)).
  - reflexivity.
  - intros name Hname. cbn in Hname.
    destruct Hname as [<- | [<- | []]]; vm_compute; reflexivity.
Defined.

Lemma run_is_bounded_witness :
  Cli.roundsOf (nth_error ["BTC"; "1"; "value"; "80"; "BTC"; "holds"]%string 3) = 50
  /\ Cli.roundsOf (nth_error ["BTC"; "1"; "value"; "soon"]%string 3) = 5.
Proof.
  assert (Hvalue : ~ In "value"%string Picker.inherited).
  { cbn. intros E. repeat destruct E as [E | E]; try discriminate E. exact E. }
  split.
  - apply (proj1 (proj2 (proj2 (run_is_bounded (fun _ => ladderFeed)
             ["BTC"; "1"; "value"; "80"; "BTC"; "holds"]%string (acceptingState "pm_agent_key")
             Hvalue)))
             "80"%string 80); [reflexivity | reflexivity | discriminate].
  - apply (proj1 (proj2 (run_is_bounded (fun _ => ladderFeed)
             ["BTC"; "1"; "value"; "soon"]%string (acceptingState "pm_agent_key") Hvalue))).
    right. exists "soon"%string. split; [reflexivity |]. right. left. reflexivity.
Defined.

Lemma third_argument_is_the_strategy_witness :
  let args := ["BTC"; "1"; "BTC"; "holds"; "the"; "support"; "at"; "94k,"; "expecting";
               "a"; "bounce"]%string in
  (exists e, Cli.betCommand ladderFeed args (acceptingState "pm_agent_key")
             = (Trading.Done (Api.Thrown e), acceptingState "pm_agent_key"))
  /\ (forall n i, Cli.runRounds (fun _ => ladderFeed) args n i (acceptingState "pm_agent_key")
                  = Some (acceptingState "pm_agent_key"))
  /\ match Cli.runCommand (fun _ => ladderFeed) args (acceptingState "pm_agent_key") with
     | Cli.Stopped _ st' => st' = acceptingState "pm_agent_key"
     | Cli.Finished r => r = Some (acceptingState "pm_agent_key")
     end.
Proof.
  apply (third_argument_is_the_strategy ladderFeed (fun _ => ladderFeed)
           ["BTC"; "1"; "BTC"; "holds"; "the"; "support"; "at"; "94k,"; "expecting";
            "a"; "bounce"]%string (acceptingState "pm_agent_key") "BTC"%string).
  - reflexivity.
  - discriminate.
  - cbn. intros [E | [E | [E | [E | []]]]]; discriminate E.
  - cbn. intros E. repeat destruct E as [E | E]; try discriminate E. exact E.
Defined.

Lemma unparsable_first_grid_wins_witness :
  Strategy.balanced (sampleGrid "BTC_1_0" "n/a" "2.0" :: sampleGrids) "94500"
  = Some (sampleGrid "BTC_1_0" "n/a" "2.0").
Proof.
  apply (proj1 (proj1 (unparsable_first_grid_wins (sampleGrid "BTC_1_0" "n/a" "2.0")
                         sampleGrids "94500"))).
  vm_compute. reflexivity.
Defined.

End SetupExamples.
